(** * Market dashboard: fetch, normalise, aggregate

    A shallow embedding of the data helpers of the three Streamlit pages
    ([streamlit_app.py], [pages/Crypto_Stocks.py], [pages/Crypto_Prices.py])
    and the properties their specification states about them.

    Numbers are IEEE 754 binary64 values (Python [float], numpy [float64]),
    taken from the Standard Library's executable specification of floating
    point arithmetic. Exceptions are values of an error monad. The network
    and the parsing routines of the libraries are parameters. *)

From Stdlib Require Import ZArith List String Ascii Bool Lia.
From Stdlib Require Import Permutation Sorted.
From Stdlib Require Import Floats.SpecFloat.
Import ListNotations.

Local Open Scope string_scope.
Local Open Scope list_scope.
Local Open Scope Z_scope.

(* ===================================================================== *)
(** * Binary64 arithmetic *)
(* ===================================================================== *)

Module F64.

Definition float : Type := spec_float.

Definition prec : Z := 53.
Definition emax : Z := 1024.

Definition nan : float := S754_nan.
Definition pinf : float := S754_infinity false.
Definition ninf : float := S754_infinity true.
Definition zero : float := S754_zero false.

(** The float nearest to the integer [z] ([float(z)] in Python). *)
Definition of_Z (z : Z) : float := binary_normalize prec emax z 0 false.

Definition add : float -> float -> float := SFadd prec emax.
Definition sub : float -> float -> float := SFsub prec emax.
Definition mul : float -> float -> float := SFmul prec emax.
Definition div : float -> float -> float := SFdiv prec emax.

(** [np.isnan] *)
Definition isnan (x : float) : bool :=
  match x with S754_nan => true | _ => false end.

(** Truth value of a number: every value but the two zeros is true
    (NaN included). *)
Definition truthy (x : float) : bool :=
  match x with S754_zero _ => false | _ => true end.

(** Syntactic equality of floats, decidable. *)
Definition eqb (x y : float) : bool :=
  match x, y with
  | S754_zero a, S754_zero b => Bool.eqb a b
  | S754_infinity a, S754_infinity b => Bool.eqb a b
  | S754_nan, S754_nan => true
  | S754_finite a m e, S754_finite b n f =>
      Bool.eqb a b && Pos.eqb m n && Z.eqb e f
  | _, _ => false
  end.

(** [np.rint]: the nearest integer, ties to even; the sign is kept, also
    on a zero result. A finite float with a negative exponent [e] is
    [m * 2^e]; its integer part is [m / 2^(-e)]. *)
Definition rint (x : float) : float :=
  match x with
  | S754_finite s m e =>
      if 0 <=? e then x
      else
        let d := Z.pow 2 (- e) in
        let q := Z.div (Zpos m) d in
        let r := Z.modulo (Zpos m) d in
        let n :=
          match Z.compare (2 * r) d with
          | Lt => q
          | Gt => q + 1
          | Eq => if Z.even q then q else q + 1
          end in
        binary_normalize prec emax (if s then - n else n) 0 s
  | _ => x
  end.

(** [np.round(x, 2)], which numpy computes as [rint(x * 100) / 100]. *)
Definition round2 (x : float) : float :=
  div (rint (mul x (of_Z 100))) (of_Z 100).

End F64.


(* ===================================================================== *)
(** * Python values, exceptions and strings *)
(* ===================================================================== *)

Module Py.

(** Exceptions the helpers can meet. *)
Inductive exn : Type :=
| RequestTimeout       (* the timeout of the requests library *)
| ConnectionError      (* its connection error *)
| JSONDecodeError      (* r.json() on a body that is not JSON *)
| AttributeError
| TypeError
| ValueError
| KeyError
| IndexError
| OverflowError
| OutOfBoundsDatetime
| DownloadError.       (* any failure inside yfinance *)

(** A computation returns a value or raises. *)
Inductive result (A : Type) : Type :=
| Ok (a : A)
| Raise (e : exn).
Arguments Ok {A} a.
Arguments Raise {A} e.

Definition bind {A B : Type} (m : result A) (k : A -> result B) : result B :=
  match m with
  | Ok a => k a
  | Raise e => Raise e
  end.

(** [try: body except Exception: handler] *)
Definition try_except {A : Type} (body : result A) (handler : result A)
  : result A :=
  match body with
  | Ok a => Ok a
  | Raise _ => handler
  end.

Fixpoint mapM {A B : Type} (f : A -> result B) (l : list A)
  : result (list B) :=
  match l with
  | [] => Ok []
  | a :: l' =>
      bind (f a) (fun b => bind (mapM f l') (fun bs => Ok (b :: bs)))
  end.

(** Decoded JSON: what [json.loads] builds. An object is a [dict], kept
    as its items in insertion order (the keys of a dict are distinct). *)
#[local] Set Warnings "-register-all".
Inductive json : Type :=
| JNull
| JBool (b : bool)
| JInt (z : Z)
| JFloat (x : F64.float)
| JStr (s : string)
| JArr (l : list json)
| JObj (items : list (string * json)).

Fixpoint lookup {V : Type} (k : string) (items : list (string * V))
  : option V :=
  match items with
  | [] => None
  | (k', v) :: rest => if String.eqb k k' then Some v else lookup k rest
  end.

(** [d.get(k, default)]; only a dict has [get]. *)
Definition get (d : json) (k : string) (default : json) : result json :=
  match d with
  | JObj items =>
      Ok (match lookup k items with Some v => v | None => default end)
  | _ => Raise AttributeError
  end.

(** [d.items()] *)
Definition items (d : json) : result (list (string * json)) :=
  match d with
  | JObj kv => Ok kv
  | _ => Raise AttributeError
  end.

(** Truth value of a decoded JSON value ([if x:]). *)
Definition truthy (x : json) : bool :=
  match x with
  | JNull => false
  | JBool b => b
  | JInt z => negb (z =? 0)
  | JFloat f => F64.truthy f
  | JStr s => negb (String.eqb s EmptyString)
  | JArr l => match l with [] => false | _ => true end
  | JObj kv => match kv with [] => false | _ => true end
  end.

(** [x[0]] *)
Definition item0 (x : json) : result json :=
  match x with
  | JArr (a :: _) => Ok a
  | JArr [] => Raise IndexError
  | JObj _ => Raise KeyError         (* the keys are strings, never 0 *)
  | JStr s =>
      match s with
      | String c _ => Ok (JStr (String c EmptyString))
      | EmptyString => Raise IndexError
      end
  | _ => Raise TypeError
  end.

(** [s.endswith(suffix)] *)
Definition endswith (s suffix : string) : bool :=
  let n := String.length s in
  let m := String.length suffix in
  (m <=? n)%nat && String.eqb (substring (n - m) m s) suffix.

(** [s.split(sep)] for a separator of one character. *)
Fixpoint split (sep : ascii) (s : string) : list string :=
  match s with
  | EmptyString => [EmptyString]
  | String c rest =>
      if Ascii.eqb c sep then EmptyString :: split sep rest
      else
        match split sep rest with
        | w :: ws => String c w :: ws
        | [] => [String c EmptyString]
        end
  end.

(** [c in s] *)
Fixpoint has_char (c : ascii) (s : string) : bool :=
  match s with
  | EmptyString => false
  | String c' rest => Ascii.eqb c' c || has_char c rest
  end.

(** [a, b = l]: unpacking into exactly two names. *)
Definition unpack2 {A : Type} (l : list A) : result (A * A) :=
  match l with
  | [a; b] => Ok (a, b)
  | _ => Raise ValueError
  end.

Section Float.
(** [float(s)] on a string is the library's parser: [None] where it
    raises [ValueError]. *)
Variable float_of_str : string -> option F64.float.

(** [float(x)] *)
Definition to_float (x : json) : result F64.float :=
  match x with
  | JStr s =>
      match float_of_str s with
      | Some f => Ok f
      | None => Raise ValueError
      end
  | JFloat f => Ok f
  | JInt z =>
      match F64.of_Z z with
      | S754_infinity _ => Raise OverflowError
      | f => Ok f
      end
  | JBool b => Ok (F64.of_Z (if b then 1 else 0))
  | _ => Raise TypeError
  end.
End Float.

End Py.

Import Py.

Notation "x <- m ;; k" := (Py.bind m (fun x => k))
  (at level 61, m at next level, right associativity).
Notation "' p <- m ;; k" := (Py.bind m (fun x => match x with p => k end))
  (at level 61, p pattern, m at next level, right associativity).

(* ===================================================================== *)
(** * The network *)
(* ===================================================================== *)

Module Http.

(** A query parameter. *)
Inductive param : Type :=
| PStr (s : string)
| PInt (z : Z).

(** What [requests.get(url, params=..., timeout=20)] can do: raise, or
    return a response with a status code and a body. The body is [None]
    when it is not JSON, so that [r.json()] raises. No helper looks at
    the status code. *)
Inductive outcome (B : Type) : Type :=
| TimedOut
| Refused
| Response (status : Z) (body : option B).
Arguments TimedOut {B}.
Arguments Refused {B}.
Arguments Response {B} status body.

Definition network (B : Type) : Type :=
  string -> list (string * param) -> outcome B.

(** [requests.get(...).json()] *)
Definition get_json {B : Type} (net : network B) (url : string)
  (params : list (string * param)) : result B :=
  match net url params with
  | TimedOut => Raise RequestTimeout
  | Refused => Raise ConnectionError
  | Response _ (Some b) => Ok b
  | Response _ None => Raise JSONDecodeError
  end.

(** The exception a failed exchange ends in: a timeout, a refused
    connection, or a body that is not JSON. *)
Definition failure {B : Type} (o : outcome B) : option exn :=
  match o with
  | TimedOut => Some RequestTimeout
  | Refused => Some ConnectionError
  | Response _ None => Some JSONDecodeError
  | Response _ (Some _) => None
  end.

End Http.

Import Http.

(* ===================================================================== *)
(** * pages/Crypto_Stocks.py *)
(* ===================================================================== *)

Module CryptoStocks.

Definition BASE_URL : string := "https://www.alphavantage.co/query".

(** A [Timestamp] is a count of nanoseconds since the epoch; [None] is
    [NaT]. The timestamps carry no time zone, as the dates of the provider
    do. *)
Definition timestamp : Type := option Z.

(** One row of the frame with columns Date, Open, High, Low, Close,
    Volume. *)
Record bar : Type := {
  Date : timestamp;
  Open : F64.float;
  High : F64.float;
  Low : F64.float;
  Close : F64.float;
  Volume : F64.float
}.

(** The order [sort_values] uses on a datetime column: ascending, with
    [NaT] last. *)
Definition date_leb (a b : timestamp) : bool :=
  match a, b with
  | Some x, Some y => x <=? y
  | _, None => true
  | None, Some _ => false
  end.

(** Two rows in ascending order of date. *)
Definition date_le (a b : bar) : Prop := date_leb (Date a) (Date b) = true.

Fixpoint insert_by_date (r : bar) (l : list bar) : list bar :=
  match l with
  | [] => [r]
  | h :: t =>
      if date_leb (Date r) (Date h) then r :: l
      else h :: insert_by_date r t
  end.

Fixpoint sort_by_date (l : list bar) : list bar :=
  match l with
  | [] => []
  | h :: t => insert_by_date h (sort_by_date t)
  end.

(** [pd.DataFrame(rows).sort_values("Date")]. A frame built from no row
    has no column, and sorting it by "Date" raises [KeyError]. The order
    in which pandas leaves rows of equal date is not used below. *)
Definition sort_values_Date (rows : list bar) : result (list bar) :=
  match rows with
  | [] => Raise KeyError
  | _ => Ok (sort_by_date rows)
  end.

(** The two requests of [av_fetch_daily_series]. *)
Inductive route : Type :=
| DigitalCurrencyDaily (params : list (string * param))
| TimeSeriesDaily (params : list (string * param)).

(** Lines 42-49 and 63-69: the choice of the request by the suffix of
    the symbol. *)
Definition av_route (symbol api_key : string) : result route :=
  if endswith symbol "-USD" then
    ' (crypto_symbol, market) <- unpack2 (split "-"%char symbol) ;;
    Ok (DigitalCurrencyDaily
          [ ("function", PStr "DIGITAL_CURRENCY_DAILY");
            ("symbol", PStr crypto_symbol);
            ("market", PStr market);
            ("apikey", PStr api_key) ])
  else
    Ok (TimeSeriesDaily
          [ ("function", PStr "TIME_SERIES_DAILY");
            ("symbol", PStr symbol);
            ("outputsize", PStr "compact");
            ("apikey", PStr api_key) ]).

Section Fetch.
(** [pd.to_datetime] on a string: raises, or gives a timestamp or
    [NaT]. *)
Variable to_datetime : string -> result timestamp.
Variable float_of_str : string -> option F64.float.
Variable net : network json.

Definition float_field (vals : json) (key : string) : result F64.float :=
  v <- get vals key (JStr "nan") ;;
  to_float float_of_str v.

(** Lines 54-60: one row of the crypto series. *)
Definition crypto_row (item : string * json) : result bar :=
  let '(date_str, vals) := item in
  close <- float_field vals "4a. close (USD)" ;;
  high <- float_field vals "2a. high (USD)" ;;
  low <- float_field vals "3a. low (USD)" ;;
  volume <- float_field vals "5. volume" ;;
  d <- to_datetime date_str ;;
  Ok {| Date := d; Open := F64.nan; High := high; Low := low;
        Close := close; Volume := volume |}.

(** Lines 74-82: one row of the equity series. *)
Definition equity_row (item : string * json) : result bar :=
  let '(date_str, vals) := item in
  d <- to_datetime date_str ;;
  o <- float_field vals "1. open" ;;
  h <- float_field vals "2. high" ;;
  l <- float_field vals "3. low" ;;
  c <- float_field vals "4. close" ;;
  v <- float_field vals "5. volume" ;;
  Ok {| Date := d; Open := o; High := h; Low := l;
        Close := c; Volume := v |}.

(** The body of the [try] block. *)
Definition av_fetch_body (symbol api_key : string) : result (list bar) :=
  rt <- av_route symbol api_key ;;
  match rt with
  | DigitalCurrencyDaily params =>
      data <- get_json net BASE_URL params ;;
      ts <- get data "Time Series (Digital Currency Daily)" (JObj []) ;;
      its <- items ts ;;
      rows <- mapM crypto_row its ;;
      sort_values_Date rows
  | TimeSeriesDaily params =>
      data <- get_json net BASE_URL params ;;
      ts <- get data "Time Series (Daily)" (JObj []) ;;
      its <- items ts ;;
      rows <- mapM equity_row its ;;
      sort_values_Date rows
  end.

(** [av_fetch_daily_series]: the frame as its list of rows; the frame
    of the [except] branch has the six columns and no row. *)
Definition av_fetch_daily_series (symbol api_key : string)
  : result (list bar) :=
  try_except (av_fetch_body symbol api_key) (Ok []).
End Fetch.

(** The dict [compute_snapshot_from_series] returns. *)
Record snapshot : Type := {
  current_price : F64.float;
  pct_change : F64.float
}.

(** [df.iloc[i]] for a row position, negative ones counted from the
    end. *)
Definition iloc {A : Type} (df : list A) (i : Z) : result A :=
  let n := Z.of_nat (List.length df) in
  let j := if i <? 0 then i + n else i in
  if (j <? 0) || (n <=? j) then Raise IndexError
  else
    match nth_error df (Z.to_nat j) with
    | Some r => Ok r
    | None => Raise IndexError
    end.

Definition compute_snapshot_from_series (df : list bar) : result snapshot :=
  match df with
  | [] => Ok {| current_price := F64.nan; pct_change := F64.nan |}
  | _ =>
      last <- iloc df (-1) ;;
      prev <- (if (1 <? List.length df)%nat
               then r <- iloc df (-2) ;; Ok (Close r)
               else Ok F64.nan) ;;
      let last := Close last in
      let pct :=
        if negb (F64.isnan prev)
        then F64.mul (F64.div (F64.sub last prev) prev) (F64.of_Z 100)
        else F64.nan in
      Ok {| current_price := last;
            pct_change := if negb (F64.isnan pct) then pct else F64.nan |}
  end.

(** The percent change as the specification words it. *)
Definition percent_change (last_close prev_close : F64.float) : F64.float :=
  F64.mul (F64.div (F64.sub last_close prev_close) prev_close) (F64.of_Z 100).

(** ** The page: snapshot table and trend chart *)

Section Page.
Variable to_datetime : string -> result timestamp.
Variable float_of_str : string -> option F64.float.
Variable net : network json.

(** Line 103: the series of an asset; without a key (absent or empty)
    nothing is fetched and the frame is [pd.DataFrame()]. *)
Definition series_for (API_KEY : option string) (t : string)
  : result (list bar) :=
  match API_KEY with
  | Some (String c k) =>
      av_fetch_daily_series to_datetime float_of_str net t (String c k)
  | _ => Ok []
  end.

(** Lines 102-106: one row of the snapshot table. *)
Definition snapshot_row (API_KEY : option string) (t : string)
  : result (string * snapshot) :=
  df <- series_for API_KEY t ;;
  snap <- compute_snapshot_from_series df ;;
  Ok (t, snap).
End Page.

(** Line 129: the mask of the date range; a comparison with [NaT] is
    false. *)
Definition in_range (start_date end_date : Z) (d : timestamp) : bool :=
  match d with
  | Some x => (start_date <=? x) && (x <=? end_date)
  | None => false
  end.

(** A row of the frame given to the line chart. *)
Record trend_point : Type := {
  tp_Date : timestamp;
  tp_Close : F64.float;
  tp_Asset : string
}.

(** Two points in ascending order of date. *)
Definition point_le (a b : trend_point) : Prop :=
  date_leb (tp_Date a) (tp_Date b) = true.

(** Lines 129-131 *)
Definition trend_points (start_date end_date : Z) (t : string)
  (df : list bar) : list trend_point :=
  map (fun r => {| tp_Date := Date r; tp_Close := Close r; tp_Asset := t |})
      (filter (fun r => in_range start_date end_date (Date r)) df).

(** Lines 125-132: one frame per asset whose series has a row. *)
Definition series_list (start_date end_date : Z)
  (series_by_asset : list (string * list bar)) : list (list trend_point) :=
  map (fun a => trend_points start_date end_date (fst a) (snd a))
      (filter (fun a => match snd a with [] => false | _ => true end)
              series_by_asset).

(** Lines 134-140: the frame of the chart, or [None] when the page says
    that no data is available. *)
Definition chart_df (start_date end_date : Z)
  (series_by_asset : list (string * list bar)) : option (list trend_point) :=
  match series_list start_date end_date series_by_asset with
  | [] => None
  | l => Some (List.concat l)
  end.

End CryptoStocks.

(* ===================================================================== *)
(** * pages/Crypto_Prices.py *)
(* ===================================================================== *)

Module CryptoPrices.

Definition GECKO_BASE : string := "https://api.coingecko.com/api/v3".

(** ** get_markets_for_cards

    The body of /coins/markets is a list of dicts. [pd.DataFrame] makes
    one row per dict and one column per key, in the order the keys are
    first met; where a dict lacks the key, the column is given NaN. *)

Definition market := list (string * json).

Fixpoint mem (k : string) (l : list string) : bool :=
  match l with
  | [] => false
  | h :: t => String.eqb k h || mem k t
  end.

Definition add_keys (seen : list string) (d : market) : list string :=
  fold_left (fun acc kv => if mem (fst kv) acc then acc else acc ++ [fst kv])
            d seen.

(** [pd.DataFrame(payload).columns] *)
Definition columns_of (payload : list market) : list string :=
  fold_left add_keys payload [].

(** The Python objects [pd.DataFrame] is given for the column [c], one per
    dict: the value of the key, NaN where the dict lacks it. *)
Definition objects_of (payload : list market) (c : string) : list json :=
  map (fun row =>
         match lookup c row with
         | Some v => v
         | None => JFloat F64.nan
         end)
      payload.

(** The lambda of line 39. *)
Definition sparkline_prices (x : json) : json :=
  match x with
  | JObj kv =>
      match lookup "price" kv with
      | Some v => v
      | None => JArr []
      end
  | _ => JArr []
  end.

(** A row of the frame the function returns. *)
Record card : Type := {
  id : json;
  symbol : json;
  name : json;
  current_price : json;
  price_change_percentage_24h : json;
  sparkline : json
}.

(** [",".join(ids)] *)
Fixpoint join_comma (ids : list string) : string :=
  match ids with
  | [] => EmptyString
  | [a] => a
  | a :: rest => String.append a (String.append "," (join_comma rest))
  end.

Section Markets.
(** pandas does not keep the objects of a column as they are given: it
    infers one type for the column and stores, for one, a null beside
    numbers as NaN and integers beside NaN as floats. [stored objects i]
    is the value it stores at position [i] of a column built from
    [objects]; the inference is the library's. *)
Variable stored : list json -> nat -> json.

(** [df[c]] at the row [i]. *)
Definition cell (payload : list market) (c : string) (i : nat) : json :=
  stored (objects_of payload c) i.

(** What the page relies on for the column of sparklines: a dict is stored
    as it is given, and nothing else is stored as a dict. *)
Definition keeps_dicts : Prop :=
  forall (objects : list json) (i : nat) (x : json),
    nth_error objects i = Some x ->
    match x with
    | JObj d => stored objects i = JObj d
    | _ => forall d, stored objects i <> JObj d
    end.

Definition get_markets_for_cards (net : network (list market))
  (ids : list string) : result (list card) :=
  let params :=
    [ ("vs_currency", PStr "usd");
      ("ids", PStr (join_comma ids));
      ("sparkline", PStr "true");
      ("price_change_percentage", PStr "24h") ] in
  payload <- get_json net (String.append GECKO_BASE "/coins/markets") params ;;
  let columns := columns_of payload in
  let spark (i : nat) : json :=
    if mem "sparkline_in_7d" columns
    then sparkline_prices (cell payload "sparkline_in_7d" i)
    else JArr [] in
  (* df[[...]]: every listed label must be a column; "sparkline" is one
     since the assignment above *)
  if forallb (fun c => mem c columns)
       ["id"; "symbol"; "name"; "current_price";
        "price_change_percentage_24h"]
  then
    Ok (map (fun i =>
               {| id := cell payload "id" i;
                  symbol := cell payload "symbol" i;
                  name := cell payload "name" i;
                  current_price := cell payload "current_price" i;
                  price_change_percentage_24h :=
                    cell payload "price_change_percentage_24h" i;
                  sparkline := spark i |})
            (seq 0 (List.length payload)))
  else Raise KeyError.
End Markets.

(** ** get_market_chart

    The body of /coins/{id}/market_chart: two lists of [timestamp, value]
    pairs, the timestamps in milliseconds and the values numbers; a key
    can be absent. *)

Record chart_payload : Type := {
  prices : option (list (Z * F64.float));
  market_caps : option (list (Z * F64.float))
}.

Record chart_row : Type := {
  ts : Z;
  price : F64.float;
  market_cap : F64.float;
  Date : Z
}.

(** [js.get(key, [])] *)
Definition get_list {A : Type} (o : option (list A)) : list A :=
  match o with
  | Some l => l
  | None => []
  end.

(** [pd.merge(df_p, df_m, on="ts", how="left")]: the rows of the left
    frame in their order, each once per right row of the same key, and
    once with NaN when there is none. *)
Definition merge_left (df_p df_m : list (Z * F64.float))
  : list (Z * F64.float * F64.float) :=
  flat_map
    (fun p =>
       match filter (fun m => fst m =? fst p) df_m with
       | [] => [ (fst p, snd p, F64.nan) ]
       | ms => map (fun m => (fst p, snd p, snd m)) ms
       end)
    df_p.

(** The market cap of the first entry with the timestamp [t], NaN when
    there is none. *)
Definition cap_at (ms : list (Z * F64.float)) (t : Z) : F64.float :=
  match find (fun m => fst m =? t) ms with
  | Some m => snd m
  | None => F64.nan
  end.

(** [pd.to_datetime(ts, unit="ms")] at one entry: nanoseconds in a signed
    64-bit integer, or an error when they do not fit. *)
Definition to_datetime_ms (t : Z) : result Z :=
  if Z.abs t <=? 9223372036854 then Ok (t * 1000000)
  else Raise OutOfBoundsDatetime.

Definition get_market_chart (net : network chart_payload)
  (coin_id : string) (days : Z) : result (list chart_row) :=
  let params := [ ("vs_currency", PStr "usd"); ("days", PInt days) ] in
  js <- get_json net
          (String.append GECKO_BASE
             (String.append "/coins/" (String.append coin_id "/market_chart")))
          params ;;
  let prices := get_list (prices js) in
  let market_caps := get_list (market_caps js) in
  let df := merge_left prices market_caps in
  mapM (fun r =>
          let '(t, p, m) := r in
          d <- to_datetime_ms t ;;
          Ok {| ts := t; price := p; market_cap := m; Date := d |})
       df.

(** ** get_fear_greed *)

Record fear_greed : Type := {
  value : F64.float;
  classification : json
}.

Section FearGreed.
Variable float_of_str : string -> option F64.float.
Variable net : network json.

(** The [try] block; [None] when it falls through. *)
Definition fear_greed_body : result (option fear_greed) :=
  js <- get_json net "https://api.alternative.me/fng/" [ ("limit", PInt 1) ] ;;
  data <- get js "data" (JArr []) ;;
  if truthy data then
    d0 <- item0 data ;;
    v <- get d0 "value" (JStr "nan") ;;
    val <- to_float float_of_str v ;;
    cls <- get d0 "value_classification" (JStr EmptyString) ;;
    Ok (Some {| value := val; classification := cls |})
  else Ok None.

Definition get_fear_greed : result fear_greed :=
  let fallback := {| value := F64.nan; classification := JStr EmptyString |} in
  match fear_greed_body with
  | Ok (Some fg) => Ok fg
  | Ok None => Ok fallback
  | Raise _ => Ok fallback          (* except Exception: pass *)
  end.
End FearGreed.

(** ** get_market_tickers

    The body of /coins/{id}/tickers. A ticker is given by the fields the
    function reads; [JNull] is Python's [None], which [get] returns for
    an absent key. The last price and the volume are binary64 numbers or
    [None]. *)

Record ticker : Type := {
  market_name : json;        (* t.get("market", {}).get("name") *)
  base : json;
  target : json;
  last : option F64.float;
  volume : option F64.float;
  trust_score : json;
  trade_url : json
}.

Record tickers_payload : Type := {
  tickers : option (list ticker)
}.

Record ticker_row : Type := {
  Exchange : json;
  Pair : json * json;        (* shown as base/target *)
  Price : json;
  Volume_24h : json;
  Liquidity : json;
  Trade_URL : json;
  Volume_pct : F64.float     (* the column "Volume %" *)
}.

(** The number an entry counts as in the arithmetic of a column: NaN for
    [None]. *)
Definition as_float (v : option F64.float) : F64.float :=
  match v with
  | Some x => x
  | None => F64.nan
  end.

Definition has_number (col : list (option F64.float)) : bool :=
  existsb (fun v => match v with Some _ => true | None => false end) col.

(** What [pd.DataFrame] stores for an entry of a column of numbers and
    [None]: with a number somewhere in the column it is a float column and
    [None] is NaN; with none, the column keeps its [None]s. *)
Definition number_cell (col : list (option F64.float)) (v : option F64.float)
  : json :=
  if has_number col then JFloat (as_float v) else JNull.

Definition neg_zero : F64.float := S754_zero true.

(** numpy adds fewer than 8 numbers, and the last numbers of a longer
    block, one by one. *)
Definition add_each (res : F64.float) (a : list F64.float) : F64.float :=
  fold_left F64.add a res.

(** numpy's unrolled loop over a block: eight running sums take the
    numbers eight at a time; they are then added in pairs, and the numbers
    left over are added to that. *)
Fixpoint sum_unrolled (r0 r1 r2 r3 r4 r5 r6 r7 : F64.float)
  (a : list F64.float) : F64.float :=
  match a with
  | x0 :: x1 :: x2 :: x3 :: x4 :: x5 :: x6 :: x7 :: rest =>
      sum_unrolled (F64.add r0 x0) (F64.add r1 x1) (F64.add r2 x2)
                   (F64.add r3 x3) (F64.add r4 x4) (F64.add r5 x5)
                   (F64.add r6 x6) (F64.add r7 x7) rest
  | _ =>
      add_each
        (F64.add (F64.add (F64.add r0 r1) (F64.add r2 r3))
                 (F64.add (F64.add r4 r5) (F64.add r6 r7)))
        a
  end.

(** The sum of a block of at most [PW_BLOCKSIZE] numbers. *)
Definition block_sum (a : list F64.float) : F64.float :=
  match a with
  | x0 :: x1 :: x2 :: x3 :: x4 :: x5 :: x6 :: x7 :: rest =>
      sum_unrolled x0 x1 x2 x3 x4 x5 x6 x7 rest
  | _ => add_each neg_zero a
  end.

Definition PW_BLOCKSIZE : nat := 128.

(** numpy's pairwise sum: a longer array is cut in two, the first part of
    half the length rounded down to a multiple of 8, and the sums of the
    parts are added. [depth] bounds the number of cuts; the length of the
    array is enough ([pairwise_sum_depth]). *)
Fixpoint pairwise_sum_upto (depth : nat) (a : list F64.float) : F64.float :=
  let n := List.length a in
  if (n <=? PW_BLOCKSIZE)%nat then block_sum a
  else
    match depth with
    | O => block_sum a
    | S d =>
        let n2 := (n / 2 - (n / 2) mod 8)%nat in
        F64.add (pairwise_sum_upto d (firstn n2 a))
                (pairwise_sum_upto d (skipn n2 a))
    end.

Definition pairwise_sum (a : list F64.float) : F64.float :=
  pairwise_sum_upto (List.length a) a.

(** [Series.sum()]: NaN counts as zero, and the numbers are added by numpy's
    reduction, which starts from a zero and adds the pairwise sum of the
    column. (Whether numpy starts from -0.0 or 0.0 has changed between its
    versions; only the sign of a zero total depends on it.) *)
Definition series_sum (col : list F64.float) : F64.float :=
  F64.add neg_zero
    (pairwise_sum (map (fun x => if F64.isnan x then F64.zero else x) col)).

(** Line 99, at one row. *)
Definition volume_share (total_vol v : F64.float) : F64.float :=
  if F64.truthy total_vol
  then F64.round2 (F64.mul (F64.div v total_vol) (F64.of_Z 100))
  else F64.zero.

(** The share as the specification words it. *)
Definition volume_share_percent (total_vol v : F64.float) : F64.float :=
  F64.mul (F64.div v total_vol) (F64.of_Z 100).

Definition get_market_tickers (net : network tickers_payload)
  (coin_id : string) : result (list ticker_row) :=
  js <- get_json net
          (String.append GECKO_BASE
             (String.append "/coins/" (String.append coin_id "/tickers")))
          [] ;;
  let tickers := get_list (tickers js) in
  let total_vol := series_sum (map (fun t => as_float (volume t)) tickers) in
  Ok (map (fun t =>
             {| Exchange := market_name t;
                Pair := (base t, target t);
                Price := number_cell (map last tickers) (last t);
                Volume_24h := number_cell (map volume tickers) (volume t);
                Liquidity := trust_score t;
                Trade_URL := trade_url t;
                Volume_pct := volume_share total_vol (as_float (volume t)) |})
          tickers).

(** ** The markets table *)

Definition json_is_str (x : json) (s : string) : bool :=
  match x with
  | JStr s' => String.eqb s' s
  | _ => false
  end.

(** [map_liq]: the integers 3, 2, 1, or the float NaN. *)
Definition map_liq (x : json) : json :=
  if json_is_str x "green" then JInt 3
  else if json_is_str x "yellow" then JInt 2
  else if json_is_str x "red" then JInt 1
  else JFloat F64.nan.

(** The column "Liquidity score" of line 216. *)
Definition liquidity_score (mt : list ticker_row) : list json :=
  map (fun r => map_liq (Liquidity r)) mt.

(** ** get_global_data *)

Record global_data : Type := {
  btc_dom : json
}.

Definition get_global_data (net : network json) : result global_data :=
  r <- get_json net (String.append GECKO_BASE "/global") [] ;;
  js <- get r "data" (JObj []) ;;
  mcp <- get js "market_cap_percentage" (JObj []) ;;
  btc <- get mcp "btc" JNull ;;
  Ok {| btc_dom := btc |}.

(** ** The chart of the page *)

Inductive metric : Type :=
| Price_metric
| Market_Cap_metric.

Definition y_col (metric_choice : metric) (r : chart_row) : F64.float :=
  match metric_choice with
  | Price_metric => price r
  | Market_Cap_metric => market_cap r
  end.

(** Lines 156-160: the rows kept for the chart, those whose value is not
    NaN (the Date of a row is never [NaT]). *)
Definition clean_series (metric_choice : metric) (series : list chart_row)
  : list chart_row :=
  filter (fun r => negb (F64.isnan (y_col metric_choice r))) series.

(** Line 184: the value the gauge shows. *)
Definition gauge_value (fg : fear_greed) : F64.float :=
  if negb (F64.isnan (value fg)) then value fg else F64.zero.

End CryptoPrices.

(* ===================================================================== *)
(** * streamlit_app.py *)
(* ===================================================================== *)

Module App.

Definition is_lower (c : ascii) : bool :=
  let n := nat_of_ascii c in ((97 <=? n) && (n <=? 122))%nat.

Definition is_upper (c : ascii) : bool :=
  let n := nat_of_ascii c in ((65 <=? n) && (n <=? 90))%nat.

Definition to_upper (c : ascii) : ascii :=
  if is_lower c then ascii_of_nat (nat_of_ascii c - 32) else c.

Definition to_lower (c : ascii) : ascii :=
  if is_upper c then ascii_of_nat (nat_of_ascii c + 32) else c.

(** [str.title] on ASCII text: a letter after a letter is made lower
    case, a letter after anything else upper case. *)
Fixpoint title_from (previous_is_cased : bool) (s : string) : string :=
  match s with
  | EmptyString => EmptyString
  | String c rest =>
      if is_lower c then
        String (if previous_is_cased then c else to_upper c)
               (title_from true rest)
      else if is_upper c then
        String (if previous_is_cased then to_lower c else c)
               (title_from true rest)
      else String c (title_from false rest)
  end.

Definition title (s : string) : string := title_from false s.

(** The column labels of the frame [yf.download] returns: plain names, or
    the (field, ticker) pairs of a [MultiIndex]. *)
Inductive labels : Type :=
| Index (names : list string)
| MultiIndex (names : list (string * string)).

(** The downloaded frame: a datetime index and one list of floats per
    column. *)
Record download : Type := {
  d_columns : labels;
  d_index : list CryptoStocks.timestamp;
  d_data : list (list F64.float)
}.

Inductive column : Type :=
| Dates (l : list CryptoStocks.timestamp)
| Floats (l : list F64.float).

(** A frame as its columns in order. *)
Definition frame : Type := list (string * column).

Definition has_column (df : frame) (c : string) : bool :=
  CryptoPrices.mem c (map fst df).

(** Lines 58-60. *)
Definition ensure_column (rows : nat) (df : frame) (col : string) : frame :=
  if has_column df col then df
  else df ++ [ (col, Floats (repeat F64.nan rows)) ].

Definition empty_frame : frame :=
  [ ("Date", Dates []); ("Open", Floats []); ("High", Floats []);
    ("Low", Floats []); ("Close", Floats []); ("Volume", Floats []) ].

Section Fetch.
(** [yf.download(ticker, start=start, end=end, progress=False)] *)
Variable yf_download : string -> Z -> Z -> result download.

Definition fetch_history_body (ticker : string) (start end_ : Z)
  : result frame :=
  df <- yf_download ticker start end_ ;;
  let names :=
    match d_columns df with
    | MultiIndex cs => map fst cs
    | Index ns => ns
    end in
  let names := map title names in
  (* reset_index puts the index in front as the column "Date", and
     refuses when there is such a column already *)
  if CryptoPrices.mem "Date" names then Raise ValueError
  else
    let df' : frame :=
      ("Date", Dates (d_index df))
        :: combine names (map Floats (d_data df)) in
    Ok (fold_left (ensure_column (List.length (d_index df))) 
          ["Open"; "High"; "Low"; "Close"; "Volume"] df').

Definition fetch_history (ticker : string) (start end_ : Z)
  : result frame :=
  try_except (fetch_history_body ticker start end_) (Ok empty_frame).
End Fetch.

(** ** compute_kpis *)

(** [a < b]; false when one of them is NaN. *)
Definition ltb (a b : F64.float) : bool := SFltb a b.

(** [Series.max(skipna=True)]: NaN when no entry is a number. The running
    maximum gives way to an entry that is not below it, so of two equal
    entries the later is kept; equal entries differ in nothing but the
    sign of a zero. *)
Definition col_max (col : list F64.float) : F64.float :=
  match filter (fun x => negb (F64.isnan x)) col with
  | [] => F64.nan
  | x :: xs => fold_left (fun acc y => if ltb y acc then acc else y) xs x
  end.

(** [Series.min(skipna=True)]; of two equal entries the later is kept. *)
Definition col_min (col : list F64.float) : F64.float :=
  match filter (fun x => negb (F64.isnan x)) col with
  | [] => F64.nan
  | x :: xs => fold_left (fun acc y => if ltb acc y then acc else y) xs x
  end.

(** [df.empty] *)
Definition frame_empty (df : frame) : bool :=
  match df with
  | [] => true
  | (_, Dates l) :: _ => match l with [] => true | _ => false end
  | (_, Floats l) :: _ => match l with [] => true | _ => false end
  end.

(** The columns of [df] that carry the label [c]; a frame can carry a
    label more than once. *)
Definition labelled (df : frame) (c : string) : list column :=
  map snd (filter (fun kv => String.eqb c (fst kv)) df).

(** [df[c]] as the column of floats that [float(df[c].max())] needs.
    Without the label, [df[c]] raises KeyError. With the label on two
    columns or more, [df[c]] is a frame and its maxima are a series, which
    [float] refuses with TypeError; so it does with a date. *)
Definition float_column (df : frame) (c : string) : result (list F64.float) :=
  match labelled df c with
  | [] => Raise KeyError
  | [Floats l] => Ok l
  | [Dates _] => Raise TypeError
  | _ :: _ :: _ => Raise TypeError
  end.

Record kpis : Type := {
  Highest_Value : F64.float;
  Lowest_Value : F64.float;
  Highest_Closing_Price : F64.float;
  Lowest_Closing_Price : F64.float
}.

Definition compute_kpis (df : frame) : result kpis :=
  if frame_empty df then
    Ok {| Highest_Value := F64.nan; Lowest_Value := F64.nan;
          Highest_Closing_Price := F64.nan; Lowest_Closing_Price := F64.nan |}
  else
    high <- float_column df "High" ;;
    low <- float_column df "Low" ;;
    close <- float_column df "Close" ;;
    Ok {| Highest_Value := col_max high;
          Lowest_Value := col_min low;
          Highest_Closing_Price := col_max close;
          Lowest_Closing_Price := col_min close |}.

End App.

(* ===================================================================== *)
(** * st.cache_data *)
(* ===================================================================== *)

Module Cache.

(** The decorated helpers and the [ttl] of their decorators. *)
Inductive helper : Type :=
| get_markets_for_cards
| get_market_chart
| get_global_data
| get_fear_greed
| get_market_tickers
| av_fetch_daily_series
| fetch_history.

Definition ttl (h : helper) : Z :=
  match h with
  | get_markets_for_cards => 300
  | get_market_chart => 300
  | get_global_data => 300
  | get_fear_greed => 300
  | get_market_tickers => 300
  | av_fetch_daily_series => 600
  | fetch_history => 600
  end.

(** The helpers of pages/Crypto_Prices.py, the crypto endpoints. *)
Definition crypto_endpoint (h : helper) : bool :=
  match h with
  | av_fetch_daily_series | fetch_history => false
  | _ => true
  end.

Definition helper_eq_dec (a b : helper) : {a = b} + {a <> b}.
Proof. decide equality. Defined.

(** The decorator [st.cache_data] is Streamlit's: the code that stores and
    serves the results is not in this repository. It is taken from the
    specification's TTLCache. *)

Section TTLCache.
Context {A V : Type}.
Variable A_eq_dec : forall a b : A, {a = b} + {a <> b}.

(** Modelled from the spec: the key under which [st.cache_data], whose
    code is missing, stores a result: the pair (functionIdentity,
    argumentsTuple); the functions are the decorated helpers. *)
Definition key : Type := (helper * A)%type.

(** Modelled from the spec: the key equality of the missing cache; two
    keys are the same when both the function and the arguments are. *)
Definition key_eq_dec (k1 k2 : key) : {k1 = k2} + {k1 <> k2}.
Proof. decide equality. apply helper_eq_dec. Defined.

(** Modelled from the spec: the entries of the missing cache, CacheEntry
    {key, value, expiresAt}. *)
Record entry : Type := {
  e_key : key;
  e_value : V;
  expiresAt : Z
}.

(** Modelled from the spec: the state of the missing cache, the entries
    it owns. *)
Definition store : Type := list entry.

(** Modelled from the spec: the lookup of the missing cache,
    [get(key) -> CacheEntry | Miss]. *)
Fixpoint get (c : store) (k : key) : option entry :=
  match c with
  | [] => None
  | e :: rest => if key_eq_dec (e_key e) k then Some e else get rest k
  end.

(** Modelled from the spec: the store of the missing cache,
    [put(key, value, ttlSeconds)], an unconditional overwrite that replaces
    the entry of the key as a whole and leaves the entries of the other
    keys. [now] is the wall clock, in seconds. *)
Definition put (c : store) (now : Z) (k : key) (v : V) (ttlSeconds : Z)
  : store :=
  {| e_key := k; e_value := v; expiresAt := now + ttlSeconds |}
    :: filter (fun e => if key_eq_dec (e_key e) k then false else true) c.

(** Modelled from the spec: what the missing [st.cache_data] does on a
    call, [resolve(key, ttlSeconds, computeFn)]: it returns the cached
    value if unexpired, else invokes [computeFn], stores and returns;
    expiry is checked against the wall clock at the read. The result is the
    value, the store after the call and the number of times [computeFn]
    was invoked. *)
Definition resolve (c : store) (now : Z) (k : key) (ttlSeconds : Z)
  (computeFn : unit -> V) : V * store * nat :=
  let compute :=
    let v := computeFn tt in (v, put c now k v ttlSeconds, 1%nat) in
  match get c k with
  | Some e => if now <? expiresAt e then (e_value e, c, 0%nat) else compute
  | None => compute
  end.

(** Modelled from the spec: a call of the helper [h], decorated with the
    missing [st.cache_data], with the arguments [a]: it resolves the key
    [(h, a)] with the time-to-live of the decorator of [h]; [body] is the
    body of the helper, with what it returns at the time of the call. *)
Definition call (c : store) (now : Z) (h : helper) (a : A)
  (body : unit -> V) : V * store * nat :=
  resolve c now (h, a) (ttl h) body.

(** Modelled from the spec: a request to the missing cache, one call of a
    decorated helper at a time. *)
Record request : Type := {
  r_time : Z;
  r_helper : helper;
  r_args : A;
  r_body : unit -> V
}.

(** Modelled from the spec: the store of the missing cache after the
    calls of [rs], one after the other. *)
Definition run (c : store) (rs : list request) : store :=
  fold_left
    (fun c r =>
       snd (fst (call c (r_time r) (r_helper r) (r_args r) (r_body r))))
    rs c.
End TTLCache.

End Cache.

(* ===================================================================== *)
(** * Sample parsers and payloads *)
(* ===================================================================== *)

Module Sample.

Definition digit (c : ascii) : option Z :=
  let n := nat_of_ascii c in
  if ((48 <=? n) && (n <=? 57))%nat then Some (Z.of_nat (n - 48)) else None.

Fixpoint digits_from (acc : Z) (s : string) : option Z :=
  match s with
  | EmptyString => Some acc
  | String c rest =>
      match digit c with
      | Some d => digits_from (10 * acc + d) rest
      | None => None
      end
  end.

Definition number (s : string) : option Z :=
  match s with
  | EmptyString => None
  | _ => digits_from 0 s
  end.

(** A parser that agrees with [float] on "nan" and on plain decimal
    integers and rejects every other string. *)
Definition float_of_str (s : string) : option F64.float :=
  if String.eqb s "nan" then Some F64.nan
  else option_map F64.of_Z (number s).

(** Days from 1970-01-01 to the given civil date. *)
Definition days_from_civil (y m d : Z) : Z :=
  let y' := if m <=? 2 then y - 1 else y in
  let era := y' / 400 in
  let yoe := y' - era * 400 in
  let doy := (153 * (if 2 <? m then m - 3 else m + 9) + 2) / 5 + d - 1 in
  let doe := yoe * 365 + yoe / 4 - yoe / 100 + doy in
  era * 146097 + doe - 719468.

(** A parser that agrees with [pd.to_datetime] on dates written
    YYYY-MM-DD and rejects every other string. *)
Definition to_datetime (s : string) : result CryptoStocks.timestamp :=
  match map number (split "-"%char s) with
  | [Some y; Some m; Some d] =>
      if (1 <=? m) && (m <=? 12) && (1 <=? d) && (d <=? 31)
      then Ok (Some (days_from_civil y m d * 86400 * 1000000000))
      else Raise ValueError
  | _ => Raise ValueError
  end.

Definition ok200 {B : Type} (body : B) : network B :=
  fun _ _ => Response 200 (Some body).

(** A crypto daily payload, newest day first as the provider sends it. *)
Definition crypto_daily : json :=
  JObj [ ("Meta Data", JObj []);
         ("Time Series (Digital Currency Daily)",
          JObj [ ("2024-01-03",
                  JObj [ ("1a. open (USD)", JStr "105");
                         ("2a. high (USD)", JStr "120");
                         ("3a. low (USD)", JStr "100");
                         ("4a. close (USD)", JStr "110");
                         ("5. volume", JStr "7") ]);
                 ("2024-01-02",
                  JObj [ ("2a. high (USD)", JStr "108");
                         ("3a. low (USD)", JStr "95");
                         ("4a. close (USD)", JStr "100");
                         ("5. volume", JStr "9") ]) ]) ].

(** A market chart whose prices arrive newest first. *)
Definition unsorted_chart : CryptoPrices.chart_payload :=
  {| CryptoPrices.prices :=
       Some [ (1704240000000, F64.of_Z 110); (1704153600000, F64.of_Z 100) ];
     CryptoPrices.market_caps := Some [ (1704153600000, F64.of_Z 5000) ] |}.

(** Seven daily prices and the market caps of five of the days. *)
Definition day (n : Z) : Z := 1704067200000 + n * 86400000.

Definition week_chart : CryptoPrices.chart_payload :=
  {| CryptoPrices.prices :=
       Some (map (fun n => (day n, F64.of_Z (100 + n))) [0; 1; 2; 3; 4; 5; 6]);
     CryptoPrices.market_caps :=
       Some (map (fun n => (day n, F64.of_Z (9000 + n))) [0; 1; 3; 4; 6]) |}.

Definition close_bar (c : Z) : CryptoStocks.bar :=
  {| CryptoStocks.Date := None;
     CryptoStocks.Open := F64.nan;
     CryptoStocks.High := F64.nan;
     CryptoStocks.Low := F64.nan;
     CryptoStocks.Close := F64.of_Z c;
     CryptoStocks.Volume := F64.nan |}.

Definition ticker_of (vol : option F64.float) (trust : json)
  : CryptoPrices.ticker :=
  {| CryptoPrices.market_name := JStr "Binance";
     CryptoPrices.base := JStr "BTC";
     CryptoPrices.target := JStr "USDT";
     CryptoPrices.last := Some (F64.of_Z 42000);
     CryptoPrices.volume := vol;
     CryptoPrices.trust_score := trust;
     CryptoPrices.trade_url := JNull |}.

Definition tickers_of (vols : list Z) : CryptoPrices.tickers_payload :=
  {| CryptoPrices.tickers :=
       Some (map (fun v => ticker_of (Some (F64.of_Z v)) (JStr "green")) vols) |}.

(** An equity daily payload, newest day first; the older day has no
    volume. *)
Definition equity_daily : json :=
  JObj [ ("Meta Data", JObj []);
         ("Time Series (Daily)",
          JObj [ ("2024-01-03",
                  JObj [ ("1. open", JStr "105");
                         ("2. high", JStr "120");
                         ("3. low", JStr "100");
                         ("4. close", JStr "110");
                         ("5. volume", JStr "7") ]);
                 ("2024-01-02",
                  JObj [ ("1. open", JStr "98");
                         ("2. high", JStr "108");
                         ("3. low", JStr "95");
                         ("4. close", JStr "100") ]) ]) ].

(** The bar of a day given by its open, high, low, close and volume. *)
Definition ohlcv_bar (d : Z) (o h l c v : F64.float) : CryptoStocks.bar :=
  {| CryptoStocks.Date := Some d;
     CryptoStocks.Open := o;
     CryptoStocks.High := h;
     CryptoStocks.Low := l;
     CryptoStocks.Close := c;
     CryptoStocks.Volume := v |}.

(** A crypto daily payload whose older day has a null close. *)
Definition broken_daily : json :=
  JObj [ ("Time Series (Digital Currency Daily)",
          JObj [ ("2024-01-03",
                  JObj [ ("2a. high (USD)", JStr "120");
                         ("3a. low (USD)", JStr "100");
                         ("4a. close (USD)", JStr "110");
                         ("5. volume", JStr "7") ]);
                 ("2024-01-02",
                  JObj [ ("4a. close (USD)", JNull) ]) ]) ].

(** The stored values of a column that pandas keeps as given: a column of
    strings, of floats, of integers or of dicts. *)
Definition stored (objects : list json) (i : nat) : json :=
  nth i objects (JFloat F64.nan).

(** Two markets as /coins/markets sends them; the second has no
    sparkline. *)
Definition two_markets : list CryptoPrices.market :=
  [ [ ("id", JStr "bitcoin"); ("symbol", JStr "btc"); ("name", JStr "Bitcoin");
      ("current_price", JInt 42000);
      ("price_change_percentage_24h", JFloat (F64.of_Z 2));
      ("sparkline_in_7d", JObj [ ("price", JArr [ JInt 1; JInt 2 ]) ]) ];
    [ ("id", JStr "ethereum"); ("symbol", JStr "eth"); ("name", JStr "Ethereum");
      ("current_price", JInt 2200);
      ("price_change_percentage_24h", JFloat (F64.of_Z 1)) ] ].

(** The body of the sentiment index. *)
Definition fng : json :=
  JObj [ ("name", JStr "Fear and Greed Index");
         ("data", JArr [ JObj [ ("value", JStr "55");
                                ("value_classification", JStr "Greed") ] ]) ].

(** The body of /global. *)
Definition global_stats : json :=
  JObj [ ("data",
          JObj [ ("active_cryptocurrencies", JInt 17000);
                 ("market_cap_percentage",
                  JObj [ ("btc", JFloat (F64.of_Z 52));
                         ("eth", JFloat (F64.of_Z 17)) ]) ]) ].

(** A download of two days with a (field, ticker) header and no volume. *)
Definition two_days : App.download :=
  {| App.d_columns :=
       App.MultiIndex [ ("Close", "GC=F"); ("High", "GC=F");
                        ("Low", "GC=F"); ("Open", "GC=F") ];
     App.d_index := [ Some 1704153600000000000; Some 1704240000000000000 ];
     App.d_data :=
       [ [ F64.of_Z 2040; F64.of_Z 2050 ];
         [ F64.of_Z 2060; F64.of_Z 2055 ];
         [ F64.of_Z 2030; F64.of_Z 2035 ];
         [ F64.of_Z 2045; F64.of_Z 2041 ] ] |}.

(** A download with two columns of closes, labelled "close" and "Close". *)
Definition two_closes : App.download :=
  {| App.d_columns := App.Index [ "close"; "Close"; "High"; "Low" ];
     App.d_index := [ Some 1704153600000000000 ];
     App.d_data :=
       [ [ F64.of_Z 2040 ]; [ F64.of_Z 2041 ]; [ F64.of_Z 2060 ];
         [ F64.of_Z 2030 ] ] |}.

End Sample.

(* ===================================================================== *)
(** * Facts about binary64 values *)
(* ===================================================================== *)

Section FloatFacts.

Lemma of_Z_100 : F64.of_Z 100 = S754_finite false 7036874417766400 (-46).
Proof. vm_compute. reflexivity. Qed.

Lemma sub_nan_r (x : F64.float) : F64.sub x F64.nan = F64.nan.
Proof. destruct x; reflexivity. Qed.

Lemma div_nan_l (y : F64.float) : F64.div F64.nan y = F64.nan.
Proof. reflexivity. Qed.

Lemma mul_nan_l (y : F64.float) : F64.mul F64.nan y = F64.nan.
Proof. reflexivity. Qed.

Lemma isnan_true (x : F64.float) : F64.isnan x = true -> x = F64.nan.
Proof. destruct x; simpl; intros H; try discriminate; reflexivity. Qed.

(** Guarding a value by [isnan] changes nothing: there is one NaN. *)
Lemma nan_guard (x : F64.float) :
  (if negb (F64.isnan x) then x else F64.nan) = x.
Proof. destruct x; reflexivity. Qed.

Lemma round2_nan : F64.round2 F64.nan = F64.nan.
Proof. reflexivity. Qed.

End FloatFacts.

(* ===================================================================== *)
(** * compute_snapshot_from_series *)
(* ===================================================================== *)

Section Snapshot.
Import CryptoStocks.

Lemma iloc_last {A : Type} (front : list A) (l : A) :
  iloc (front ++ [l]) (-1) = Ok l.
Proof.
  unfold iloc. rewrite length_app. simpl List.length.
  replace (-1 <? 0) with true by reflexivity.
  set (n := Z.of_nat (List.length front + 1)).
  assert (Hn : n = Z.of_nat (List.length front) + 1) by (unfold n; lia).
  replace (-1 + n <? 0) with false by (symmetry; apply Z.ltb_ge; lia).
  replace (n <=? -1 + n) with false by (symmetry; apply Z.leb_gt; lia).
  simpl orb. cbv iota.
  replace (Z.to_nat (-1 + n)) with (List.length front) by lia.
  rewrite nth_error_app2 by lia. rewrite Nat.sub_diag. reflexivity.
Qed.

Lemma iloc_second_last {A : Type} (front : list A) (p l : A) :
  iloc (front ++ [p; l]) (-2) = Ok p.
Proof.
  unfold iloc. rewrite length_app. simpl List.length.
  replace (-2 <? 0) with true by reflexivity.
  set (n := Z.of_nat (List.length front + 2)).
  assert (Hn : n = Z.of_nat (List.length front) + 2) by (unfold n; lia).
  replace (-2 + n <? 0) with false by (symmetry; apply Z.ltb_ge; lia).
  replace (n <=? -2 + n) with false by (symmetry; apply Z.leb_gt; lia).
  simpl orb. cbv iota.
  replace (Z.to_nat (-2 + n)) with (List.length front) by lia.
  rewrite nth_error_app2 by lia. rewrite Nat.sub_diag. reflexivity.
Qed.

Lemma percent_change_nan (x : F64.float) : percent_change x F64.nan = F64.nan.
Proof. unfold percent_change. rewrite sub_nan_r. reflexivity. Qed.

(** Over a zero the quotient is an infinity, unless the numerator is a
    zero or NaN too. *)
Lemma percent_change_zero (x : F64.float) (s : bool) :
  percent_change x (S754_zero s) =
  match x with
  | S754_nan | S754_zero _ => F64.nan
  | S754_infinity sx | S754_finite sx _ _ => S754_infinity (xorb (xorb sx s) false)
  end.
Proof.
  unfold percent_change. rewrite of_Z_100.
  destruct x as [sx | sx | | sx m e]; try reflexivity;
    destruct sx, s; reflexivity.
Qed.

Lemma snapshot_two_or_more (front : list bar) (p l : bar) :
  compute_snapshot_from_series (front ++ [p; l]) =
  Ok {| current_price := Close l;
        pct_change := percent_change (Close l) (Close p) |}.
Proof.
  unfold compute_snapshot_from_series.
  destruct (front ++ [p; l]) as [| h t] eqn:E.
  - destruct front; discriminate.
  - rewrite <- E. clear E h t.
    replace (front ++ [p; l]) with ((front ++ [p]) ++ [l])
      by (rewrite <- app_assoc; reflexivity).
    rewrite iloc_last. cbn [bind].
    replace ((front ++ [p]) ++ [l]) with (front ++ [p; l])
      by (rewrite <- app_assoc; reflexivity).
    replace (1 <? List.length (front ++ [p; l]))%nat with true
      by (symmetry; apply Nat.ltb_lt; rewrite length_app; simpl; lia).
    rewrite iloc_second_last. cbn [bind].
    rewrite nan_guard. fold (percent_change (Close l) (Close p)).
    destruct (F64.isnan (Close p)) eqn:N; cbn [negb].
    + apply isnan_true in N. rewrite N, percent_change_nan. reflexivity.
    + reflexivity.
Qed.

End Snapshot.

(** C3 (as amended). For a series of two bars or more,
    [compute_snapshot_from_series] reports the last close and the change
    (last - previous) / previous * 100 in binary64 arithmetic. For an empty
    series and for a single bar the change is NaN, and it is NaN when the
    previous close is NaN. When the previous close is a zero the change is
    the IEEE quotient: an infinity for a last close that is neither zero
    nor NaN, and NaN otherwise. On the closes 100 then 110 it is 10.0. *)
Theorem percent_change_of_series :
  (forall (front : list CryptoStocks.bar) (p l : CryptoStocks.bar),
      CryptoStocks.compute_snapshot_from_series (front ++ [p; l]) =
      Ok {| CryptoStocks.current_price := CryptoStocks.Close l;
            CryptoStocks.pct_change :=
              CryptoStocks.percent_change (CryptoStocks.Close l)
                                          (CryptoStocks.Close p) |})
  /\ CryptoStocks.compute_snapshot_from_series [] =
     Ok {| CryptoStocks.current_price := F64.nan;
           CryptoStocks.pct_change := F64.nan |}
  /\ (forall b : CryptoStocks.bar,
         CryptoStocks.compute_snapshot_from_series [b] =
         Ok {| CryptoStocks.current_price := CryptoStocks.Close b;
               CryptoStocks.pct_change := F64.nan |})
  /\ (forall x : F64.float, CryptoStocks.percent_change x F64.nan = F64.nan)
  /\ (forall (x : F64.float) (s : bool),
         CryptoStocks.percent_change x (S754_zero s) =
         match x with
         | S754_nan | S754_zero _ => F64.nan
         | S754_infinity sx | S754_finite sx _ _ =>
             S754_infinity (xorb (xorb sx s) false)
         end)
  /\ CryptoStocks.compute_snapshot_from_series
       [Sample.close_bar 100; Sample.close_bar 110] =
     Ok {| CryptoStocks.current_price := F64.of_Z 110;
           CryptoStocks.pct_change := F64.of_Z 10 |}.
Proof.
  split; [ exact snapshot_two_or_more | ].
  split; [ reflexivity | ].
  split; [ intros b; reflexivity | ].
  split; [ exact percent_change_nan | ].
  split; [ exact percent_change_zero | ].
  vm_compute. reflexivity.
Qed.

(** C3 (as stated) fails: with the closes 0 then 110 the previous close is
    0 and the change is plus infinity, not NaN. *)
Lemma percent_change_over_zero_is_not_nan :
  CryptoStocks.Close (Sample.close_bar 0) = F64.zero
  /\ exists s,
       CryptoStocks.compute_snapshot_from_series
         [Sample.close_bar 0; Sample.close_bar 110] = Ok s
       /\ CryptoStocks.pct_change s = F64.pinf
       /\ F64.isnan (CryptoStocks.pct_change s) = false.
Proof.
  split; [ reflexivity | ].
  eexists. split; [ vm_compute; reflexivity | ]. split; reflexivity.
Qed.

(* ===================================================================== *)
(** * The dispatch on the symbol *)
(* ===================================================================== *)

Section Dispatch.
Import CryptoStocks.

Lemma substring_all (s : string) : substring 0 (String.length s) s = s.
Proof. induction s as [| c s IH]; simpl; [ reflexivity | now rewrite IH ]. Qed.

Lemma substring_skip (b s : string) :
  substring (String.length b) (String.length s) (String.append b s) = s.
Proof. induction b as [| c b IH]; simpl; [ apply substring_all | exact IH ]. Qed.

Lemma length_append (b s : string) :
  String.length (String.append b s) = (String.length b + String.length s)%nat.
Proof. induction b as [| c b IH]; simpl; [ reflexivity | now rewrite IH ]. Qed.

Lemma endswith_append (b s : string) : endswith (String.append b s) s = true.
Proof.
  unfold endswith. rewrite length_append.
  replace (String.length b + String.length s - String.length s)%nat
    with (String.length b) by lia.
  rewrite substring_skip, String.eqb_refl, andb_true_r.
  apply Nat.leb_le. lia.
Qed.

Lemma split_nonempty (sep : ascii) (s : string) : split sep s <> [].
Proof.
  destruct s as [| c s]; simpl; [ discriminate | ].
  destruct (Ascii.eqb c sep); [ discriminate | ].
  destruct (split sep s); discriminate.
Qed.

(** Splitting stops at the first separator. *)
Lemma split_append (sep : ascii) (b rest : string) :
  has_char sep b = false ->
  split sep (String.append b (String sep rest)) = b :: split sep rest.
Proof.
  induction b as [| c b IH]; simpl; intros H.
  - now rewrite Ascii.eqb_refl.
  - apply orb_false_iff in H. destruct H as [Hc Hb].
    rewrite Hc, (IH Hb). reflexivity.
Qed.

(** A separator inside the first part gives one more piece. *)
Lemma split_two_or_more (sep : ascii) (b rest : string) :
  has_char sep b = true ->
  exists x y zs, split sep (String.append b (String sep rest)) = x :: y :: zs
                 /\ (1 <= List.length zs)%nat.
Proof.
  induction b as [| c b IH]; simpl; intros H; [ discriminate | ].
  destruct (Ascii.eqb c sep) eqn:Hc.
  - clear IH H.
    assert (Hw : exists y zs,
               split sep (String.append b (String sep rest)) = y :: zs
               /\ (1 <= List.length zs)%nat).
    { clear c Hc. induction b as [| c b IH]; simpl.
      - rewrite Ascii.eqb_refl.
        destruct (split sep rest) eqn:E; [ now apply split_nonempty in E | ].
        eexists _, _. split; [ reflexivity | simpl; lia ].
      - destruct IH as (y & zs & E & L). rewrite E.
        destruct (Ascii.eqb c sep).
        + eexists _, _. split; [ reflexivity | simpl; lia ].
        + eexists _, _. split; [ reflexivity | exact L ]. }
    destruct Hw as (y & zs & E & L). rewrite E.
    exists EmptyString, y, zs. split; [ reflexivity | exact L ].
  - simpl in H. destruct (IH H) as (x & y & zs & E & L). rewrite E.
    exists (String c x), y, zs. split; [ reflexivity | exact L ].
Qed.

Lemma route_crypto (b api_key : string) :
  has_char "-"%char b = false ->
  av_route (String.append b "-USD") api_key =
  Ok (DigitalCurrencyDaily
        [ ("function", PStr "DIGITAL_CURRENCY_DAILY");
          ("symbol", PStr b);
          ("market", PStr "USD");
          ("apikey", PStr api_key) ]).
Proof.
  intros H. unfold av_route. rewrite endswith_append.
  change "-USD" with (String "-"%char "USD").
  rewrite (split_append _ _ _ H). reflexivity.
Qed.

Lemma route_equity (symbol api_key : string) :
  endswith symbol "-USD" = false ->
  av_route symbol api_key =
  Ok (TimeSeriesDaily
        [ ("function", PStr "TIME_SERIES_DAILY");
          ("symbol", PStr symbol);
          ("outputsize", PStr "compact");
          ("apikey", PStr api_key) ]).
Proof. intros H. unfold av_route. rewrite H. reflexivity. Qed.

Lemma route_many_hyphens (b api_key : string) :
  has_char "-"%char b = true ->
  av_route (String.append b "-USD") api_key = Raise ValueError.
Proof.
  intros H. unfold av_route. rewrite endswith_append.
  change "-USD" with (String "-"%char "USD").
  destruct (split_two_or_more _ _ "USD" H) as (x & y & zs & E & L).
  rewrite E. destruct zs; [ simpl in L; lia | reflexivity ].
Qed.

(** A raised exception ends in the frame without rows. *)
Lemma fetch_of_no_route to_datetime float_of_str net symbol api_key e :
  av_route symbol api_key = Raise e ->
  av_fetch_daily_series to_datetime float_of_str net symbol api_key = Ok [].
Proof.
  intros H. unfold av_fetch_daily_series, av_fetch_body. rewrite H. reflexivity.
Qed.

End Dispatch.

(** C4 (as amended). A symbol made of a part without hyphen followed by
    "-USD" is sent as a DIGITAL_CURRENCY_DAILY request with that part as
    symbol and "USD" as market; "BTC-USD" gives "BTC" and "USD". A symbol
    that does not end in "-USD" is sent unchanged as a TIME_SERIES_DAILY
    request; "AAPL" is. A symbol that ends in "-USD" and has another hyphen
    before it is split at every hyphen, which raises inside the [try], so
    that no request is made and the series has no row. *)
Theorem symbol_dispatch :
  (forall b api_key : string,
      has_char "-"%char b = false ->
      CryptoStocks.av_route (String.append b "-USD") api_key =
      Ok (CryptoStocks.DigitalCurrencyDaily
            [ ("function", PStr "DIGITAL_CURRENCY_DAILY");
              ("symbol", PStr b);
              ("market", PStr "USD");
              ("apikey", PStr api_key) ]))
  /\ (forall symbol api_key : string,
         endswith symbol "-USD" = false ->
         CryptoStocks.av_route symbol api_key =
         Ok (CryptoStocks.TimeSeriesDaily
               [ ("function", PStr "TIME_SERIES_DAILY");
                 ("symbol", PStr symbol);
                 ("outputsize", PStr "compact");
                 ("apikey", PStr api_key) ]))
  /\ (forall b api_key : string,
         has_char "-"%char b = true ->
         CryptoStocks.av_route (String.append b "-USD") api_key = Raise ValueError
         /\ forall to_datetime float_of_str net,
              CryptoStocks.av_fetch_daily_series to_datetime float_of_str net
                (String.append b "-USD") api_key = Ok []).
Proof.
  split; [ exact route_crypto | ].
  split; [ exact route_equity | ].
  intros b api_key H. split; [ now apply route_many_hyphens | ].
  intros. eapply fetch_of_no_route. now apply route_many_hyphens.
Qed.

(** The dispatch at "BTC-USD", "AAPL" and "BTC-PERP-USD". *)
Lemma symbol_dispatch_witness :
  CryptoStocks.av_route "BTC-USD" "demo" =
  Ok (CryptoStocks.DigitalCurrencyDaily
        [ ("function", PStr "DIGITAL_CURRENCY_DAILY");
          ("symbol", PStr "BTC");
          ("market", PStr "USD");
          ("apikey", PStr "demo") ])
  /\ CryptoStocks.av_route "AAPL" "demo" =
     Ok (CryptoStocks.TimeSeriesDaily
           [ ("function", PStr "TIME_SERIES_DAILY");
             ("symbol", PStr "AAPL");
             ("outputsize", PStr "compact");
             ("apikey", PStr "demo") ])
  /\ CryptoStocks.av_route "BTC-PERP-USD" "demo" = Raise ValueError.
Proof.
  destruct symbol_dispatch as (Hc & He & Hm).
  split; [ exact (Hc "BTC" "demo" eq_refl) | ].
  split; [ exact (He "AAPL" "demo" eq_refl) | ].
  exact (proj1 (Hm "BTC-PERP" "demo" eq_refl)).
Defined.

(** C4 (as stated) fails: "BTC-PERP-USD" ends in "-USD", and splitting it
    on its last hyphen would give "BTC-PERP" and "USD"; the code reaches no
    request at all and returns the series without rows. *)
Lemma symbol_with_two_hyphens_is_not_routed :
  endswith "BTC-PERP-USD" "-USD" = true
  /\ CryptoStocks.av_route "BTC-PERP-USD" "demo" = Raise ValueError
  /\ CryptoStocks.av_route "BTC-PERP-USD" "demo" <>
     Ok (CryptoStocks.DigitalCurrencyDaily
           [ ("function", PStr "DIGITAL_CURRENCY_DAILY");
             ("symbol", PStr "BTC-PERP");
             ("market", PStr "USD");
             ("apikey", PStr "demo") ])
  /\ CryptoStocks.av_fetch_daily_series Sample.to_datetime Sample.float_of_str
       (Sample.ok200 Sample.crypto_daily) "BTC-PERP-USD" "demo" = Ok [].
Proof.
  split; [ reflexivity | ].
  split; [ reflexivity | ].
  split; [ discriminate | reflexivity ].
Qed.

(* ===================================================================== *)
(** * Failures of the network and empty payloads *)
(* ===================================================================== *)

Section Failures.

Lemma get_json_failure {B : Type} (o : outcome B) (e : exn) url params :
  failure o = Some e -> get_json (fun _ _ => o) url params = Raise e.
Proof.
  unfold get_json. destruct o as [| | st [b |]]; simpl; intros H;
    inversion H; reflexivity.
Qed.

(** The helpers that wrap their body in [try/except] return a value
    whatever the network and the parsers do. *)
Lemma av_fetch_returns to_datetime float_of_str net symbol api_key :
  exists df,
    CryptoStocks.av_fetch_daily_series to_datetime float_of_str net
      symbol api_key = Ok df.
Proof.
  unfold CryptoStocks.av_fetch_daily_series.
  destruct (CryptoStocks.av_fetch_body _ _ _ _ _); simpl; eauto.
Qed.

Lemma fetch_history_returns yf ticker start end_ :
  exists df, App.fetch_history yf ticker start end_ = Ok df.
Proof.
  unfold App.fetch_history.
  destruct (App.fetch_history_body _ _ _ _); simpl; eauto.
Qed.

Lemma get_fear_greed_returns float_of_str net :
  exists fg, CryptoPrices.get_fear_greed float_of_str net = Ok fg.
Proof.
  unfold CryptoPrices.get_fear_greed.
  destruct (CryptoPrices.fear_greed_body _ _) as [[fg |] | e]; eauto.
Qed.

(** On a failed exchange they return their fallback. *)
Lemma guarded_fallbacks (o : outcome json) (e : exn) :
  failure o = Some e ->
  (forall to_datetime float_of_str symbol api_key,
      CryptoStocks.av_fetch_daily_series to_datetime float_of_str
        (fun _ _ => o) symbol api_key = Ok [])
  /\ (forall float_of_str,
         CryptoPrices.get_fear_greed float_of_str (fun _ _ => o) =
         Ok {| CryptoPrices.value := F64.nan;
               CryptoPrices.classification := JStr EmptyString |}).
Proof.
  intros H. split.
  - intros. unfold CryptoStocks.av_fetch_daily_series, CryptoStocks.av_fetch_body.
    destruct (CryptoStocks.av_route symbol api_key) as [[ps | ps] | x];
      cbn [bind try_except]; try reflexivity;
      rewrite (get_json_failure o e _ _ H); reflexivity.
  - intros. unfold CryptoPrices.get_fear_greed, CryptoPrices.fear_greed_body.
    rewrite (get_json_failure o e _ _ H). reflexivity.
Qed.

Lemma fetch_history_fallback yf ticker start end_ e :
  yf ticker start end_ = Raise e ->
  App.fetch_history yf ticker start end_ = Ok App.empty_frame.
Proof.
  intros H. unfold App.fetch_history, App.fetch_history_body.
  rewrite H. reflexivity.
Qed.

(** An empty payload: the two helpers that return the empty series. *)
Lemma get_market_chart_empty_payload st coin_id days :
  CryptoPrices.get_market_chart
    (fun _ _ => Response st (Some {| CryptoPrices.prices := None;
                                     CryptoPrices.market_caps := None |}))
    coin_id days = Ok [].
Proof. reflexivity. Qed.

Lemma av_fetch_empty_payload to_datetime float_of_str st symbol api_key :
  CryptoStocks.av_fetch_daily_series to_datetime float_of_str
    (fun _ _ => Response st (Some (JObj []))) symbol api_key = Ok [].
Proof.
  unfold CryptoStocks.av_fetch_daily_series, CryptoStocks.av_fetch_body.
  destruct (CryptoStocks.av_route symbol api_key) as [[ps | ps] | x];
    reflexivity.
Qed.

End Failures.

(** C2, at the failing inputs. When the exchange times out, is refused or
    brings a body that is not JSON, [get_market_chart],
    [get_markets_for_cards] and [get_market_tickers] raise the exception to
    their caller: they have no [try/except], unlike [fetch_history],
    [av_fetch_daily_series] and [get_fear_greed]. *)
Theorem unguarded_helpers_raise :
  forall (e : exn),
    (forall (o : outcome CryptoPrices.chart_payload) coin_id days,
        failure o = Some e ->
        CryptoPrices.get_market_chart (fun _ _ => o) coin_id days = Raise e)
    /\ (forall stored (o : outcome (list CryptoPrices.market)) ids,
           failure o = Some e ->
           CryptoPrices.get_markets_for_cards stored (fun _ _ => o) ids
           = Raise e)
    /\ (forall (o : outcome CryptoPrices.tickers_payload) coin_id,
           failure o = Some e ->
           CryptoPrices.get_market_tickers (fun _ _ => o) coin_id = Raise e).
Proof.
  intros e. split; [ | split ]; intros.
  - unfold CryptoPrices.get_market_chart.
    now rewrite (get_json_failure o e _ _ H).
  - unfold CryptoPrices.get_markets_for_cards.
    now rewrite (get_json_failure o e _ _ H).
  - unfold CryptoPrices.get_market_tickers.
    now rewrite (get_json_failure o e _ _ H).
Qed.

(** A timeout reaches the caller of the three helpers. *)
Lemma unguarded_helpers_raise_witness :
  CryptoPrices.get_market_chart (fun _ _ => TimedOut) "bitcoin" 7
  = Raise RequestTimeout
  /\ CryptoPrices.get_markets_for_cards Sample.stored (fun _ _ => TimedOut)
       ["bitcoin"]
     = Raise RequestTimeout
  /\ CryptoPrices.get_market_tickers (fun _ _ => TimedOut) "bitcoin"
     = Raise RequestTimeout.
Proof.
  destruct (unguarded_helpers_raise RequestTimeout) as (Hc & Hm & Ht).
  split; [ exact (Hc TimedOut "bitcoin" 7 eq_refl) | ].
  split; [ exact (Hm Sample.stored TimedOut ["bitcoin"] eq_refl) | ].
  exact (Ht TimedOut "bitcoin" eq_refl).
Defined.

(** C5, at the failing input. On the empty list of markets the frame has no
    column, and the selection of the six columns at the end of
    [get_markets_for_cards] raises [KeyError]. *)
Theorem markets_for_cards_of_empty_list :
  forall stored (st : Z) (ids : list string),
    CryptoPrices.get_markets_for_cards stored
      (fun _ _ => Response st (Some [])) ids
    = Raise KeyError.
Proof. intros. reflexivity. Qed.

(* ===================================================================== *)
(** * The markets table *)
(* ===================================================================== *)

Section Liquidity.
Import CryptoPrices.

Lemma json_is_str_false (x : json) (s : string) :
  x <> JStr s -> json_is_str x s = false.
Proof.
  destruct x; simpl; try reflexivity. intros H.
  destruct (String.eqb s0 s) eqn:E; [ | reflexivity ].
  apply String.eqb_eq in E. subst. congruence.
Qed.

Lemma map_liq_other (x : json) :
  x <> JStr "green" -> x <> JStr "yellow" -> x <> JStr "red" ->
  map_liq x = JFloat F64.nan.
Proof.
  intros G Y R. unfold map_liq.
  now rewrite !json_is_str_false by assumption.
Qed.

Lemma tickers_table (net : network tickers_payload) coin_id mt :
  get_market_tickers net coin_id = Ok mt ->
  exists js,
    get_json net
      (String.append GECKO_BASE
         (String.append "/coins/" (String.append coin_id "/tickers"))) []
    = Ok js
    /\ mt = map (fun t =>
                  {| Exchange := market_name t;
                     Pair := (base t, target t);
                     Price :=
                       number_cell (map last (get_list (tickers js))) (last t);
                     Volume_24h :=
                       number_cell (map volume (get_list (tickers js)))
                                   (volume t);
                     Liquidity := trust_score t;
                     Trade_URL := trade_url t;
                     Volume_pct :=
                       volume_share
                         (series_sum (map (fun t => as_float (volume t))
                                          (get_list (tickers js))))
                         (as_float (volume t)) |})
                (get_list (tickers js)).
Proof.
  unfold get_market_tickers. intros H.
  destruct (get_json net _ _) as [js | e]; cbn [bind] in H;
    [ | discriminate ].
  exists js. split; [ reflexivity | ]. now inversion H.
Qed.

End Liquidity.

(** C10. [map_liq] gives 3 for "green", 2 for "yellow", 1 for "red" and NaN
    for every other value, [None] included; and the "Liquidity score" of
    the table built from [get_market_tickers] is [map_liq] of each ticker's
    [trust_score], row by row. *)
Theorem liquidity_score_of_trust_score :
  CryptoPrices.map_liq (JStr "green") = JInt 3
  /\ CryptoPrices.map_liq (JStr "yellow") = JInt 2
  /\ CryptoPrices.map_liq (JStr "red") = JInt 1
  /\ CryptoPrices.map_liq JNull = JFloat F64.nan
  /\ (forall x : json,
         x <> JStr "green" -> x <> JStr "yellow" -> x <> JStr "red" ->
         CryptoPrices.map_liq x = JFloat F64.nan)
  /\ (forall (net : network CryptoPrices.tickers_payload) coin_id mt,
         CryptoPrices.get_market_tickers net coin_id = Ok mt ->
         exists js,
           get_json net
             (String.append CryptoPrices.GECKO_BASE
                (String.append "/coins/" (String.append coin_id "/tickers"))) []
           = Ok js
           /\ CryptoPrices.liquidity_score mt =
              map (fun t => CryptoPrices.map_liq (CryptoPrices.trust_score t))
                  (CryptoPrices.get_list (CryptoPrices.tickers js))).
Proof.
  repeat (split; [ reflexivity | ]).
  split; [ exact map_liq_other | ].
  intros net coin_id mt H.
  destruct (tickers_table net coin_id mt H) as (js & Hjs & ->).
  exists js. split; [ exact Hjs | ].
  unfold CryptoPrices.liquidity_score. rewrite map_map. reflexivity.
Qed.

(** The scores of "orange" and of a table of three tickers. *)
Lemma liquidity_score_of_trust_score_witness :
  CryptoPrices.map_liq (JStr "orange") = JFloat F64.nan
  /\ exists js,
       get_json
         (Sample.ok200
            {| CryptoPrices.tickers :=
                 Some [ Sample.ticker_of None (JStr "green");
                        Sample.ticker_of None (JStr "red");
                        Sample.ticker_of None JNull ] |})
         (String.append CryptoPrices.GECKO_BASE
            (String.append "/coins/" (String.append "bitcoin" "/tickers"))) []
       = Ok js
       /\ CryptoPrices.liquidity_score
            (map (fun t =>
                    {| CryptoPrices.Exchange := CryptoPrices.market_name t;
                       CryptoPrices.Pair :=
                         (CryptoPrices.base t, CryptoPrices.target t);
                       CryptoPrices.Price := JFloat (F64.of_Z 42000);
                       CryptoPrices.Volume_24h := JNull;
                       CryptoPrices.Liquidity := CryptoPrices.trust_score t;
                       CryptoPrices.Trade_URL := CryptoPrices.trade_url t;
                       CryptoPrices.Volume_pct := F64.zero |})
                 [ Sample.ticker_of None (JStr "green");
                   Sample.ticker_of None (JStr "red");
                   Sample.ticker_of None JNull ])
          = map (fun t => CryptoPrices.map_liq (CryptoPrices.trust_score t))
                (CryptoPrices.get_list (CryptoPrices.tickers js)).
Proof.
  destruct liquidity_score_of_trust_score as (_ & _ & _ & _ & Ho & Ht).
  split.
  - apply Ho; discriminate.
  - apply (Ht (Sample.ok200 _) "bitcoin"). reflexivity.
Defined.

(* ===================================================================== *)
(** * The volume share *)
(* ===================================================================== *)

Section VolumeShare.
Import CryptoPrices.

Lemma volume_share_of_zero_total (s : bool) (v : F64.float) :
  volume_share (S754_zero s) v = F64.zero.
Proof. reflexivity. Qed.

Lemma volume_pct_column (net : network tickers_payload) coin_id mt :
  get_market_tickers net coin_id = Ok mt ->
  exists js,
    get_json net
      (String.append GECKO_BASE
         (String.append "/coins/" (String.append coin_id "/tickers"))) []
    = Ok js
    /\ map Volume_24h mt =
       map (number_cell (map volume (get_list (tickers js))))
           (map volume (get_list (tickers js)))
    /\ map Volume_pct mt =
       map (volume_share
              (series_sum (map (fun t => as_float (volume t))
                               (get_list (tickers js)))))
           (map (fun t => as_float (volume t)) (get_list (tickers js))).
Proof.
  intros H. destruct (tickers_table net coin_id mt H) as (js & Hjs & ->).
  exists js. split; [ exact Hjs | ].
  rewrite !map_map. cbn [Volume_24h Volume_pct]. split; reflexivity.
Qed.

(** The cuts of the pairwise sum never outnumber [depth] when [depth] is
    the length of the array: a larger bound gives the same sum. *)
Lemma pairwise_sum_depth (d d' : nat) (a : list F64.float) :
  (List.length a <= d)%nat -> (List.length a <= d')%nat ->
  pairwise_sum_upto d a = pairwise_sum_upto d' a.
Proof.
  revert d' a. induction d as [| d IH]; intros d' a Hd Hd'.
  - destruct a; [ | simpl in Hd; lia ]. destruct d'; reflexivity.
  - destruct d' as [| d'].
    + destruct a; [ | simpl in Hd'; lia ]. reflexivity.
    + cbn [pairwise_sum_upto].
      destruct (List.length a <=? PW_BLOCKSIZE)%nat eqn:E; [ reflexivity | ].
      apply Nat.leb_gt in E. unfold PW_BLOCKSIZE in E.
      set (n := List.length a) in *.
      assert (H2 : (n / 2 <= n)%nat) by (apply Nat.Div0.div_le_upper_bound; lia).
      assert (H64 : (64 <= n / 2)%nat)
        by (apply Nat.div_le_lower_bound; lia).
      assert (Hlt : (n / 2 < n)%nat) by (apply Nat.div_lt; lia).
      assert (H8 : ((n / 2) mod 8 < 8)%nat)
        by (apply Nat.mod_upper_bound; lia).
      set (n2 := (n / 2 - (n / 2) mod 8)%nat).
      assert (Hn2 : (0 < n2 < n)%nat) by (unfold n2; lia).
      f_equal; apply IH.
      * rewrite length_firstn. fold n. lia.
      * rewrite length_firstn. fold n. lia.
      * rewrite length_skipn. fold n. lia.
      * rewrite length_skipn. fold n. lia.
Qed.

(** A sum of zeros is a zero, however the additions are grouped. *)
Lemma add_zeros (x y : F64.float) :
  (exists s, x = S754_zero s) -> (exists s, y = S754_zero s) ->
  exists s, F64.add x y = S754_zero s.
Proof.
  intros (s & ->) (s' & ->). destruct s, s'; eexists; reflexivity.
Qed.

Lemma add_each_zeros (a : list F64.float) (r : F64.float) :
  (exists s, r = S754_zero s) ->
  Forall (fun x => exists s, x = S754_zero s) a ->
  exists s, add_each r a = S754_zero s.
Proof.
  unfold add_each. revert r.
  induction a as [| x a IH]; intros r Hr Ha; [ exact Hr | ].
  inversion Ha; subst. cbn [fold_left]. apply IH; [ | assumption ].
  now apply add_zeros.
Qed.

Lemma sum_unrolled_zeros (n : nat) :
  forall (a : list F64.float) (r0 r1 r2 r3 r4 r5 r6 r7 : F64.float),
    (List.length a <= n)%nat ->
    Forall (fun x => exists s, x = S754_zero s)
           [r0; r1; r2; r3; r4; r5; r6; r7] ->
    Forall (fun x => exists s, x = S754_zero s) a ->
    exists s, sum_unrolled r0 r1 r2 r3 r4 r5 r6 r7 a = S754_zero s.
Proof.
  induction n as [| n IH]; intros a r0 r1 r2 r3 r4 r5 r6 r7 Hn Hr Ha;
    repeat match goal with
           | H : Forall _ (_ :: _) |- _ => inversion H; clear H; subst
           end.
  - destruct a; [ | simpl in Hn; lia ]. cbn [sum_unrolled].
    apply add_each_zeros; [ | constructor ].
    repeat apply add_zeros; assumption.
  - assert (Hend : exists s,
               add_each
                 (F64.add (F64.add (F64.add r0 r1) (F64.add r2 r3))
                          (F64.add (F64.add r4 r5) (F64.add r6 r7))) a
               = S754_zero s).
    { apply add_each_zeros; [ | assumption ].
      repeat apply add_zeros; assumption. }
    destruct a as [| x0 [| x1 [| x2 [| x3 [| x4 [| x5 [| x6 [| x7 rest]]]]]]]];
      try exact Hend.
    cbn [sum_unrolled].
    repeat match goal with
           | H : Forall _ (_ :: _) |- _ => inversion H; clear H; subst
           end.
    apply IH; [ simpl in Hn; lia | | assumption ].
    repeat constructor; now apply add_zeros.
Qed.

Lemma block_sum_zeros (a : list F64.float) :
  Forall (fun x => exists s, x = S754_zero s) a ->
  exists s, block_sum a = S754_zero s.
Proof.
  intros Ha.
  assert (Hend : exists s, add_each neg_zero a = S754_zero s)
    by (apply add_each_zeros; [ now exists true | assumption ]).
  unfold block_sum.
  destruct a as [| x0 [| x1 [| x2 [| x3 [| x4 [| x5 [| x6 [| x7 rest]]]]]]]];
    try exact Hend.
  repeat match goal with
         | H : Forall _ (_ :: _) |- _ => inversion H; clear H; subst
         end.
  apply (sum_unrolled_zeros (List.length rest)); [ lia | | assumption ].
  repeat constructor; assumption.
Qed.

Lemma pairwise_sum_zeros (d : nat) (a : list F64.float) :
  Forall (fun x => exists s, x = S754_zero s) a ->
  exists s, pairwise_sum_upto d a = S754_zero s.
Proof.
  revert a. induction d as [| d IH]; intros a Ha; cbn [pairwise_sum_upto];
    destruct (List.length a <=? PW_BLOCKSIZE)%nat;
    try (now apply block_sum_zeros).
  rewrite <- (firstn_skipn (List.length a / 2 - (List.length a / 2) mod 8) a)
    in Ha.
  apply Forall_app in Ha. destruct Ha as (Hf & Hs).
  apply add_zeros; apply IH; assumption.
Qed.

(** A column without a number other than zero sums to zero. *)
Lemma series_sum_zeros (col : list F64.float) :
  Forall (fun x => F64.isnan x = true \/ exists s, x = S754_zero s) col ->
  exists s, series_sum col = S754_zero s.
Proof.
  intros H. unfold series_sum, pairwise_sum.
  apply add_zeros; [ now exists true | ].
  apply pairwise_sum_zeros. apply Forall_map.
  eapply Forall_impl; [ | exact H ].
  intros x [E | (s & ->)]; [ rewrite E; now exists false | ].
  now exists s.
Qed.

(** Fewer than 8 numbers are added from left to right. *)
Lemma series_sum_short (col : list F64.float) :
  (List.length col < 8)%nat ->
  series_sum col =
  F64.add neg_zero
    (fold_left F64.add
       (map (fun x => if F64.isnan x then F64.zero else x) col) neg_zero).
Proof.
  intros H. unfold series_sum, pairwise_sum.
  set (a := map _ col).
  assert (Ha : (List.length a < 8)%nat) by (unfold a; now rewrite length_map).
  clearbody a. f_equal.
  assert (B : block_sum a = fold_left F64.add a neg_zero).
  { destruct a as [| x0 [| x1 [| x2 [| x3 [| x4 [| x5 [| x6 [| x7 rest]]]]]]]];
      try reflexivity.
    simpl in Ha. lia. }
  destruct (List.length a) eqn:En; cbn [pairwise_sum_upto]; rewrite ?En.
  - exact B.
  - replace (S n <=? PW_BLOCKSIZE)%nat with true; [ exact B | ].
    symmetry. apply Nat.leb_le. unfold PW_BLOCKSIZE. lia.
Qed.

End VolumeShare.

(** C6 (as amended). In the frame [get_market_tickers] returns, the
    "Volume %" of a row is its volume divided by the sum of the volumes,
    times 100, rounded to two decimals; when that sum is zero, every row
    gets 0. The sum is zero when every volume is zero or missing; on the
    volumes 0, 0, 0 the column is 0, 0, 0. *)
Theorem volume_share_rounded :
  (forall (net : network CryptoPrices.tickers_payload) coin_id js mt,
      get_json net
        (String.append CryptoPrices.GECKO_BASE
           (String.append "/coins/" (String.append coin_id "/tickers"))) []
      = Ok js ->
      CryptoPrices.get_market_tickers net coin_id = Ok mt ->
      let volumes :=
        map (fun t => CryptoPrices.as_float (CryptoPrices.volume t))
            (CryptoPrices.get_list (CryptoPrices.tickers js)) in
      let total_vol := CryptoPrices.series_sum volumes in
      map CryptoPrices.Volume_pct mt =
      map (fun v =>
             if F64.truthy total_vol
             then F64.round2 (CryptoPrices.volume_share_percent total_vol v)
             else F64.zero)
          volumes
      /\ ((exists s, total_vol = S754_zero s) ->
          Forall (fun r => CryptoPrices.Volume_pct r = F64.zero) mt)
      /\ (Forall (fun v => F64.isnan v = true \/ exists s, v = S754_zero s)
                 volumes ->
          Forall (fun r => CryptoPrices.Volume_pct r = F64.zero) mt))
  /\ (exists mt,
         CryptoPrices.get_market_tickers
           (Sample.ok200 (Sample.tickers_of [0; 0; 0])) "bitcoin" = Ok mt
         /\ map CryptoPrices.Volume_24h mt
            = [JFloat F64.zero; JFloat F64.zero; JFloat F64.zero]
         /\ map CryptoPrices.Volume_pct mt = [F64.zero; F64.zero; F64.zero]).
Proof.
  split.
  - intros net coin_id js mt Hjs H volumes total_vol.
    destruct (volume_pct_column net coin_id mt H) as (js' & Hjs' & _ & Hp).
    rewrite Hjs in Hjs'. injection Hjs' as <-.
    fold volumes in Hp. fold total_vol in Hp.
    assert (Z0 : (exists s, total_vol = S754_zero s) ->
                 Forall (fun r => CryptoPrices.Volume_pct r = F64.zero) mt).
    { intros (s & Hs). rewrite Hs in Hp. apply Forall_forall. intros r Hr.
      apply (in_map CryptoPrices.Volume_pct) in Hr. rewrite Hp in Hr.
      apply in_map_iff in Hr. destruct Hr as (v & Hv & _). now rewrite <- Hv. }
    split; [ exact Hp | ]. split; [ exact Z0 | ].
    intros Hall. apply Z0. now apply series_sum_zeros.
  - eexists. split; [ vm_compute; reflexivity | ]. split; reflexivity.
Qed.

(** The shares of ten volumes of which the last has 0.01 percent, of two
    zero volumes, and of a table where no ticker has a volume. *)
Lemma volume_share_rounded_witness :
  (exists mt,
      CryptoPrices.get_market_tickers
        (Sample.ok200
           (Sample.tickers_of
              [ 1000; 1000; 1000; 1000; 1000; 1000; 1000; 1000; 1999; 1 ]))
        "bitcoin" = Ok mt
      /\ map CryptoPrices.Volume_pct mt =
         map (fun v =>
                F64.round2
                  (CryptoPrices.volume_share_percent (F64.of_Z 10000)
                     (F64.of_Z v)))
             [ 1000; 1000; 1000; 1000; 1000; 1000; 1000; 1000; 1999; 1 ])
  /\ Forall (fun r => CryptoPrices.Volume_pct r = F64.zero)
       (map (fun v =>
               {| CryptoPrices.Exchange := JStr "Binance";
                  CryptoPrices.Pair := (JStr "BTC", JStr "USDT");
                  CryptoPrices.Price := JFloat (F64.of_Z 42000);
                  CryptoPrices.Volume_24h := JFloat v;
                  CryptoPrices.Liquidity := JStr "green";
                  CryptoPrices.Trade_URL := JNull;
                  CryptoPrices.Volume_pct := F64.zero |})
            [F64.zero; F64.zero])
  /\ Forall (fun r => CryptoPrices.Volume_pct r = F64.zero)
       (map (fun t =>
               {| CryptoPrices.Exchange := JStr "Binance";
                  CryptoPrices.Pair := (JStr "BTC", JStr "USDT");
                  CryptoPrices.Price := JFloat (F64.of_Z 42000);
                  CryptoPrices.Volume_24h := JNull;
                  CryptoPrices.Liquidity := t;
                  CryptoPrices.Trade_URL := JNull;
                  CryptoPrices.Volume_pct := F64.zero |})
            [JStr "green"; JNull]).
Proof.
  destruct volume_share_rounded as (Hr & _).
  split; [ | split ].
  - eexists. split; [ reflexivity | ].
    exact (proj1 (Hr (Sample.ok200
                        (Sample.tickers_of
                           [ 1000; 1000; 1000; 1000; 1000; 1000; 1000; 1000;
                             1999; 1 ]))
                     "bitcoin" _ _ eq_refl eq_refl)).
  - apply (proj1 (proj2 (Hr (Sample.ok200 (Sample.tickers_of [0; 0]))
                            "bitcoin" _ _ eq_refl eq_refl))).
    exists false. reflexivity.
  - apply (proj2 (proj2 (Hr (Sample.ok200
                               {| CryptoPrices.tickers :=
                                    Some [ Sample.ticker_of None (JStr "green");
                                           Sample.ticker_of None JNull ] |})
                            "bitcoin" _ _ eq_refl eq_refl))).
    repeat constructor; left; reflexivity.
Defined.

(** C6 (as stated) fails: on the volumes 1 and 2 the first row gets 33.33,
    which is not 1 / 3 * 100. *)
Lemma volume_share_is_rounded :
  exists mt,
    CryptoPrices.get_market_tickers
      (Sample.ok200 (Sample.tickers_of [1; 2])) "bitcoin" = Ok mt
    /\ map CryptoPrices.Volume_24h mt
       = [JFloat (F64.of_Z 1); JFloat (F64.of_Z 2)]
    /\ CryptoPrices.series_sum [F64.of_Z 1; F64.of_Z 2] = F64.of_Z 3
    /\ map CryptoPrices.Volume_pct mt =
       [ F64.div (F64.of_Z 3333) (F64.of_Z 100);
         F64.div (F64.of_Z 6667) (F64.of_Z 100) ]
    /\ map CryptoPrices.Volume_pct mt <>
       map (CryptoPrices.volume_share_percent (F64.of_Z 3))
           [F64.of_Z 1; F64.of_Z 2].
Proof.
  eexists. split; [ vm_compute; reflexivity | ].
  split; [ reflexivity | ].
  split; [ vm_compute; reflexivity | ].
  split; [ vm_compute; reflexivity | ].
  vm_compute. discriminate.
Qed.

(* ===================================================================== *)
(** * The daily series of av_fetch_daily_series *)
(* ===================================================================== *)

Section Monad.

Lemma bind_ok {A B : Type} (m : result A) (k : A -> result B) (b : B) :
  bind m k = Ok b -> exists a, m = Ok a /\ k a = Ok b.
Proof. destruct m as [a | e]; simpl; intros H; [ eauto | discriminate ]. Qed.

Lemma mapM_ok {A B : Type} (f : A -> result B) (l : list A) (bs : list B) :
  mapM f l = Ok bs -> Forall2 (fun a b => f a = Ok b) l bs.
Proof.
  revert bs. induction l as [| a l IH]; simpl; intros bs H.
  - inversion H. constructor.
  - apply bind_ok in H. destruct H as (b & Hb & H).
    apply bind_ok in H. destruct H as (bs' & Hbs & H).
    inversion H. subst. constructor; auto.
Qed.

Lemma mapM_total {A B : Type} (f : A -> result B) (l : list A) :
  Forall (fun a => exists b, f a = Ok b) l -> exists bs, mapM f l = Ok bs.
Proof.
  induction 1 as [| a l (b & Hb) _ (bs & Hbs)]; simpl.
  - eauto.
  - rewrite Hb, Hbs. simpl. eauto.
Qed.

Lemma Forall2_in_r {A B : Type} (R : A -> B -> Prop) l l' b :
  Forall2 R l l' -> In b l' -> exists a, In a l /\ R a b.
Proof.
  induction 1 as [| a b' l l' Hab _ IH]; simpl; intros Hin; [ easy | ].
  destruct Hin as [-> | Hin]; [ eauto | ].
  destruct (IH Hin) as (a' & Ha' & HR). eauto.
Qed.

End Monad.

Section DailySeries.
Import CryptoStocks.

Lemma date_leb_total (a b : timestamp) :
  date_leb a b = false -> date_leb b a = true.
Proof.
  destruct a as [x |], b as [y |]; simpl; intros H;
    try discriminate; try reflexivity.
  apply Z.leb_gt in H. apply Z.leb_le. lia.
Qed.

Lemma insert_by_date_perm (r : bar) (l : list bar) :
  Permutation (r :: l) (insert_by_date r l).
Proof.
  induction l as [| h t IH]; simpl; [ reflexivity | ].
  destruct (date_leb (Date r) (Date h)); [ reflexivity | ].
  rewrite perm_swap. now constructor.
Qed.

Lemma sort_by_date_perm (l : list bar) : Permutation l (sort_by_date l).
Proof.
  induction l as [| h t IH]; simpl; [ constructor | ].
  rewrite <- insert_by_date_perm. now constructor.
Qed.

Lemma insert_by_date_sorted (r : bar) (l : list bar) :
  Sorted date_le l -> Sorted date_le (insert_by_date r l).
Proof.
  induction 1 as [| h t Ht IH Hh]; simpl.
  - repeat constructor.
  - destruct (date_leb (Date r) (Date h)) eqn:E.
    + constructor; [ now constructor | now constructor ].
    + constructor; [ exact IH | ].
      apply date_leb_total in E.
      destruct t as [| h' t']; simpl.
      * now constructor.
      * destruct (date_leb (Date r) (Date h')); constructor;
          [ exact E | now inversion Hh ].
Qed.

Lemma sort_by_date_sorted (l : list bar) : Sorted date_le (sort_by_date l).
Proof.
  induction l as [| h t IH]; simpl;
    [ constructor | now apply insert_by_date_sorted ].
Qed.

Lemma sort_values_Date_ok (rows df : list bar) :
  sort_values_Date rows = Ok df ->
  Sorted date_le df /\ Permutation rows df.
Proof.
  destruct rows as [| r rows]; simpl; intros H; inversion H.
  split; [ apply (sort_by_date_sorted (r :: rows))
         | apply (sort_by_date_perm (r :: rows)) ].
Qed.

Variable to_datetime : string -> result timestamp.
Variable float_of_str : string -> option F64.float.
Variable net : network json.

(** What a returned frame with a row comes from. *)
Lemma av_fetch_rows (symbol api_key : string) (df : list bar) :
  av_fetch_daily_series to_datetime float_of_str net symbol api_key = Ok df ->
  df = []
  \/ exists rt params key row data its rows,
       av_route symbol api_key = Ok rt
       /\ ((rt = DigitalCurrencyDaily params
            /\ key = "Time Series (Digital Currency Daily)"
            /\ row = crypto_row to_datetime float_of_str)
           \/ (rt = TimeSeriesDaily params
               /\ key = "Time Series (Daily)"
               /\ row = equity_row to_datetime float_of_str))
       /\ get_json net BASE_URL params = Ok data
       /\ get data key (JObj []) = Ok (JObj its)
       /\ mapM row its = Ok rows
       /\ sort_values_Date rows = Ok df.
Proof.
  unfold av_fetch_daily_series. intros H.
  destruct (av_fetch_body to_datetime float_of_str net symbol api_key)
    as [df' | e] eqn:B; simpl in H; inversion H; subst; [ | now left ].
  right. unfold av_fetch_body in B.
  apply bind_ok in B. destruct B as (rt & Hrt & B).
  destruct rt as [params | params];
    apply bind_ok in B; destruct B as (data & Hdata & B);
    apply bind_ok in B; destruct B as (ts & Hts & B);
    apply bind_ok in B; destruct B as (its & Hits & B);
    apply bind_ok in B; destruct B as (rows & Hrows & B);
    (destruct ts; simpl in Hits; inversion Hits; subst);
    eexists _, params, _, _, data, its, rows;
    (split; [ exact Hrt | ]);
    (split; [ | repeat split; eassumption ]); auto.
Qed.

Lemma av_fetch_sorted (symbol api_key : string) (df : list bar) :
  av_fetch_daily_series to_datetime float_of_str net symbol api_key = Ok df ->
  Sorted date_le df.
Proof.
  intros H. destruct (av_fetch_rows _ _ _ H) as [-> | R]; [ constructor | ].
  destruct R as (rt & params & key & row & data & its & rows & _ & _ & _ & _ & _ & S).
  now apply sort_values_Date_ok in S.
Qed.

Lemma crypto_row_fields (date_str : string) (vals : json) (b : bar) :
  crypto_row to_datetime float_of_str (date_str, vals) = Ok b ->
  Open b = F64.nan
  /\ to_datetime date_str = Ok (Date b)
  /\ float_field float_of_str vals "2a. high (USD)" = Ok (High b)
  /\ float_field float_of_str vals "3a. low (USD)" = Ok (Low b)
  /\ float_field float_of_str vals "4a. close (USD)" = Ok (Close b)
  /\ float_field float_of_str vals "5. volume" = Ok (Volume b).
Proof.
  unfold crypto_row. intros H.
  apply bind_ok in H. destruct H as (c & Hc & H).
  apply bind_ok in H. destruct H as (h & Hh & H).
  apply bind_ok in H. destruct H as (l & Hl & H).
  apply bind_ok in H. destruct H as (v & Hv & H).
  apply bind_ok in H. destruct H as (d & Hd & H).
  inversion H. subst. simpl. repeat split; assumption.
Qed.

End DailySeries.

(** C7. On the DIGITAL_CURRENCY_DAILY route every bar of the series
    [av_fetch_daily_series] returns has Open = NaN, and comes from one date
    of the payload's "Time Series (Digital Currency Daily)": its Date is
    that date, and its High, Low, Close and Volume are [float] of the
    fields "2a. high (USD)", "3a. low (USD)", "4a. close (USD)" and
    "5. volume" of that date. The series has one bar per date. *)
Theorem crypto_bars :
  forall (to_datetime : string -> result CryptoStocks.timestamp)
         (float_of_str : string -> option F64.float)
         (net : network json) (symbol api_key : string)
         (params : list (string * param)) (df : list CryptoStocks.bar)
         (b : CryptoStocks.bar),
    CryptoStocks.av_route symbol api_key =
      Ok (CryptoStocks.DigitalCurrencyDaily params) ->
    CryptoStocks.av_fetch_daily_series to_datetime float_of_str net
      symbol api_key = Ok df ->
    In b df ->
    CryptoStocks.Open b = F64.nan
    /\ exists data its date_str vals,
         get_json net CryptoStocks.BASE_URL params = Ok data
         /\ get data "Time Series (Digital Currency Daily)" (JObj [])
            = Ok (JObj its)
         /\ List.length df = List.length its
         /\ In (date_str, vals) its
         /\ to_datetime date_str = Ok (CryptoStocks.Date b)
         /\ CryptoStocks.float_field float_of_str vals "2a. high (USD)"
            = Ok (CryptoStocks.High b)
         /\ CryptoStocks.float_field float_of_str vals "3a. low (USD)"
            = Ok (CryptoStocks.Low b)
         /\ CryptoStocks.float_field float_of_str vals "4a. close (USD)"
            = Ok (CryptoStocks.Close b)
         /\ CryptoStocks.float_field float_of_str vals "5. volume"
            = Ok (CryptoStocks.Volume b).
Proof.
  intros to_datetime float_of_str net symbol api_key params df b Hrt Hdf Hb.
  destruct (av_fetch_rows _ _ _ _ _ _ Hdf) as [-> | R]; [ destruct Hb | ].
  destruct R as (rt & params' & key & row & data & its & rows
                 & Hrt' & Hkind & Hdata & Hts & Hrows & Hsort).
  rewrite Hrt in Hrt'. inversion Hrt'; subst rt.
  destruct Hkind as [(E & -> & ->) | (E & _)]; [ | discriminate ].
  inversion E; subst params'.
  apply sort_values_Date_ok in Hsort. destruct Hsort as (_ & Hperm).
  assert (Hb' : In b rows)
    by (eapply Permutation_in; [ symmetry; exact Hperm | exact Hb ]).
  apply mapM_ok in Hrows.
  destruct (Forall2_in_r _ _ _ _ Hrows Hb') as ((date_str & vals) & Hin & Hrow).
  apply crypto_row_fields in Hrow.
  destruct Hrow as (Ho & Hd & Hh & Hl & Hc & Hv).
  split; [ exact Ho | ].
  exists data, its, date_str, vals.
  repeat split; try assumption.
  rewrite <- (Permutation_length Hperm). symmetry.
  eapply Forall2_length; exact Hrows.
Qed.

(** The bar of 2024-01-03 in the sample payload. *)
Lemma crypto_bars_witness :
  CryptoStocks.Open
    {| CryptoStocks.Date := Some 1704240000000000000;
       CryptoStocks.Open := F64.nan;
       CryptoStocks.High := F64.of_Z 120;
       CryptoStocks.Low := F64.of_Z 100;
       CryptoStocks.Close := F64.of_Z 110;
       CryptoStocks.Volume := F64.of_Z 7 |} = F64.nan
  /\ exists data its date_str vals,
       get_json (Sample.ok200 Sample.crypto_daily) CryptoStocks.BASE_URL
         [ ("function", PStr "DIGITAL_CURRENCY_DAILY");
           ("symbol", PStr "BTC");
           ("market", PStr "USD");
           ("apikey", PStr "demo") ] = Ok data
       /\ get data "Time Series (Digital Currency Daily)" (JObj [])
          = Ok (JObj its)
       /\ List.length
            [ {| CryptoStocks.Date := Some 1704153600000000000;
                 CryptoStocks.Open := F64.nan;
                 CryptoStocks.High := F64.of_Z 108;
                 CryptoStocks.Low := F64.of_Z 95;
                 CryptoStocks.Close := F64.of_Z 100;
                 CryptoStocks.Volume := F64.of_Z 9 |};
              {| CryptoStocks.Date := Some 1704240000000000000;
                 CryptoStocks.Open := F64.nan;
                 CryptoStocks.High := F64.of_Z 120;
                 CryptoStocks.Low := F64.of_Z 100;
                 CryptoStocks.Close := F64.of_Z 110;
                 CryptoStocks.Volume := F64.of_Z 7 |} ] = List.length its
       /\ In (date_str, vals) its
       /\ Sample.to_datetime date_str = Ok (Some 1704240000000000000)
       /\ CryptoStocks.float_field Sample.float_of_str vals "2a. high (USD)"
          = Ok (F64.of_Z 120)
       /\ CryptoStocks.float_field Sample.float_of_str vals "3a. low (USD)"
          = Ok (F64.of_Z 100)
       /\ CryptoStocks.float_field Sample.float_of_str vals "4a. close (USD)"
          = Ok (F64.of_Z 110)
       /\ CryptoStocks.float_field Sample.float_of_str vals "5. volume"
          = Ok (F64.of_Z 7).
Proof.
  apply (crypto_bars Sample.to_datetime Sample.float_of_str
           (Sample.ok200 Sample.crypto_daily) "BTC-USD" "demo").
  - reflexivity.
  - vm_compute. reflexivity.
  - right. left. reflexivity.
Defined.

(* ===================================================================== *)
(** * The market chart *)
(* ===================================================================== *)

Section MarketChart.
Import CryptoPrices.

Lemma filter_none (ms : list (Z * F64.float)) (t : Z) :
  ~ In t (map fst ms) -> filter (fun m => fst m =? t) ms = [].
Proof.
  induction ms as [| m ms IH]; simpl; intros H; [ reflexivity | ].
  destruct (fst m =? t) eqn:E.
  - apply Z.eqb_eq in E. tauto.
  - apply IH. tauto.
Qed.

Lemma filter_unique (ms : list (Z * F64.float)) (t : Z) :
  NoDup (map fst ms) ->
  filter (fun m => fst m =? t) ms =
  match find (fun m => fst m =? t) ms with
  | Some m => [m]
  | None => []
  end.
Proof.
  induction ms as [| m ms IH]; simpl; intros H; [ reflexivity | ].
  inversion H as [| x l Hx Hl]; subst.
  destruct (fst m =? t) eqn:E.
  - apply Z.eqb_eq in E. subst t. now rewrite filter_none.
  - now apply IH.
Qed.

Lemma merge_left_unique (ps ms : list (Z * F64.float)) :
  NoDup (map fst ms) ->
  merge_left ps ms = map (fun p => (fst p, snd p, cap_at ms (fst p))) ps.
Proof.
  intros H. unfold merge_left.
  induction ps as [| p ps IH]; [ reflexivity | ].
  cbn [flat_map]. rewrite IH, (filter_unique ms (fst p) H), map_cons.
  unfold cap_at at 2.
  destruct (find (fun m => fst m =? fst p) ms); reflexivity.
Qed.

Lemma cap_at_in (ms : list (Z * F64.float)) (t : Z) (c : F64.float) :
  NoDup (map fst ms) -> In (t, c) ms -> cap_at ms t = c.
Proof.
  unfold cap_at. induction ms as [| m ms IH]; simpl; intros H Hin; [ easy | ].
  inversion H as [| x l Hx Hl]; subst.
  destruct Hin as [-> | Hin]; simpl.
  - now rewrite Z.eqb_refl.
  - destruct (fst m =? t) eqn:E; [ | now apply IH ].
    apply Z.eqb_eq in E. exfalso. apply Hx. rewrite E.
    change t with (fst (t, c)). now apply in_map.
Qed.

Lemma cap_at_absent (ms : list (Z * F64.float)) (t : Z) :
  ~ In t (map fst ms) -> cap_at ms t = F64.nan.
Proof.
  unfold cap_at. induction ms as [| m ms IH]; simpl; intros H; [ reflexivity | ].
  destruct (fst m =? t) eqn:E.
  - apply Z.eqb_eq in E. tauto.
  - apply IH. tauto.
Qed.

(** The frame of a payload whose market caps have distinct timestamps
    and whose price timestamps are in range. *)
Lemma chart_rows (net : network chart_payload) coin_id days js :
  get_json net
    (String.append GECKO_BASE
       (String.append "/coins/" (String.append coin_id "/market_chart")))
    [ ("vs_currency", PStr "usd"); ("days", PInt days) ] = Ok js ->
  NoDup (map fst (get_list (market_caps js))) ->
  Forall (fun p => Z.abs (fst p) <= 9223372036854) (get_list (prices js)) ->
  get_market_chart net coin_id days =
  Ok (map (fun p => {| ts := fst p; price := snd p;
                       market_cap := cap_at (get_list (market_caps js)) (fst p);
                       Date := fst p * 1000000 |})
          (get_list (prices js))).
Proof.
  intros Hjs Hnd Hb. unfold get_market_chart. rewrite Hjs. cbn [bind].
  rewrite (merge_left_unique _ _ Hnd).
  induction Hb as [| p ps Hp _ IH]; simpl; [ reflexivity | ].
  unfold to_datetime_ms at 1.
  replace (Z.abs (fst p) <=? 9223372036854) with true
    by (symmetry; now apply Z.leb_le).
  cbn [bind]. rewrite IH. reflexivity.
Qed.

(** Every row of a returned frame comes from the join. *)
Lemma chart_ts (net : network chart_payload) coin_id days df :
  get_market_chart net coin_id days = Ok df ->
  exists js,
    get_json net
      (String.append GECKO_BASE
         (String.append "/coins/" (String.append coin_id "/market_chart")))
      [ ("vs_currency", PStr "usd"); ("days", PInt days) ] = Ok js
    /\ map (fun r => (ts r, price r, market_cap r)) df =
       merge_left (get_list (prices js)) (get_list (market_caps js))
    /\ map Date df = map (fun r => ts r * 1000000) df.
Proof.
  unfold get_market_chart. intros H.
  apply bind_ok in H. destruct H as (js & Hjs & H).
  exists js. split; [ exact Hjs | ].
  revert df H.
  induction (merge_left (get_list (prices js)) (get_list (market_caps js)))
    as [| [[t p] m] l IH]; simpl; intros df H.
  - inversion H. split; reflexivity.
  - apply bind_ok in H. destruct H as (r & Hr & H).
    apply bind_ok in H. destruct H as (rs & Hrs & H).
    destruct (IH _ Hrs) as (E1 & E2).
    injection H as <-.
    unfold to_datetime_ms in Hr.
    destruct (Z.abs t <=? 9223372036854); simpl in Hr; [ | discriminate ].
    injection Hr as <-.
    simpl. rewrite E1, E2. split; reflexivity.
Qed.

(** Counting the members of one duplicate-free list inside another. *)
Lemma count_members (l l' : list Z) :
  NoDup l -> NoDup l' -> incl l' l ->
  List.length (filter (fun x => existsb (Z.eqb x) l') l) = List.length l'.
Proof.
  intros Hl Hl' Hincl. apply Permutation_length.
  apply NoDup_Permutation; [ now apply NoDup_filter | exact Hl' | ].
  intros x. rewrite filter_In, existsb_exists. split.
  - intros (_ & y & Hy & E). apply Z.eqb_eq in E. now subst.
  - intros Hx. split; [ now apply Hincl | ].
    exists x. split; [ exact Hx | apply Z.eqb_refl ].
Qed.

Lemma filter_split_length {A : Type} (f : A -> bool) (l : list A) :
  (List.length (filter f l) + List.length (filter (fun x => negb (f x)) l)
   = List.length l)%nat.
Proof.
  induction l as [| a l IH]; simpl; [ reflexivity | ].
  destruct (f a); simpl; lia.
Qed.

Lemma filter_map_length {A B : Type} (f : B -> bool) (g : A -> B) (l : list A) :
  List.length (filter f (map g l)) = List.length (filter (fun x => f (g x)) l).
Proof.
  induction l as [| a l IH]; simpl; [ reflexivity | ].
  destruct (f (g a)); simpl; now rewrite IH.
Qed.

End MarketChart.

(** C8. For a market-chart payload with 7 (timestamp, price) pairs and 5
    (timestamp, market cap) pairs, the timestamps distinct on each side and
    in the range of a datetime, and every market cap timestamp among the
    price timestamps, [get_market_chart] returns 7 rows, one per price pair
    in the payload's order. A row whose timestamp has a market cap pair
    carries that market cap and every other row carries NaN: 5 rows of the
    first kind and 2 of the second. *)
Theorem market_chart_seven_and_five :
  forall (net : network CryptoPrices.chart_payload) (coin_id : string)
         (days : Z) (ps ms : list (Z * F64.float)),
    get_json net
      (String.append CryptoPrices.GECKO_BASE
         (String.append "/coins/" (String.append coin_id "/market_chart")))
      [ ("vs_currency", PStr "usd"); ("days", PInt days) ]
    = Ok {| CryptoPrices.prices := Some ps;
            CryptoPrices.market_caps := Some ms |} ->
    List.length ps = 7%nat ->
    List.length ms = 5%nat ->
    NoDup (map fst ps) ->
    NoDup (map fst ms) ->
    incl (map fst ms) (map fst ps) ->
    Forall (fun p => Z.abs (fst p) <= 9223372036854) ps ->
    exists df,
      CryptoPrices.get_market_chart net coin_id days = Ok df
      /\ List.length df = 7%nat
      /\ map CryptoPrices.ts df = map fst ps
      /\ map CryptoPrices.price df = map snd ps
      /\ (forall r c, In r df -> In (CryptoPrices.ts r, c) ms ->
                      CryptoPrices.market_cap r = c)
      /\ (forall r, In r df -> ~ In (CryptoPrices.ts r) (map fst ms) ->
                    CryptoPrices.market_cap r = F64.nan)
      /\ List.length
           (filter (fun r => existsb (Z.eqb (CryptoPrices.ts r)) (map fst ms)) df)
         = 5%nat
      /\ List.length
           (filter (fun r => negb (existsb (Z.eqb (CryptoPrices.ts r)) (map fst ms)))
                   df)
         = 2%nat.
Proof.
  intros net coin_id days ps ms Hjs Lp Lm Np Nm Hincl Hb.
  pose proof (chart_rows net coin_id days _ Hjs Nm Hb) as Hdf.
  cbn [CryptoPrices.get_list CryptoPrices.prices CryptoPrices.market_caps] in Hdf.
  eexists. split; [ exact Hdf | ].
  assert (Hcount :
    List.length
      (filter (fun r => existsb (Z.eqb (CryptoPrices.ts r)) (map fst ms))
         (map (fun p => {| CryptoPrices.ts := fst p;
                           CryptoPrices.price := snd p;
                           CryptoPrices.market_cap := CryptoPrices.cap_at ms (fst p);
                           CryptoPrices.Date := fst p * 1000000 |}) ps))
    = 5%nat).
  { rewrite filter_map_length. cbn [CryptoPrices.ts].
    rewrite <- (filter_map_length (fun x => existsb (Z.eqb x) (map fst ms)) fst).
    rewrite (count_members _ _ Np Nm Hincl), length_map. exact Lm. }
  split; [ now rewrite length_map | ].
  split; [ rewrite map_map; reflexivity | ].
  split; [ rewrite map_map; reflexivity | ].
  split; [ | split; [ | split; [ exact Hcount | ] ] ].
  - intros r c Hr Hc. apply in_map_iff in Hr. destruct Hr as (p & <- & _).
    cbn [CryptoPrices.market_cap CryptoPrices.ts] in *.
    now apply cap_at_in.
  - intros r Hr Hn. apply in_map_iff in Hr. destruct Hr as (p & <- & _).
    cbn [CryptoPrices.market_cap CryptoPrices.ts] in *.
    now apply cap_at_absent.
  - match goal with
    | |- List.length (filter _ ?l) = _ =>
        pose proof (filter_split_length
                      (fun r => existsb (Z.eqb (CryptoPrices.ts r)) (map fst ms)) l)
          as Hs
    end.
    rewrite Hcount, length_map, Lp in Hs. lia.
Qed.

(** A week of prices with the market caps of five of its days. *)
Lemma market_chart_seven_and_five_witness :
  exists df,
    CryptoPrices.get_market_chart (Sample.ok200 Sample.week_chart) "bitcoin" 7
    = Ok df
    /\ List.length df = 7%nat
    /\ map CryptoPrices.ts df =
       map fst (map (fun n => (Sample.day n, F64.of_Z (100 + n)))
                    [0; 1; 2; 3; 4; 5; 6])
    /\ map CryptoPrices.price df =
       map snd (map (fun n => (Sample.day n, F64.of_Z (100 + n)))
                    [0; 1; 2; 3; 4; 5; 6])
    /\ (forall r c,
           In r df ->
           In (CryptoPrices.ts r, c)
              (map (fun n => (Sample.day n, F64.of_Z (9000 + n))) [0; 1; 3; 4; 6]) ->
           CryptoPrices.market_cap r = c)
    /\ (forall r,
           In r df ->
           ~ In (CryptoPrices.ts r)
                (map fst (map (fun n => (Sample.day n, F64.of_Z (9000 + n)))
                              [0; 1; 3; 4; 6])) ->
           CryptoPrices.market_cap r = F64.nan)
    /\ List.length
         (filter (fun r =>
                    existsb (Z.eqb (CryptoPrices.ts r))
                      (map fst (map (fun n => (Sample.day n, F64.of_Z (9000 + n)))
                                    [0; 1; 3; 4; 6]))) df)
       = 5%nat
    /\ List.length
         (filter (fun r =>
                    negb (existsb (Z.eqb (CryptoPrices.ts r))
                            (map fst (map (fun n => (Sample.day n, F64.of_Z (9000 + n)))
                                          [0; 1; 3; 4; 6])))) df)
       = 2%nat.
Proof.
  apply (market_chart_seven_and_five (Sample.ok200 Sample.week_chart) "bitcoin" 7).
  - reflexivity.
  - reflexivity.
  - reflexivity.
  - repeat constructor; simpl; intuition discriminate.
  - repeat constructor; simpl; intuition discriminate.
  - intros x Hx. simpl in Hx. simpl. intuition.
  - repeat constructor; vm_compute; discriminate.
Defined.

(* ===================================================================== *)
(** * The order of the rows *)
(* ===================================================================== *)

Section Order.

Lemma lookup_app {V : Type} (k : string) (l l' : list (string * V)) (v : V) :
  lookup k l = Some v -> lookup k (l ++ l') = Some v.
Proof.
  induction l as [| [k' v'] l IH]; simpl; [ discriminate | ].
  destruct (String.eqb k k'); auto.
Qed.

Lemma ensure_column_lookup (n : nat) (df : App.frame) (c k : string) v :
  lookup k df = Some v -> lookup k (App.ensure_column n df c) = Some v.
Proof.
  intros H. unfold App.ensure_column.
  destruct (App.has_column df c); [ exact H | now apply lookup_app ].
Qed.

Lemma ensure_columns_lookup (n : nat) (cols : list string) (df : App.frame)
  (k : string) v :
  lookup k df = Some v ->
  lookup k (fold_left (App.ensure_column n) cols df) = Some v.
Proof.
  revert df. induction cols as [| c cols IH]; simpl; intros df H;
    [ exact H | ].
  apply IH. now apply ensure_column_lookup.
Qed.

(** [fetch_history] keeps the index of the download as its Date column,
    in the order of the download. *)
Lemma fetch_history_dates yf ticker start end_ :
  exists df,
    App.fetch_history yf ticker start end_ = Ok df
    /\ (df = App.empty_frame
        \/ exists d,
             yf ticker start end_ = Ok d
             /\ lookup "Date" df = Some (App.Dates (App.d_index d))).
Proof.
  unfold App.fetch_history, App.fetch_history_body.
  destruct (yf ticker start end_) as [d | e]; cbn [bind try_except];
    [ | eauto ].
  destruct (CryptoPrices.mem "Date" _); cbn [try_except]; [ eauto | ].
  eexists. split; [ reflexivity | ]. right. exists d.
  split; [ reflexivity | ]. now apply ensure_columns_lookup.
Qed.

Lemma chart_order (net : network CryptoPrices.chart_payload) coin_id days df :
  CryptoPrices.get_market_chart net coin_id days = Ok df ->
  exists js,
    get_json net
      (String.append CryptoPrices.GECKO_BASE
         (String.append "/coins/" (String.append coin_id "/market_chart")))
      [ ("vs_currency", PStr "usd"); ("days", PInt days) ] = Ok js
    /\ map CryptoPrices.Date df = map (fun r => CryptoPrices.ts r * 1000000) df
    /\ (NoDup (map fst (CryptoPrices.get_list (CryptoPrices.market_caps js))) ->
        map CryptoPrices.ts df =
        map fst (CryptoPrices.get_list (CryptoPrices.prices js))).
Proof.
  intros H. destruct (chart_ts net coin_id days df H) as (js & Hjs & Hm & Hd).
  exists js. split; [ exact Hjs | ]. split; [ exact Hd | ].
  intros Hnd. rewrite (merge_left_unique _ _ Hnd) in Hm.
  apply (f_equal (map (fun x : Z * F64.float * F64.float => fst (fst x)))) in Hm.
  rewrite !map_map in Hm. exact Hm.
Qed.

End Order.

(** C1 (as amended). [av_fetch_daily_series] returns, for every payload, a
    series sorted ascending by Date (NaT last). [get_market_chart] and
    [fetch_history] do not sort: the Date of a row of [get_market_chart] is
    its timestamp, and the timestamps follow the payload's list of prices
    (when no market cap timestamp is repeated, exactly that list);
    [fetch_history] returns the dates in the order of the download. *)
Theorem series_order :
  (forall (to_datetime : string -> result CryptoStocks.timestamp)
          (float_of_str : string -> option F64.float)
          (net : network json) (symbol api_key : string),
      exists df,
        CryptoStocks.av_fetch_daily_series to_datetime float_of_str net
          symbol api_key = Ok df
        /\ Sorted CryptoStocks.date_le df)
  /\ (forall (net : network CryptoPrices.chart_payload) coin_id days df,
         CryptoPrices.get_market_chart net coin_id days = Ok df ->
         exists js,
           get_json net
             (String.append CryptoPrices.GECKO_BASE
                (String.append "/coins/" (String.append coin_id "/market_chart")))
             [ ("vs_currency", PStr "usd"); ("days", PInt days) ] = Ok js
           /\ map CryptoPrices.Date df =
              map (fun r => CryptoPrices.ts r * 1000000) df
           /\ (NoDup (map fst (CryptoPrices.get_list (CryptoPrices.market_caps js))) ->
               map CryptoPrices.ts df =
               map fst (CryptoPrices.get_list (CryptoPrices.prices js))))
  /\ (forall (yf : string -> Z -> Z -> result App.download) ticker start end_,
         exists df,
           App.fetch_history yf ticker start end_ = Ok df
           /\ (df = App.empty_frame
               \/ exists d,
                    yf ticker start end_ = Ok d
                    /\ lookup "Date" df = Some (App.Dates (App.d_index d)))).
Proof.
  split; [ | split ].
  - intros. destruct (av_fetch_returns to_datetime float_of_str net symbol api_key)
      as (df & H).
    exists df. split; [ exact H | ]. eapply av_fetch_sorted; exact H.
  - exact chart_order.
  - exact fetch_history_dates.
Qed.

(** The rows of the sample week follow its prices. *)
Lemma series_order_witness :
  exists js,
    get_json (Sample.ok200 Sample.week_chart)
      (String.append CryptoPrices.GECKO_BASE
         (String.append "/coins/" (String.append "bitcoin" "/market_chart")))
      [ ("vs_currency", PStr "usd"); ("days", PInt 7) ] = Ok js
    /\ map CryptoPrices.Date
         (map (fun p => {| CryptoPrices.ts := fst p;
                           CryptoPrices.price := snd p;
                           CryptoPrices.market_cap :=
                             CryptoPrices.cap_at
                               (CryptoPrices.get_list
                                  (CryptoPrices.market_caps Sample.week_chart))
                               (fst p);
                           CryptoPrices.Date := fst p * 1000000 |})
              (CryptoPrices.get_list (CryptoPrices.prices Sample.week_chart)))
       = map (fun r => CryptoPrices.ts r * 1000000)
           (map (fun p => {| CryptoPrices.ts := fst p;
                             CryptoPrices.price := snd p;
                             CryptoPrices.market_cap :=
                               CryptoPrices.cap_at
                                 (CryptoPrices.get_list
                                    (CryptoPrices.market_caps Sample.week_chart))
                                 (fst p);
                             CryptoPrices.Date := fst p * 1000000 |})
                (CryptoPrices.get_list (CryptoPrices.prices Sample.week_chart)))
    /\ (NoDup (map fst (CryptoPrices.get_list (CryptoPrices.market_caps js))) ->
        map CryptoPrices.ts
          (map (fun p => {| CryptoPrices.ts := fst p;
                            CryptoPrices.price := snd p;
                            CryptoPrices.market_cap :=
                              CryptoPrices.cap_at
                                (CryptoPrices.get_list
                                   (CryptoPrices.market_caps Sample.week_chart))
                                (fst p);
                            CryptoPrices.Date := fst p * 1000000 |})
               (CryptoPrices.get_list (CryptoPrices.prices Sample.week_chart)))
        = map fst (CryptoPrices.get_list (CryptoPrices.prices js))).
Proof.
  destruct series_order as (_ & Hc & _).
  apply (Hc (Sample.ok200 Sample.week_chart) "bitcoin" 7).
  vm_compute. reflexivity.
Defined.

(** C1 (as stated) fails: a market chart whose prices arrive newest first
    is returned newest first, its Date column descending. *)
Lemma market_chart_is_not_sorted :
  exists df,
    CryptoPrices.get_market_chart (Sample.ok200 Sample.unsorted_chart) "bitcoin" 7
    = Ok df
    /\ map CryptoPrices.Date df = [1704240000000000000; 1704153600000000000]
    /\ ~ Sorted Z.le (map CryptoPrices.Date df).
Proof.
  eexists. split; [ vm_compute; reflexivity | ].
  split; [ reflexivity | ].
  simpl. intros H.
  inversion H as [| a l _ Hd]; subst.
  inversion Hd as [| b l' Hle]; subst. lia.
Qed.

(* ===================================================================== *)
(** * Memoization *)
(* ===================================================================== *)

Section Memoization.
Context {A V : Type}.
Variable A_eq_dec : forall a b : A, {a = b} + {a <> b}.

Lemma get_filter_same (c : Cache.store) (k : Cache.key) :
  Cache.get A_eq_dec
    (filter (fun e : Cache.entry =>
               if Cache.key_eq_dec A_eq_dec (Cache.e_key e) k
               then false else true) c)
    k = (None : option (@Cache.entry A V)).
Proof.
  induction c as [| e c IH]; simpl; [ reflexivity | ].
  destruct (Cache.key_eq_dec A_eq_dec (Cache.e_key e) k) as [E | N];
    [ exact IH | ].
  simpl.
  destruct (Cache.key_eq_dec A_eq_dec (Cache.e_key e) k);
    [ contradiction | exact IH ].
Qed.

Lemma get_filter_other (c : Cache.store) (k k' : Cache.key) :
  k' <> k ->
  Cache.get A_eq_dec
    (filter (fun e : Cache.entry =>
               if Cache.key_eq_dec A_eq_dec (Cache.e_key e) k'
               then false else true) c)
    k = (Cache.get A_eq_dec c k : option (@Cache.entry A V)).
Proof.
  intros N. induction c as [| e c IH]; simpl; [ reflexivity | ].
  destruct (Cache.key_eq_dec A_eq_dec (Cache.e_key e) k') as [E | N'].
  - destruct (Cache.key_eq_dec A_eq_dec (Cache.e_key e) k) as [E' | _];
      [ congruence | exact IH ].
  - simpl.
    destruct (Cache.key_eq_dec A_eq_dec (Cache.e_key e) k);
      [ reflexivity | exact IH ].
Qed.

(** After a [put] the key has the new entry and nothing of the old. *)
Lemma get_put_same (c : Cache.store) now (k : Cache.key) (v : V) seconds :
  Cache.get A_eq_dec (Cache.put A_eq_dec c now k v seconds) k
  = Some {| Cache.e_key := k; Cache.e_value := v;
            Cache.expiresAt := now + seconds |}.
Proof.
  unfold Cache.put. simpl.
  destruct (Cache.key_eq_dec A_eq_dec k k); [ reflexivity | contradiction ].
Qed.

(** A [put] leaves the entries of the other keys. *)
Lemma get_put_other (c : Cache.store) now (k k' : Cache.key) (v : V) seconds :
  k' <> k ->
  Cache.get A_eq_dec (Cache.put A_eq_dec c now k' v seconds) k
  = Cache.get A_eq_dec c k.
Proof.
  intros N. unfold Cache.put. simpl.
  destruct (Cache.key_eq_dec A_eq_dec k' k); [ contradiction | ].
  now apply get_filter_other.
Qed.

Lemma resolve_other (c : Cache.store) now (k k' : Cache.key) seconds
  (f : unit -> V) :
  k' <> k ->
  Cache.get A_eq_dec (snd (fst (Cache.resolve A_eq_dec c now k' seconds f))) k
  = Cache.get A_eq_dec c k.
Proof.
  intros N. unfold Cache.resolve.
  destruct (Cache.get A_eq_dec c k') as [e |];
    [ destruct (now <? Cache.expiresAt e) | ]; cbn [fst snd];
    try reflexivity; now apply get_put_other.
Qed.

(** Calls on other keys leave the entry of a key. *)
Lemma run_other (rs : list Cache.request) (c : Cache.store) (k : Cache.key) :
  Forall (fun r => (Cache.r_helper r, Cache.r_args r) <> k) rs ->
  Cache.get A_eq_dec (Cache.run A_eq_dec c rs) k
  = (Cache.get A_eq_dec c k : option (@Cache.entry A V)).
Proof.
  unfold Cache.run. revert c.
  induction rs as [| r rs IH]; intros c H; [ reflexivity | ].
  inversion H; subst. cbn [fold_left]. rewrite IH by assumption.
  unfold Cache.call. now apply resolve_other.
Qed.

(** A call that ran the body stored what the body returned. *)
Lemma resolve_miss (c c1 : Cache.store) now (k : Cache.key) seconds
  (f : unit -> V) (v : V) :
  Cache.resolve A_eq_dec c now k seconds f = (v, c1, 1%nat) ->
  v = f tt /\ c1 = Cache.put A_eq_dec c now k v seconds.
Proof.
  unfold Cache.resolve.
  destruct (Cache.get A_eq_dec c k) as [e |];
    [ destruct (now <? Cache.expiresAt e) | ];
    intros H; inversion H; subst; auto.
Qed.

Lemma resolve_hit (c : Cache.store) now (k : Cache.key) seconds
  (f : unit -> V) (e : Cache.entry) :
  Cache.get A_eq_dec c k = Some e ->
  now < Cache.expiresAt e ->
  Cache.resolve A_eq_dec c now k seconds f = (Cache.e_value e, c, 0%nat).
Proof.
  intros G H. unfold Cache.resolve. rewrite G.
  replace (now <? Cache.expiresAt e) with true
    by (symmetry; now apply Z.ltb_lt).
  reflexivity.
Qed.

Lemma resolve_expired (c : Cache.store) now (k : Cache.key) seconds
  (f : unit -> V) (e : Cache.entry) :
  Cache.get A_eq_dec c k = Some e ->
  Cache.expiresAt e <= now ->
  Cache.resolve A_eq_dec c now k seconds f
  = (f tt, Cache.put A_eq_dec c now k (f tt) seconds, 1%nat).
Proof.
  intros G H. unfold Cache.resolve. rewrite G.
  replace (now <? Cache.expiresAt e) with false
    by (symmetry; apply Z.ltb_ge; lia).
  reflexivity.
Qed.

Lemma resolve_absent (c : Cache.store) now (k : Cache.key) seconds
  (f : unit -> V) :
  Cache.get A_eq_dec c k = None ->
  Cache.resolve A_eq_dec c now k seconds f
  = (f tt, Cache.put A_eq_dec c now k (f tt) seconds, 1%nat).
Proof. intros G. unfold Cache.resolve. now rewrite G. Qed.

End Memoization.

(** C9. The helpers of the crypto page are decorated with a time-to-live
    of 300 seconds, [av_fetch_daily_series] and [fetch_history] with 600
    seconds. Take a call of a helper that ran the body, and then any calls
    of other helpers or with other arguments, at any times. After them, a
    call of the first helper with the first arguments less than its
    time-to-live after the first call returns the value of the first call
    without running the body, whatever the body would return then: of the
    two calls the body ran once. Later than the time-to-live, the call runs
    the body again, returns the new value and replaces the entry. The
    entries are per helper and arguments: a call of another helper or with
    other arguments, for which nothing is stored, runs its own body and is
    not served the value of the first. *)
Theorem ttl_memoization :
  forall (h : Cache.helper),
    Cache.ttl h = (if Cache.crypto_endpoint h then 300 else 600)
    /\ forall (A V : Type) (A_eq_dec : forall a b : A, {a = b} + {a <> b})
              (body1 body2 : unit -> V) (c c1 : Cache.store) (t1 t2 : Z)
              (a : A) (v : V) (others : list Cache.request),
         Cache.call A_eq_dec c t1 h a body1 = (v, c1, 1%nat) ->
         Forall (fun r => (Cache.r_helper r, Cache.r_args r) <> (h, a))
                others ->
         let c2 := Cache.run A_eq_dec c1 others in
         v = body1 tt
         /\ (t2 < t1 + Cache.ttl h ->
             Cache.call A_eq_dec c2 t2 h a body2 = (v, c2, 0%nat))
         /\ (t1 + Cache.ttl h < t2 ->
             exists c3,
               Cache.call A_eq_dec c2 t2 h a body2 = (body2 tt, c3, 1%nat)
               /\ Cache.get A_eq_dec c3 (h, a)
                  = Some {| Cache.e_key := (h, a);
                            Cache.e_value := body2 tt;
                            Cache.expiresAt := t2 + Cache.ttl h |})
         /\ (forall (h' : Cache.helper) (a' : A),
                (h', a') <> (h, a) ->
                Cache.get A_eq_dec c (h', a') = None ->
                exists c3,
                  Cache.call A_eq_dec c1 t2 h' a' body2
                  = (body2 tt, c3, 1%nat)).
Proof.
  intros h. split; [ destruct h; reflexivity | ].
  intros A V A_eq_dec body1 body2 c c1 t1 t2 a v others H Ho c2.
  unfold Cache.call in H. apply resolve_miss in H. destruct H as (Hv & Hc1).
  assert (G : Cache.get A_eq_dec c2 (h, a)
              = Some {| Cache.e_key := (h, a); Cache.e_value := v;
                        Cache.expiresAt := t1 + Cache.ttl h |}).
  { unfold c2. rewrite run_other by assumption. rewrite Hc1.
    apply get_put_same. }
  split; [ exact Hv | ]. split; [ | split ].
  - intros Ht. unfold Cache.call.
    rewrite (resolve_hit A_eq_dec c2 t2 (h, a) _ body2 _ G) by exact Ht.
    reflexivity.
  - intros Ht. unfold Cache.call.
    rewrite (resolve_expired A_eq_dec c2 t2 (h, a) _ body2 _ G)
      by (cbn [Cache.expiresAt]; lia).
    eexists. split; [ reflexivity | apply get_put_same ].
  - intros h' a' N G'. unfold Cache.call.
    rewrite resolve_absent; [ eexists; reflexivity | ].
    rewrite Hc1, get_put_other by congruence. exact G'.
Qed.

(** The chart of bitcoin is fetched at time 100 and the chart of ethereum
    at 102. The value for bitcoin is served at 250 and computed anew at
    500; ethereum is not served the value of bitcoin. *)
Lemma ttl_memoization_witness :
  let c1 :=
    Cache.put string_dec [] 100 (Cache.get_market_chart, "bitcoin") 7
      (Cache.ttl Cache.get_market_chart) in
  let c2 :=
    Cache.run string_dec c1
      [ {| Cache.r_time := 102; Cache.r_helper := Cache.get_market_chart;
           Cache.r_args := "ethereum"; Cache.r_body := fun _ => 9 |} ] in
  Cache.call string_dec c2 250 Cache.get_market_chart "bitcoin" (fun _ => 8)
  = (7, c2, 0%nat)
  /\ (exists c3,
         Cache.call string_dec c2 500 Cache.get_market_chart "bitcoin"
           (fun _ => 8)
         = (8, c3, 1%nat)
         /\ Cache.get string_dec c3 (Cache.get_market_chart, "bitcoin")
            = Some {| Cache.e_key := (Cache.get_market_chart, "bitcoin");
                      Cache.e_value := 8;
                      Cache.expiresAt := 500 + Cache.ttl Cache.get_market_chart |})
  /\ (exists c3,
         Cache.call string_dec c1 102 Cache.get_market_chart "ethereum"
           (fun _ => 9)
         = (9, c3, 1%nat)).
Proof.
  intros c1 c2.
  assert (O : Forall (fun r : Cache.request =>
                        (Cache.r_helper r, Cache.r_args r)
                        <> (Cache.get_market_chart, "bitcoin"))
                [ {| Cache.r_time := 102;
                     Cache.r_helper := Cache.get_market_chart;
                     Cache.r_args := "ethereum";
                     Cache.r_body := fun _ : unit => 9 |} ])
    by (repeat constructor; discriminate).
  split; [ | split ].
  - apply (proj1 (proj2 (proj2 (ttl_memoization Cache.get_market_chart)
             string Z string_dec (fun _ => 7) (fun _ => 8) [] c1 100 250
             "bitcoin" 7 _ eq_refl O))).
    reflexivity.
  - apply (proj1 (proj2 (proj2 (proj2 (ttl_memoization Cache.get_market_chart)
             string Z string_dec (fun _ => 7) (fun _ => 8) [] c1 100 500
             "bitcoin" 7 _ eq_refl O)))).
    reflexivity.
  - apply (proj2 (proj2 (proj2 (proj2 (ttl_memoization Cache.get_market_chart)
             string Z string_dec (fun _ => 7) (fun _ => 9) [] c1 100 102
             "bitcoin" 7 [] eq_refl (Forall_nil _))))
             Cache.get_market_chart "ethereum").
    + discriminate.
    + reflexivity.
Defined.


(* ===================================================================== *)
(** * More on the daily series *)
(* ===================================================================== *)

Section DailySeriesMore.
Import CryptoStocks.

Variable to_datetime : string -> result timestamp.
Variable float_of_str : string -> option F64.float.
Variable net : network json.

Lemma equity_row_fields (date_str : string) (vals : json) (b : bar) :
  equity_row to_datetime float_of_str (date_str, vals) = Ok b ->
  to_datetime date_str = Ok (Date b)
  /\ float_field float_of_str vals "1. open" = Ok (Open b)
  /\ float_field float_of_str vals "2. high" = Ok (High b)
  /\ float_field float_of_str vals "3. low" = Ok (Low b)
  /\ float_field float_of_str vals "4. close" = Ok (Close b)
  /\ float_field float_of_str vals "5. volume" = Ok (Volume b).
Proof.
  unfold equity_row. intros H.
  apply bind_ok in H. destruct H as (d & Hd & H).
  apply bind_ok in H. destruct H as (o & Ho & H).
  apply bind_ok in H. destruct H as (h & Hh & H).
  apply bind_ok in H. destruct H as (l & Hl & H).
  apply bind_ok in H. destruct H as (c & Hc & H).
  apply bind_ok in H. destruct H as (v & Hv & H).
  inversion H. subst. simpl. repeat split; assumption.
Qed.

Lemma mapM_raise {A B : Type} (f : A -> result B) (l : list A) (a : A) (e : exn) :
  In a l -> f a = Raise e -> exists e', mapM f l = Raise e'.
Proof.
  induction l as [| x l IH]; simpl; intros Hin Hf; [ easy | ].
  destruct Hin as [-> | Hin].
  - rewrite Hf. simpl. eauto.
  - destruct (f x) as [b | e0]; simpl; [ | eauto ].
    destruct (IH Hin Hf) as (e' & ->). simpl. eauto.
Qed.

Lemma float_field_absent (kv : list (string * json)) (key : string) :
  float_of_str "nan" = Some F64.nan ->
  lookup key kv = None ->
  float_field float_of_str (JObj kv) key = Ok F64.nan.
Proof.
  intros Hnan Hk. unfold float_field, get. rewrite Hk. simpl. now rewrite Hnan.
Qed.

(** The body after the request, for the rows of either route. *)
Lemma av_fetch_of_rows (symbol api_key : string) rt params key row data its :
  av_route symbol api_key = Ok rt ->
  (rt = DigitalCurrencyDaily params
   /\ key = "Time Series (Digital Currency Daily)"
   /\ row = crypto_row to_datetime float_of_str)
  \/ (rt = TimeSeriesDaily params
      /\ key = "Time Series (Daily)"
      /\ row = equity_row to_datetime float_of_str) ->
  get_json net BASE_URL params = Ok data ->
  get data key (JObj []) = Ok (JObj its) ->
  av_fetch_daily_series to_datetime float_of_str net symbol api_key =
  try_except (rows <- mapM row its ;; sort_values_Date rows) (Ok []).
Proof.
  intros Hrt Hkind Hdata Hts.
  unfold av_fetch_daily_series, av_fetch_body. rewrite Hrt. cbn [bind].
  destruct Hkind as [(-> & -> & ->) | (-> & -> & ->)];
    rewrite Hdata; cbn [bind]; rewrite Hts; reflexivity.
Qed.

End DailySeriesMore.

(** X1. On the TIME_SERIES_DAILY route every bar of the series comes from
    one date of the payload's "Time Series (Daily)": its Date is that date
    and its Open, High, Low, Close and Volume are [float] of the fields
    "1. open" to "5. volume" of that date. The series has one bar per
    date. *)
Theorem equity_bars :
  forall (to_datetime : string -> result CryptoStocks.timestamp)
         (float_of_str : string -> option F64.float)
         (net : network json) (symbol api_key : string)
         (params : list (string * param)) (df : list CryptoStocks.bar)
         (b : CryptoStocks.bar),
    CryptoStocks.av_route symbol api_key =
      Ok (CryptoStocks.TimeSeriesDaily params) ->
    CryptoStocks.av_fetch_daily_series to_datetime float_of_str net
      symbol api_key = Ok df ->
    In b df ->
    exists data its date_str vals,
      get_json net CryptoStocks.BASE_URL params = Ok data
      /\ get data "Time Series (Daily)" (JObj []) = Ok (JObj its)
      /\ List.length df = List.length its
      /\ In (date_str, vals) its
      /\ to_datetime date_str = Ok (CryptoStocks.Date b)
      /\ CryptoStocks.float_field float_of_str vals "1. open"
         = Ok (CryptoStocks.Open b)
      /\ CryptoStocks.float_field float_of_str vals "2. high"
         = Ok (CryptoStocks.High b)
      /\ CryptoStocks.float_field float_of_str vals "3. low"
         = Ok (CryptoStocks.Low b)
      /\ CryptoStocks.float_field float_of_str vals "4. close"
         = Ok (CryptoStocks.Close b)
      /\ CryptoStocks.float_field float_of_str vals "5. volume"
         = Ok (CryptoStocks.Volume b).
Proof.
  intros to_datetime float_of_str net symbol api_key params df b Hrt Hdf Hb.
  destruct (av_fetch_rows _ _ _ _ _ _ Hdf) as [-> | R]; [ destruct Hb | ].
  destruct R as (rt & params' & key & row & data & its & rows
                 & Hrt' & Hkind & Hdata & Hts & Hrows & Hsort).
  rewrite Hrt in Hrt'. inversion Hrt'; subst rt.
  destruct Hkind as [(E & _) | (E & -> & ->)]; [ discriminate | ].
  inversion E; subst params'.
  apply sort_values_Date_ok in Hsort. destruct Hsort as (_ & Hperm).
  assert (Hb' : In b rows)
    by (eapply Permutation_in; [ symmetry; exact Hperm | exact Hb ]).
  apply mapM_ok in Hrows.
  destruct (Forall2_in_r _ _ _ _ Hrows Hb') as ((date_str & vals) & Hin & Hrow).
  apply equity_row_fields in Hrow.
  destruct Hrow as (Hd & Ho & Hh & Hl & Hc & Hv).
  exists data, its, date_str, vals.
  repeat split; try assumption.
  rewrite <- (Permutation_length Hperm). symmetry.
  eapply Forall2_length; exact Hrows.
Qed.

(** The bar of 2024-01-03 in the sample equity payload. *)
Lemma equity_bars_witness :
  exists data its date_str vals,
    get_json (Sample.ok200 Sample.equity_daily) CryptoStocks.BASE_URL
      [ ("function", PStr "TIME_SERIES_DAILY");
        ("symbol", PStr "AAPL");
        ("outputsize", PStr "compact");
        ("apikey", PStr "demo") ] = Ok data
    /\ get data "Time Series (Daily)" (JObj []) = Ok (JObj its)
    /\ List.length
         [ Sample.ohlcv_bar 1704153600000000000 (F64.of_Z 98) (F64.of_Z 108)
             (F64.of_Z 95) (F64.of_Z 100) F64.nan;
           Sample.ohlcv_bar 1704240000000000000 (F64.of_Z 105) (F64.of_Z 120)
             (F64.of_Z 100) (F64.of_Z 110) (F64.of_Z 7) ] = List.length its
    /\ In (date_str, vals) its
    /\ Sample.to_datetime date_str = Ok (Some 1704240000000000000)
    /\ CryptoStocks.float_field Sample.float_of_str vals "1. open"
       = Ok (F64.of_Z 105)
    /\ CryptoStocks.float_field Sample.float_of_str vals "2. high"
       = Ok (F64.of_Z 120)
    /\ CryptoStocks.float_field Sample.float_of_str vals "3. low"
       = Ok (F64.of_Z 100)
    /\ CryptoStocks.float_field Sample.float_of_str vals "4. close"
       = Ok (F64.of_Z 110)
    /\ CryptoStocks.float_field Sample.float_of_str vals "5. volume"
       = Ok (F64.of_Z 7).
Proof.
  apply (equity_bars Sample.to_datetime Sample.float_of_str
           (Sample.ok200 Sample.equity_daily) "AAPL" "demo" _ _
           (Sample.ohlcv_bar 1704240000000000000 (F64.of_Z 105) (F64.of_Z 120)
              (F64.of_Z 100) (F64.of_Z 110) (F64.of_Z 7))).
  - reflexivity.
  - vm_compute. reflexivity.
  - right. left. reflexivity.
Defined.

(** X2. One entry that cannot be read empties the series: when the row of
    some date of the payload raises (a field that is not a number, a null
    field, a date that does not parse, an entry that is not a dict),
    [av_fetch_daily_series] returns the frame without rows, on either
    route. *)
Theorem one_bad_entry_empties_the_series :
  forall (to_datetime : string -> result CryptoStocks.timestamp)
         (float_of_str : string -> option F64.float)
         (net : network json) (symbol api_key : string)
         (params : list (string * param)) (data : json)
         (its : list (string * json)) (item : string * json) (e : exn),
    get_json net CryptoStocks.BASE_URL params = Ok data ->
    In item its ->
    (CryptoStocks.av_route symbol api_key =
       Ok (CryptoStocks.DigitalCurrencyDaily params)
     /\ get data "Time Series (Digital Currency Daily)" (JObj [])
        = Ok (JObj its)
     /\ CryptoStocks.crypto_row to_datetime float_of_str item = Raise e)
    \/ (CryptoStocks.av_route symbol api_key =
          Ok (CryptoStocks.TimeSeriesDaily params)
        /\ get data "Time Series (Daily)" (JObj []) = Ok (JObj its)
        /\ CryptoStocks.equity_row to_datetime float_of_str item = Raise e) ->
    CryptoStocks.av_fetch_daily_series to_datetime float_of_str net
      symbol api_key = Ok [].
Proof.
  intros to_datetime float_of_str net symbol api_key params data its item e
         Hdata Hin [(Hrt & Hts & Hrow) | (Hrt & Hts & Hrow)].
  - rewrite (av_fetch_of_rows to_datetime float_of_str net symbol api_key
               _ params _ _ data its Hrt
               (or_introl (conj eq_refl (conj eq_refl eq_refl))) Hdata Hts).
    destruct (mapM_raise _ _ _ _ Hin Hrow) as (e' & ->). reflexivity.
  - rewrite (av_fetch_of_rows to_datetime float_of_str net symbol api_key
               _ params _ _ data its Hrt
               (or_intror (conj eq_refl (conj eq_refl eq_refl))) Hdata Hts).
    destruct (mapM_raise _ _ _ _ Hin Hrow) as (e' & ->). reflexivity.
Qed.

(** A null close in one of two days. *)
Lemma one_bad_entry_empties_the_series_witness :
  CryptoStocks.av_fetch_daily_series Sample.to_datetime Sample.float_of_str
    (Sample.ok200 Sample.broken_daily) "BTC-USD" "demo" = Ok [].
Proof.
  apply (one_bad_entry_empties_the_series Sample.to_datetime Sample.float_of_str
           (Sample.ok200 Sample.broken_daily) "BTC-USD" "demo"
           [ ("function", PStr "DIGITAL_CURRENCY_DAILY");
             ("symbol", PStr "BTC");
             ("market", PStr "USD");
             ("apikey", PStr "demo") ]
           Sample.broken_daily
           [ ("2024-01-03",
              JObj [ ("2a. high (USD)", JStr "120");
                     ("3a. low (USD)", JStr "100");
                     ("4a. close (USD)", JStr "110");
                     ("5. volume", JStr "7") ]);
             ("2024-01-02", JObj [ ("4a. close (USD)", JNull) ]) ]
           ("2024-01-02", JObj [ ("4a. close (USD)", JNull) ])
           TypeError).
  - reflexivity.
  - right. left. reflexivity.
  - left. repeat split; reflexivity.
Defined.



(** X4. A field that is absent from the dict of a date is NaN in the row
    of that date, on both routes, and is no error ([float] being given
    "nan", which it reads as NaN). *)
Theorem absent_fields_are_nan :
  forall (to_datetime : string -> result CryptoStocks.timestamp)
         (float_of_str : string -> option F64.float)
         (date_str : string) (kv : list (string * json))
         (b : CryptoStocks.bar),
    float_of_str "nan" = Some F64.nan ->
    (CryptoStocks.crypto_row to_datetime float_of_str (date_str, JObj kv) = Ok b ->
     (lookup "2a. high (USD)" kv = None -> CryptoStocks.High b = F64.nan)
     /\ (lookup "3a. low (USD)" kv = None -> CryptoStocks.Low b = F64.nan)
     /\ (lookup "4a. close (USD)" kv = None -> CryptoStocks.Close b = F64.nan)
     /\ (lookup "5. volume" kv = None -> CryptoStocks.Volume b = F64.nan))
    /\ (CryptoStocks.equity_row to_datetime float_of_str (date_str, JObj kv) = Ok b ->
        (lookup "1. open" kv = None -> CryptoStocks.Open b = F64.nan)
        /\ (lookup "2. high" kv = None -> CryptoStocks.High b = F64.nan)
        /\ (lookup "3. low" kv = None -> CryptoStocks.Low b = F64.nan)
        /\ (lookup "4. close" kv = None -> CryptoStocks.Close b = F64.nan)
        /\ (lookup "5. volume" kv = None -> CryptoStocks.Volume b = F64.nan)).
Proof.
  intros to_datetime float_of_str date_str kv b Hnan.
  assert (A : forall key x,
             CryptoStocks.float_field float_of_str (JObj kv) key = Ok x ->
             lookup key kv = None -> x = F64.nan).
  { intros key x Hx Hk.
    rewrite (float_field_absent float_of_str kv key Hnan Hk) in Hx.
    now inversion Hx. }
  split; intros Hrow.
  - apply crypto_row_fields in Hrow.
    destruct Hrow as (_ & _ & Hh & Hl & Hc & Hv).
    repeat split; eapply A; eassumption.
  - apply equity_row_fields in Hrow.
    destruct Hrow as (_ & Ho & Hh & Hl & Hc & Hv).
    repeat split; eapply A; eassumption.
Qed.

(** The older day of the sample equity payload has no volume. *)
Lemma absent_fields_are_nan_witness :
  CryptoStocks.Volume
    (Sample.ohlcv_bar 1704153600000000000 (F64.of_Z 98) (F64.of_Z 108)
       (F64.of_Z 95) (F64.of_Z 100) F64.nan) = F64.nan.
Proof.
  refine (proj2 (proj2 (proj2 (proj2
            (proj2 (absent_fields_are_nan Sample.to_datetime Sample.float_of_str
                      "2024-01-02"
                      [ ("1. open", JStr "98"); ("2. high", JStr "108");
                        ("3. low", JStr "95"); ("4. close", JStr "100") ]
                      _ eq_refl) _)))) eq_refl).
  vm_compute. reflexivity.
Defined.

(* ===================================================================== *)
(** * The snapshot table and the trend chart *)
(* ===================================================================== *)

Section Page.
Import CryptoStocks.

Lemma list_shape {A : Type} (l : list A) :
  l = [] \/ (exists a, l = [a]) \/ (exists front p a, l = front ++ [p; a]).
Proof.
  destruct l as [| x l]; [ now left | right ].
  destruct (exists_last (l := x :: l)) as (l1 & a & E); [ discriminate | ].
  rewrite E. destruct l1 as [| y l1]; [ left; now exists a | right ].
  destruct (exists_last (l := y :: l1)) as (l2 & p & E2); [ discriminate | ].
  rewrite E2. exists l2, p, a. now rewrite <- app_assoc.
Qed.

Lemma snapshot_returns (df : list bar) :
  exists s,
    compute_snapshot_from_series df = Ok s
    /\ current_price s = List.last (map Close df) F64.nan.
Proof.
  destruct (list_shape df) as [-> | [(a & ->) | (front & p & a & ->)]].
  - eexists. split; reflexivity.
  - eexists. split; reflexivity.
  - rewrite snapshot_two_or_more. eexists. split; [ reflexivity | ].
    cbn [current_price]. rewrite map_app.
    change (map Close [p; a]) with ([Close p] ++ [Close a]).
    rewrite app_assoc. now rewrite last_last.
Qed.

Lemma date_leb_trans (a b c : timestamp) :
  date_leb a b = true -> date_leb b c = true -> date_leb a c = true.
Proof.
  destruct a as [x |], b as [y |], c as [z |]; simpl; intros H1 H2;
    try reflexivity; try discriminate.
  apply Z.leb_le in H1. apply Z.leb_le in H2. apply Z.leb_le. lia.
Qed.

Lemma date_le_strongly_sorted (df : list bar) :
  Sorted date_le df -> StronglySorted date_le df.
Proof.
  apply Sorted_StronglySorted. intros a b c. unfold date_le. apply date_leb_trans.
Qed.

Lemma trend_points_sorted (start_date end_date : Z) (t : string) (df : list bar) :
  StronglySorted date_le df ->
  StronglySorted point_le (trend_points start_date end_date t df).
Proof.
  unfold trend_points.
  induction 1 as [| r df Hs IH Hr]; simpl; [ constructor | ].
  destruct (in_range start_date end_date (Date r)); [ | exact IH ].
  simpl. constructor; [ exact IH | ].
  apply Forall_forall. intros p Hp.
  apply in_map_iff in Hp. destruct Hp as (r' & <- & Hr').
  apply filter_In in Hr'. destruct Hr' as (Hr' & _).
  rewrite Forall_forall in Hr. exact (Hr r' Hr').
Qed.

Lemma trend_points_in_range (start_date end_date : Z) (t : string)
  (df : list bar) (p : trend_point) :
  In p (trend_points start_date end_date t df) ->
  tp_Asset p = t
  /\ (exists r, In r df /\ tp_Date p = Date r /\ tp_Close p = Close r)
  /\ exists x, tp_Date p = Some x /\ start_date <= x <= end_date.
Proof.
  unfold trend_points. intros Hp.
  apply in_map_iff in Hp. destruct Hp as (r & <- & Hr).
  apply filter_In in Hr. destruct Hr as (Hr & Hrange).
  split; [ reflexivity | ]. split; [ exists r; auto | ].
  cbn [tp_Date]. unfold in_range in Hrange.
  destruct (Date r) as [x |]; [ | discriminate ].
  apply andb_true_iff in Hrange. destruct Hrange as (H1 & H2).
  apply Z.leb_le in H1. apply Z.leb_le in H2. exists x. split; [ reflexivity | lia ].
Qed.

End Page.

(** X5. [compute_snapshot_from_series] never raises: for every series it
    returns a snapshot, whose current price is the Close of the last bar
    (NaN for the series without bars). *)
Theorem snapshot_of_any_series :
  forall df : list CryptoStocks.bar,
    exists s,
      CryptoStocks.compute_snapshot_from_series df = Ok s
      /\ CryptoStocks.current_price s =
         List.last (map CryptoStocks.Close df) F64.nan.
Proof. exact snapshot_returns. Qed.

(** X6. A row of the snapshot table is built without exception whatever
    the network and the parsers do. Without an API key (absent or empty)
    nothing is requested, and the row shows NaN for the price and for the
    change; so does it when the exchange fails. *)
Theorem snapshot_row_always_built :
  forall (to_datetime : string -> result CryptoStocks.timestamp)
         (float_of_str : string -> option F64.float) (t : string),
    (forall (net : network json) (API_KEY : option string),
        exists snap,
          CryptoStocks.snapshot_row to_datetime float_of_str net API_KEY t
          = Ok (t, snap))
    /\ (forall (net : network json) (API_KEY : option string),
           API_KEY = None \/ API_KEY = Some EmptyString ->
           CryptoStocks.snapshot_row to_datetime float_of_str net API_KEY t
           = Ok (t, {| CryptoStocks.current_price := F64.nan;
                       CryptoStocks.pct_change := F64.nan |}))
    /\ (forall (o : outcome json) (e : exn) (API_KEY : option string),
           failure o = Some e ->
           CryptoStocks.snapshot_row to_datetime float_of_str (fun _ _ => o)
             API_KEY t
           = Ok (t, {| CryptoStocks.current_price := F64.nan;
                       CryptoStocks.pct_change := F64.nan |})).
Proof.
  intros to_datetime float_of_str t. split; [ | split ].
  - intros net API_KEY. unfold CryptoStocks.snapshot_row.
    assert (H : exists df,
               CryptoStocks.series_for to_datetime float_of_str net API_KEY t
               = Ok df).
    { unfold CryptoStocks.series_for.
      destruct API_KEY as [[| c k] |]; eauto. apply av_fetch_returns. }
    destruct H as (df & ->). cbn [bind].
    destruct (snapshot_returns df) as (s & -> & _). cbn [bind]. eauto.
  - intros net API_KEY [-> | ->]; reflexivity.
  - intros o e API_KEY H. unfold CryptoStocks.snapshot_row, CryptoStocks.series_for.
    destruct API_KEY as [[| c k] |]; try reflexivity.
    rewrite (proj1 (guarded_fallbacks o e H)). reflexivity.
Qed.

(** A row without key, and a row after a timeout. *)
Lemma snapshot_row_always_built_witness :
  CryptoStocks.snapshot_row Sample.to_datetime Sample.float_of_str
    (Sample.ok200 Sample.crypto_daily) None "BTC-USD"
  = Ok ("BTC-USD", {| CryptoStocks.current_price := F64.nan;
                      CryptoStocks.pct_change := F64.nan |})
  /\ CryptoStocks.snapshot_row Sample.to_datetime Sample.float_of_str
       (fun _ _ => TimedOut) (Some "demo") "BTC-USD"
     = Ok ("BTC-USD", {| CryptoStocks.current_price := F64.nan;
                         CryptoStocks.pct_change := F64.nan |}).
Proof.
  destruct (snapshot_row_always_built Sample.to_datetime Sample.float_of_str
              "BTC-USD") as (_ & Hk & Hf).
  split.
  - apply Hk. left. reflexivity.
  - apply (Hf TimedOut RequestTimeout). reflexivity.
Defined.

(** X7. The points the trend chart draws for an asset from the series
    [av_fetch_daily_series] returned are in ascending order of date, each
    is the Date and Close of a bar of the series, carries the asset's name,
    and has a date inside the chosen range; bars without a date are left
    out. *)
Theorem trend_points_of_series :
  forall (to_datetime : string -> result CryptoStocks.timestamp)
         (float_of_str : string -> option F64.float)
         (net : network json) (symbol api_key : string)
         (df : list CryptoStocks.bar) (start_date end_date : Z),
    CryptoStocks.av_fetch_daily_series to_datetime float_of_str net
      symbol api_key = Ok df ->
    Sorted CryptoStocks.point_le
      (CryptoStocks.trend_points start_date end_date symbol df)
    /\ forall p,
         In p (CryptoStocks.trend_points start_date end_date symbol df) ->
         CryptoStocks.tp_Asset p = symbol
         /\ (exists r, In r df
                       /\ CryptoStocks.tp_Date p = CryptoStocks.Date r
                       /\ CryptoStocks.tp_Close p = CryptoStocks.Close r)
         /\ exists x, CryptoStocks.tp_Date p = Some x
                      /\ start_date <= x <= end_date.
Proof.
  intros to_datetime float_of_str net symbol api_key df start_date end_date H.
  split.
  - apply StronglySorted_Sorted, trend_points_sorted, date_le_strongly_sorted.
    eapply av_fetch_sorted. exact H.
  - intros p. apply trend_points_in_range.
Qed.

(** The sample series within the third of January 2024. *)
Lemma trend_points_of_series_witness :
  Sorted CryptoStocks.point_le
    (CryptoStocks.trend_points 1704200000000000000 1704300000000000000 "BTC-USD"
       [ Sample.ohlcv_bar 1704153600000000000 F64.nan (F64.of_Z 108)
           (F64.of_Z 95) (F64.of_Z 100) (F64.of_Z 9);
         Sample.ohlcv_bar 1704240000000000000 F64.nan (F64.of_Z 120)
           (F64.of_Z 100) (F64.of_Z 110) (F64.of_Z 7) ]).
Proof.
  apply (trend_points_of_series Sample.to_datetime Sample.float_of_str
           (Sample.ok200 Sample.crypto_daily) "BTC-USD" "demo").
  vm_compute. reflexivity.
Defined.

(** X8. The trend chart is replaced by the message that no data is
    available exactly when the series of every selected asset is empty.
    When some series has a bar the chart is drawn, with the points of all
    the assets that lie in the range, also when no point does. *)
Theorem chart_or_message :
  forall (start_date end_date : Z)
         (series_by_asset : list (string * list CryptoStocks.bar)),
    (CryptoStocks.chart_df start_date end_date series_by_asset = None
     <-> Forall (fun a => snd a = []) series_by_asset)
    /\ forall pts p,
         CryptoStocks.chart_df start_date end_date series_by_asset = Some pts ->
         (In p pts <->
          exists t df,
            In (t, df) series_by_asset
            /\ In p (CryptoStocks.trend_points start_date end_date t df)).
Proof.
  intros start_date end_date sba. unfold CryptoStocks.chart_df.
  set (nonempty := fun a : string * list CryptoStocks.bar =>
                     match snd a with [] => false | _ => true end).
  assert (Hsl : CryptoStocks.series_list start_date end_date sba = []
                <-> Forall (fun a => snd a = []) sba).
  { unfold CryptoStocks.series_list. fold nonempty.
    induction sba as [| a sba IH]; simpl.
    - split; auto.
    - destruct a as [t df]. unfold nonempty at 1. simpl.
      destruct df as [| r df]; simpl.
      + rewrite IH. split; intros H; [ now constructor | now inversion H ].
      + split; intros H; [ discriminate | inversion H; discriminate ]. }
  split.
  - destruct (CryptoStocks.series_list start_date end_date sba) eqn:E.
    + split; [ intros _; now apply Hsl | reflexivity ].
    + split; [ discriminate | intros H; apply Hsl in H; discriminate ].
  - intros pts p Hpts.
    assert (E : pts = List.concat (CryptoStocks.series_list start_date end_date sba)).
    { destruct (CryptoStocks.series_list start_date end_date sba);
        [ discriminate | now inversion Hpts ]. }
    rewrite E. clear E Hpts. rewrite in_concat.
    unfold CryptoStocks.series_list. fold nonempty. split.
    + intros (l & Hl & Hp). apply in_map_iff in Hl.
      destruct Hl as ((t & df) & <- & Ha). apply filter_In in Ha.
      exists t, df. split; [ apply Ha | exact Hp ].
    + intros (t & df & Ha & Hp).
      exists (CryptoStocks.trend_points start_date end_date t df).
      split; [ | exact Hp ].
      apply in_map_iff. exists (t, df). split; [ reflexivity | ].
      apply filter_In. split; [ exact Ha | ].
      unfold nonempty. simpl. destruct df; [ destruct Hp | reflexivity ].
Qed.

(** A series outside the range gives a chart without points. *)
Lemma chart_or_message_witness :
  In {| CryptoStocks.tp_Date := None;
        CryptoStocks.tp_Close := F64.of_Z 100;
        CryptoStocks.tp_Asset := "BTC-USD" |} [] <->
  exists t df,
    In (t, df) [ ("BTC-USD", [ Sample.close_bar 100 ]) ]
    /\ In {| CryptoStocks.tp_Date := None;
             CryptoStocks.tp_Close := F64.of_Z 100;
             CryptoStocks.tp_Asset := "BTC-USD" |}
          (CryptoStocks.trend_points 0 10 t df).
Proof.
  apply (proj2 (chart_or_message 0 10 [ ("BTC-USD", [ Sample.close_bar 100 ]) ])).
  reflexivity.
Defined.

(* ===================================================================== *)
(** * The dispatch, read backwards *)
(* ===================================================================== *)

Section DispatchInversion.
Import CryptoStocks.

Lemma substring_cut (n : nat) (s : string) :
  (n <= String.length s)%nat ->
  s = String.append (substring 0 n s) (substring n (String.length s - n) s).
Proof.
  revert s. induction n as [| n IH]; intros s Hn.
  - rewrite Nat.sub_0_r, substring_all. destruct s; reflexivity.
  - destruct s as [| c s]; simpl in Hn; [ lia | ].
    simpl. f_equal. apply IH. lia.
Qed.

Lemma endswith_inv (s suffix : string) :
  endswith s suffix = true -> exists b, s = String.append b suffix.
Proof.
  unfold endswith. intros H. apply andb_true_iff in H. destruct H as (Hm & He).
  apply Nat.leb_le in Hm. apply String.eqb_eq in He.
  exists (substring 0 (String.length s - String.length suffix) s).
  rewrite <- He at 2.
  replace (String.length suffix)
    with (String.length s - (String.length s - String.length suffix))%nat at 3
    by lia.
  apply substring_cut. lia.
Qed.

End DispatchInversion.

(** X9. What [av_route] does is decided by the shape of the symbol alone:
    a DIGITAL_CURRENCY_DAILY request is made only for a symbol of the form
    b-USD with no hyphen in b, and then with symbol b and market USD; a
    TIME_SERIES_DAILY request only for a symbol that does not end in
    "-USD", and then with the symbol unchanged; and the only exception is
    [ValueError], for a symbol b-USD with a hyphen in b. *)
Theorem symbol_dispatch_inversion :
  forall (symbol api_key : string),
    (forall params,
        CryptoStocks.av_route symbol api_key =
          Ok (CryptoStocks.DigitalCurrencyDaily params) ->
        exists b,
          symbol = String.append b "-USD"
          /\ has_char "-"%char b = false
          /\ params = [ ("function", PStr "DIGITAL_CURRENCY_DAILY");
                        ("symbol", PStr b);
                        ("market", PStr "USD");
                        ("apikey", PStr api_key) ])
    /\ (forall params,
           CryptoStocks.av_route symbol api_key =
             Ok (CryptoStocks.TimeSeriesDaily params) ->
           endswith symbol "-USD" = false
           /\ params = [ ("function", PStr "TIME_SERIES_DAILY");
                         ("symbol", PStr symbol);
                         ("outputsize", PStr "compact");
                         ("apikey", PStr api_key) ])
    /\ (forall e,
           CryptoStocks.av_route symbol api_key = Raise e ->
           e = ValueError
           /\ exists b, symbol = String.append b "-USD"
                        /\ has_char "-"%char b = true).
Proof.
  intros symbol api_key.
  destruct (endswith symbol "-USD") eqn:E.
  - destruct (endswith_inv _ _ E) as (b & ->).
    destruct (has_char "-"%char b) eqn:Hb.
    + rewrite (route_many_hyphens b api_key Hb).
      split; [ discriminate | ]. split; [ discriminate | ].
      intros e He. inversion He. split; [ reflexivity | ]. now exists b.
    + rewrite (route_crypto b api_key Hb).
      split; [ | split; discriminate ].
      intros params Hp. inversion Hp. now exists b.
  - rewrite (route_equity symbol api_key E).
    split; [ discriminate | ]. split; [ | discriminate ].
    intros params Hp. inversion Hp. auto.
Qed.

(** "ETH-USD" read backwards. *)
Lemma symbol_dispatch_inversion_witness :
  exists b,
    "ETH-USD" = String.append b "-USD"
    /\ has_char "-"%char b = false
    /\ [ ("function", PStr "DIGITAL_CURRENCY_DAILY");
         ("symbol", PStr "ETH");
         ("market", PStr "USD");
         ("apikey", PStr "demo") ]
       = [ ("function", PStr "DIGITAL_CURRENCY_DAILY");
           ("symbol", PStr b);
           ("market", PStr "USD");
           ("apikey", PStr "demo") ].
Proof.
  apply (proj1 (symbol_dispatch_inversion "ETH-USD" "demo")). reflexivity.
Defined.

(* ===================================================================== *)
(** * The market cards *)
(* ===================================================================== *)

Section Cards.
Import CryptoPrices.

Lemma mem_In (k : string) (l : list string) : mem k l = true <-> In k l.
Proof.
  induction l as [| h t IH]; simpl; [ split; [ discriminate | easy ] | ].
  rewrite orb_true_iff, IH, String.eqb_eq. split; intros [H | H]; auto.
Qed.

Lemma lookup_none {V : Type} (k : string) (d : list (string * V)) :
  lookup k d = None <-> ~ In k (map fst d).
Proof.
  induction d as [| [k' v] d IH]; simpl; [ tauto | ].
  destruct (String.eqb k k') eqn:E.
  - apply String.eqb_eq in E. subst. split; [ discriminate | tauto ].
  - apply String.eqb_neq in E. rewrite IH. split; [ | tauto ].
    intros H [H' | H']; [ congruence | tauto ].
Qed.

Lemma add_keys_In (c : string) (d : market) (seen : list string) :
  In c (add_keys seen d) <-> In c seen \/ In c (map fst d).
Proof.
  unfold add_keys. revert seen.
  induction d as [| kv d IH]; simpl; intros seen; [ tauto | ].
  rewrite IH. destruct (mem (fst kv) seen) eqn:M.
  - apply mem_In in M. split; [ tauto | ].
    intros [H | [H | H]]; subst; auto.
  - rewrite in_app_iff. simpl. tauto.
Qed.

Lemma columns_of_In (c : string) (payload : list market) :
  In c (columns_of payload) <->
  exists row, In row payload /\ In c (map fst row).
Proof.
  unfold columns_of.
  assert (G : forall seen,
             In c (fold_left add_keys payload seen) <->
             In c seen \/ exists row, In row payload /\ In c (map fst row)).
  { induction payload as [| d payload IH]; simpl; intros seen.
    - split; [ tauto | intros [H | (row & [] & _)]; exact H ].
    - rewrite IH, add_keys_In. split.
      + intros [[H | H] | (row & Hr & Hc)]; eauto.
      + intros [H | (row & [<- | Hr] & Hc)]; eauto. }
  rewrite G. simpl. tauto.
Qed.

Lemma objects_of_nth (payload : list market) (c : string) (i : nat)
  (row : market) :
  nth_error payload i = Some row ->
  nth_error (objects_of payload c) i
  = Some (match lookup c row with
          | Some v => v
          | None => JFloat F64.nan
          end).
Proof.
  intros H. unfold objects_of.
  now rewrite (map_nth_error _ _ _ H).
Qed.

Lemma sparkline_prices_other (x : json) :
  (forall d, x <> JObj d) -> sparkline_prices x = JArr [].
Proof.
  destruct x as [ | b | n | f | s | l | kv ]; intros H; try reflexivity.
  now destruct (H kv).
Qed.

Lemma sample_stored_keeps_dicts : keeps_dicts Sample.stored.
Proof.
  intros objects i x H. unfold Sample.stored.
  rewrite (nth_error_nth _ _ _ H). destruct x; try discriminate. reflexivity.
Qed.

End Cards.

(** X10. [get_markets_for_cards] raises [KeyError] exactly when one of the
    columns id, symbol, name, current_price, price_change_percentage_24h
    is a key of none of the markets of the payload. Otherwise it returns
    one card per market, in the payload's order. The fields of a card are
    the cells of the frame, which pandas stores in the type it infers for
    the column from the markets' values, NaN for a market that lacks the
    key. The sparkline of a card is the "price" entry of its market's
    "sparkline_in_7d" when that is a dict with such an entry, and the empty
    list in every other case. *)
Theorem cards_of_markets :
  forall (stored : list json -> nat -> json)
         (net : network (list CryptoPrices.market)) (ids : list string)
         (payload : list CryptoPrices.market),
    CryptoPrices.keeps_dicts stored ->
    get_json net (String.append CryptoPrices.GECKO_BASE "/coins/markets")
      [ ("vs_currency", PStr "usd");
        ("ids", PStr (CryptoPrices.join_comma ids));
        ("sparkline", PStr "true");
        ("price_change_percentage", PStr "24h") ] = Ok payload ->
    ((forall c,
         In c ["id"; "symbol"; "name"; "current_price";
               "price_change_percentage_24h"] ->
         exists row, In row payload /\ In c (map fst row)) ->
     exists cards,
       CryptoPrices.get_markets_for_cards stored net ids = Ok cards
       /\ List.length cards = List.length payload
       /\ forall (i : nat) (row : CryptoPrices.market),
            nth_error payload i = Some row ->
            exists card,
              nth_error cards i = Some card
              /\ (forall c,
                     nth_error (CryptoPrices.objects_of payload c) i
                     = Some (match lookup c row with
                             | Some v => v
                             | None => JFloat F64.nan
                             end))
              /\ CryptoPrices.id card
                 = stored (CryptoPrices.objects_of payload "id") i
              /\ CryptoPrices.symbol card
                 = stored (CryptoPrices.objects_of payload "symbol") i
              /\ CryptoPrices.name card
                 = stored (CryptoPrices.objects_of payload "name") i
              /\ CryptoPrices.current_price card
                 = stored (CryptoPrices.objects_of payload "current_price") i
              /\ CryptoPrices.price_change_percentage_24h card
                 = stored (CryptoPrices.objects_of payload
                             "price_change_percentage_24h") i
              /\ CryptoPrices.sparkline card
                 = match lookup "sparkline_in_7d" row with
                   | Some (JObj d) =>
                       match lookup "price" d with
                       | Some prices => prices
                       | None => JArr []
                       end
                   | _ => JArr []
                   end)
    /\ ((exists c,
            In c ["id"; "symbol"; "name"; "current_price";
                  "price_change_percentage_24h"]
            /\ forall row, In row payload -> ~ In c (map fst row)) ->
        CryptoPrices.get_markets_for_cards stored net ids = Raise KeyError).
Proof.
  intros stored net ids payload Hst Hjs.
  unfold CryptoPrices.get_markets_for_cards. rewrite Hjs. cbn [bind].
  set (five := ["id"; "symbol"; "name"; "current_price";
                "price_change_percentage_24h"]).
  split.
  - intros Hall.
    replace (forallb (fun c => CryptoPrices.mem c (CryptoPrices.columns_of payload))
               five) with true.
    2:{ symmetry. apply forallb_forall. intros c Hc.
        apply mem_In, columns_of_In, Hall, Hc. }
    eexists. split; [ reflexivity | ].
    split; [ now rewrite length_map, length_seq | ].
    intros i row Hrow.
    assert (Hi : (i < List.length payload)%nat)
      by (apply nth_error_Some; congruence).
    eexists. split.
    { apply map_nth_error. rewrite nth_error_seq.
      replace (i <? List.length payload)%nat with true
        by (symmetry; now apply Nat.ltb_lt).
      reflexivity. }
    cbn [CryptoPrices.id CryptoPrices.symbol CryptoPrices.name
         CryptoPrices.current_price CryptoPrices.price_change_percentage_24h
         CryptoPrices.sparkline].
    change (0 + i)%nat with i.
    split; [ intros c; now apply objects_of_nth | ].
    repeat (split; [ reflexivity | ]).
    pose proof (objects_of_nth payload "sparkline_in_7d" i row Hrow) as Ho.
    destruct (CryptoPrices.mem "sparkline_in_7d" (CryptoPrices.columns_of payload))
      eqn:M.
    + unfold CryptoPrices.cell. specialize (Hst _ _ _ Ho).
      destruct (lookup "sparkline_in_7d" row) as [x |].
      * destruct x; try (now apply sparkline_prices_other).
        rewrite Hst. reflexivity.
      * now apply sparkline_prices_other.
    + assert (N : lookup "sparkline_in_7d" row = None).
      { apply lookup_none. intros Hk.
        assert (T : CryptoPrices.mem "sparkline_in_7d"
                      (CryptoPrices.columns_of payload) = true).
        { apply mem_In, columns_of_In. exists row. split; [ | exact Hk ].
          eapply nth_error_In; eassumption. }
        congruence. }
      now rewrite N.
  - intros (c & Hc & Hnone).
    replace (forallb (fun c => CryptoPrices.mem c (CryptoPrices.columns_of payload))
               five) with false; [ reflexivity | ].
    symmetry. apply not_true_is_false. intros Hf.
    rewrite forallb_forall in Hf. specialize (Hf c Hc).
    apply mem_In, columns_of_In in Hf. destruct Hf as (row & Hr & Hk).
    exact (Hnone row Hr Hk).
Qed.

(** Two markets, and a lone market without a name. *)
Lemma cards_of_markets_witness :
  (exists cards,
      CryptoPrices.get_markets_for_cards Sample.stored
        (Sample.ok200 Sample.two_markets) ["bitcoin"; "ethereum"] = Ok cards
      /\ List.length cards = 2%nat)
  /\ CryptoPrices.get_markets_for_cards Sample.stored
       (Sample.ok200 [ [ ("id", JStr "bitcoin") ] ]) ["bitcoin"]
     = Raise KeyError.
Proof.
  split.
  - destruct (proj1 (cards_of_markets Sample.stored
                       (Sample.ok200 Sample.two_markets)
                       ["bitcoin"; "ethereum"] Sample.two_markets
                       sample_stored_keeps_dicts eq_refl))
      as (cards & Hc & Hl & _).
    + intros c Hc. exists (hd [] Sample.two_markets).
      split; [ left; reflexivity | ].
      simpl in Hc. simpl.
      repeat (destruct Hc as [<- | Hc]; [ tauto | ]). destruct Hc.
    + exists cards. split; [ exact Hc | exact Hl ].
  - apply (proj2 (cards_of_markets Sample.stored
                    (Sample.ok200 [ [ ("id", JStr "bitcoin") ] ])
                    ["bitcoin"] [ [ ("id", JStr "bitcoin") ] ]
                    sample_stored_keeps_dicts eq_refl)).
    exists "name". split; [ simpl; tauto | ].
    intros row [<- | []]. simpl. intros [H | []]. discriminate.
Defined.

(* ===================================================================== *)
(** * More on the market chart *)
(* ===================================================================== *)

Section ChartMore.
Import CryptoPrices.

Lemma merge_left_length (ps ms : list (Z * F64.float)) :
  (List.length ps <= List.length (merge_left ps ms))%nat.
Proof.
  unfold merge_left. induction ps as [| p ps IH]; [ apply Nat.le_refl | ].
  cbn [flat_map]. rewrite length_app. cbn [List.length].
  match goal with
  | H : (_ <= List.length ?r)%nat |- _ => set (rest := r) in *
  end.
  destruct (filter (fun m => fst m =? fst p) ms); cbn [List.length map]; lia.
Qed.

Lemma filter_empty (ms : list (Z * F64.float)) (t : Z) :
  filter (fun m => fst m =? t) ms = [] -> ~ In t (map fst ms).
Proof.
  induction ms as [| m ms IH]; simpl; [ tauto | ].
  destruct (fst m =? t) eqn:E; [ discriminate | ].
  apply Z.eqb_neq in E. intros H [H' | H']; [ congruence | now apply IH ].
Qed.

Lemma merge_left_In (ps ms : list (Z * F64.float)) (t : Z) (p c : F64.float) :
  In (t, p, c) (merge_left ps ms) <->
  In (t, p) ps
  /\ (In (t, c) ms \/ (c = F64.nan /\ ~ In t (map fst ms))).
Proof.
  unfold merge_left. rewrite in_flat_map. split.
  - intros ([t' p'] & Hp & Hx). cbn [fst snd] in Hx.
    destruct (filter (fun m => fst m =? t') ms) as [| m0 l] eqn:F.
    + destruct Hx as [Hx | []]. inversion Hx; subst.
      split; [ exact Hp | right ]. split; [ reflexivity | now apply filter_empty ].
    + rewrite <- F in Hx. apply in_map_iff in Hx.
      destruct Hx as ([tm cm] & Hx & Hm). cbn [fst snd] in Hx.
      inversion Hx; subst. apply filter_In in Hm. destruct Hm as (Hm & E).
      cbn [fst] in E. apply Z.eqb_eq in E. subst.
      split; [ exact Hp | now left ].
  - intros (Hp & Hc). exists (t, p). split; [ exact Hp | ]. cbn [fst snd].
    destruct Hc as [Hc | (-> & Hn)].
    + assert (Hf : In (t, c) (filter (fun m => fst m =? t) ms))
        by (apply filter_In; split; [ exact Hc | apply Z.eqb_refl ]).
      destruct (filter (fun m => fst m =? t) ms) as [| m0 l] eqn:F;
        [ destruct Hf | ].
      rewrite <- F. apply in_map_iff. exists (t, c). split; [ reflexivity | ].
      rewrite F. exact Hf.
    + rewrite (filter_none ms t Hn). now left.
Qed.

Lemma cap_at_not_nan (ms : list (Z * F64.float)) (t : Z) :
  NoDup (map fst ms) ->
  Forall (fun m => F64.isnan (snd m) = false) ms ->
  negb (F64.isnan (cap_at ms t)) = existsb (Z.eqb t) (map fst ms).
Proof.
  intros Hnd Hv. destruct (existsb (Z.eqb t) (map fst ms)) eqn:E.
  - apply existsb_exists in E. destruct E as (t' & Ht' & E).
    apply Z.eqb_eq in E. subst t'. apply in_map_iff in Ht'.
    destruct Ht' as ([t' c] & E & Hm). cbn [fst] in E. subst t'.
    rewrite (cap_at_in ms t c Hnd Hm).
    rewrite Forall_forall in Hv. specialize (Hv _ Hm). cbn [snd] in Hv.
    now rewrite Hv.
  - rewrite cap_at_absent; [ reflexivity | ].
    intros Hin. assert (T : existsb (Z.eqb t) (map fst ms) = true)
      by (apply existsb_exists; exists t; split; [ exact Hin | apply Z.eqb_refl ]).
    congruence.
Qed.

End ChartMore.

(** X11. [get_market_chart] is a left join on the prices. A payload without
    prices gives the frame without rows, whatever its market caps. Every
    returned row carries a (timestamp, price) pair of the payload, with the
    market cap of a pair of the same timestamp, or NaN when no market cap
    has that timestamp; and the frame has every price of the payload:
    at least as many rows as prices. *)
Theorem market_chart_left_join :
  forall (net : network CryptoPrices.chart_payload) (coin_id : string)
         (days : Z) (js : CryptoPrices.chart_payload),
    get_json net
      (String.append CryptoPrices.GECKO_BASE
         (String.append "/coins/" (String.append coin_id "/market_chart")))
      [ ("vs_currency", PStr "usd"); ("days", PInt days) ] = Ok js ->
    (CryptoPrices.get_list (CryptoPrices.prices js) = [] ->
     CryptoPrices.get_market_chart net coin_id days = Ok [])
    /\ forall df,
         CryptoPrices.get_market_chart net coin_id days = Ok df ->
         (List.length (CryptoPrices.get_list (CryptoPrices.prices js))
          <= List.length df)%nat
         /\ (forall r, In r df ->
                In (CryptoPrices.ts r, CryptoPrices.price r)
                   (CryptoPrices.get_list (CryptoPrices.prices js))
                /\ (In (CryptoPrices.ts r, CryptoPrices.market_cap r)
                       (CryptoPrices.get_list (CryptoPrices.market_caps js))
                    \/ (CryptoPrices.market_cap r = F64.nan
                        /\ ~ In (CryptoPrices.ts r)
                               (map fst (CryptoPrices.get_list
                                           (CryptoPrices.market_caps js))))))
         /\ (forall t p,
                In (t, p) (CryptoPrices.get_list (CryptoPrices.prices js)) ->
                exists r, In r df /\ CryptoPrices.ts r = t
                          /\ CryptoPrices.price r = p).
Proof.
  intros net coin_id days js Hjs. split.
  - intros He. unfold CryptoPrices.get_market_chart. rewrite Hjs. cbn [bind].
    rewrite He. reflexivity.
  - intros df Hdf.
    destruct (chart_ts net coin_id days df Hdf) as (js' & Hjs' & Hm & _).
    rewrite Hjs in Hjs'. inversion Hjs'; subst js'. clear Hjs'.
    split; [ | split ].
    + rewrite <- (length_map (fun r => (CryptoPrices.ts r, CryptoPrices.price r,
                                        CryptoPrices.market_cap r)) df), Hm.
      apply merge_left_length.
    + intros r Hr.
      apply (in_map (fun r => (CryptoPrices.ts r, CryptoPrices.price r,
                               CryptoPrices.market_cap r))) in Hr.
      rewrite Hm in Hr. now apply merge_left_In in Hr.
    + intros t p Hp.
      assert (Hx : exists c,
                 In (t, p, c)
                    (CryptoPrices.merge_left
                       (CryptoPrices.get_list (CryptoPrices.prices js))
                       (CryptoPrices.get_list (CryptoPrices.market_caps js)))).
      { destruct (in_dec Z.eq_dec t
                    (map fst (CryptoPrices.get_list (CryptoPrices.market_caps js))))
          as [Hin | Hout].
        - apply in_map_iff in Hin. destruct Hin as ([t' c] & E & Hin).
          cbn [fst] in E. subst t'. exists c. apply merge_left_In. auto.
        - exists F64.nan. apply merge_left_In. auto. }
      destruct Hx as (c & Hx). rewrite <- Hm in Hx. apply in_map_iff in Hx.
      destruct Hx as (r & E & Hr). inversion E. eauto.
Qed.

(** The rows of the chart that arrives newest first. *)
Lemma market_chart_left_join_witness :
  (List.length
     (CryptoPrices.get_list (CryptoPrices.prices Sample.unsorted_chart))
   <= List.length
        [ {| CryptoPrices.ts := 1704240000000;
             CryptoPrices.price := F64.of_Z 110;
             CryptoPrices.market_cap := F64.nan;
             CryptoPrices.Date := 1704240000000000000 |};
          {| CryptoPrices.ts := 1704153600000;
             CryptoPrices.price := F64.of_Z 100;
             CryptoPrices.market_cap := F64.of_Z 5000;
             CryptoPrices.Date := 1704153600000000000 |} ])%nat.
Proof.
  apply (proj2 (market_chart_left_join (Sample.ok200 Sample.unsorted_chart)
                  "bitcoin" 7 Sample.unsorted_chart eq_refl)).
  vm_compute. reflexivity.
Defined.

(** X12. The number of points the page draws. For a payload whose
    timestamps are distinct within each list and in the range of a
    datetime, whose market cap timestamps are among the price timestamps
    and whose values are numbers, the rows kept for the Price chart are as
    many as the prices and the rows kept for the Market Cap chart as many
    as the market caps: the rows without market cap are dropped. *)
Theorem chart_points_drawn :
  forall (net : network CryptoPrices.chart_payload) (coin_id : string)
         (days : Z) (ps ms : list (Z * F64.float)),
    get_json net
      (String.append CryptoPrices.GECKO_BASE
         (String.append "/coins/" (String.append coin_id "/market_chart")))
      [ ("vs_currency", PStr "usd"); ("days", PInt days) ]
    = Ok {| CryptoPrices.prices := Some ps;
            CryptoPrices.market_caps := Some ms |} ->
    NoDup (map fst ps) ->
    NoDup (map fst ms) ->
    incl (map fst ms) (map fst ps) ->
    Forall (fun p => Z.abs (fst p) <= 9223372036854) ps ->
    Forall (fun p => F64.isnan (snd p) = false) ps ->
    Forall (fun m => F64.isnan (snd m) = false) ms ->
    exists series,
      CryptoPrices.get_market_chart net coin_id days = Ok series
      /\ List.length (CryptoPrices.clean_series CryptoPrices.Price_metric series)
         = List.length ps
      /\ List.length
           (CryptoPrices.clean_series CryptoPrices.Market_Cap_metric series)
         = List.length ms
      /\ Forall (fun r => In (CryptoPrices.ts r, CryptoPrices.market_cap r) ms)
           (CryptoPrices.clean_series CryptoPrices.Market_Cap_metric series).
Proof.
  intros net coin_id days ps ms Hjs Np Nm Hincl Hb Hpv Hmv.
  pose proof (chart_rows net coin_id days _ Hjs Nm Hb) as Hdf.
  cbn [CryptoPrices.get_list CryptoPrices.prices CryptoPrices.market_caps] in Hdf.
  eexists. split; [ exact Hdf | ].
  unfold CryptoPrices.clean_series. split; [ | split ].
  - rewrite filter_map_length. cbn [CryptoPrices.y_col CryptoPrices.price].
    f_equal. apply forallb_filter_id. apply forallb_forall. intros p Hp.
    rewrite Forall_forall in Hpv. now rewrite (Hpv p Hp).
  - rewrite filter_map_length. cbn [CryptoPrices.y_col CryptoPrices.market_cap].
    rewrite (filter_ext _ (fun p => existsb (Z.eqb (fst p)) (map fst ms)))
      by (intros p; now apply cap_at_not_nan).
    rewrite <- (filter_map_length (fun x => existsb (Z.eqb x) (map fst ms)) fst).
    rewrite (count_members _ _ Np Nm Hincl). apply length_map.
  - apply Forall_forall. intros r Hr. apply filter_In in Hr.
    destruct Hr as (Hr & Hn). apply in_map_iff in Hr. destruct Hr as (p & <- & _).
    cbn [CryptoPrices.y_col CryptoPrices.market_cap CryptoPrices.ts] in *.
    rewrite (cap_at_not_nan ms (fst p) Nm Hmv) in Hn.
    apply existsb_exists in Hn. destruct Hn as (t & Ht & E).
    apply Z.eqb_eq in E. subst t. apply in_map_iff in Ht.
    destruct Ht as ([t c] & E & Hm). cbn [fst] in E. subst t.
    now rewrite (cap_at_in ms (fst p) c Nm Hm).
Qed.

(** The sample week: seven points of price, five of market cap. *)
Lemma chart_points_drawn_witness :
  exists series,
    CryptoPrices.get_market_chart (Sample.ok200 Sample.week_chart) "bitcoin" 7
    = Ok series
    /\ List.length (CryptoPrices.clean_series CryptoPrices.Price_metric series)
       = List.length (map (fun n => (Sample.day n, F64.of_Z (100 + n)))
                          [0; 1; 2; 3; 4; 5; 6])
    /\ List.length
         (CryptoPrices.clean_series CryptoPrices.Market_Cap_metric series)
       = List.length (map (fun n => (Sample.day n, F64.of_Z (9000 + n)))
                          [0; 1; 3; 4; 6])
    /\ Forall (fun r =>
                 In (CryptoPrices.ts r, CryptoPrices.market_cap r)
                    (map (fun n => (Sample.day n, F64.of_Z (9000 + n)))
                         [0; 1; 3; 4; 6]))
         (CryptoPrices.clean_series CryptoPrices.Market_Cap_metric series).
Proof.
  apply (chart_points_drawn (Sample.ok200 Sample.week_chart) "bitcoin" 7).
  - reflexivity.
  - repeat constructor; simpl; intuition discriminate.
  - repeat constructor; simpl; intuition discriminate.
  - intros x Hx. simpl in Hx. simpl. intuition.
  - repeat constructor; vm_compute; discriminate.
  - repeat constructor.
  - repeat constructor.
Defined.

(* ===================================================================== *)
(** * The sentiment widgets *)
(* ===================================================================== *)

Section Sentiment.
Import CryptoPrices.

Lemma get_of_dict (kv : list (string * json)) (k : string) (default : json) :
  get (JObj kv) k default =
  Ok (match lookup k kv with Some v => v | None => default end).
Proof. reflexivity. Qed.

Lemma get_of_other (x : json) (k : string) (default : json) :
  (forall kv, x <> JObj kv) -> get x k default = Raise AttributeError.
Proof. destruct x as [| | | | | | kv]; intros H; try reflexivity. now destruct (H kv). Qed.

End Sentiment.

(** X13. When the body of the sentiment index has a "data" that is true of
    Python (a list with an entry, say) whose first entry is a dict,
    [get_fear_greed] returns [float] of that entry's "value" and its
    "value_classification", the classification being the empty string
    when the entry has none. *)
Theorem fear_greed_of_first_entry :
  forall (float_of_str : string -> option F64.float) (net : network json)
         (js data d0 v cls : json) (x : F64.float),
    get_json net "https://api.alternative.me/fng/" [ ("limit", PInt 1) ] = Ok js ->
    get js "data" (JArr []) = Ok data ->
    truthy data = true ->
    item0 data = Ok d0 ->
    get d0 "value" (JStr "nan") = Ok v ->
    to_float float_of_str v = Ok x ->
    get d0 "value_classification" (JStr EmptyString) = Ok cls ->
    CryptoPrices.get_fear_greed float_of_str net =
    Ok {| CryptoPrices.value := x; CryptoPrices.classification := cls |}.
Proof.
  intros float_of_str net js data d0 v cls x Hjs Hdata Ht H0 Hv Hx Hc.
  unfold CryptoPrices.get_fear_greed, CryptoPrices.fear_greed_body.
  rewrite Hjs. cbn [bind]. rewrite Hdata. cbn [bind]. rewrite Ht, H0.
  cbn [bind]. rewrite Hv. cbn [bind]. rewrite Hx. cbn [bind]. rewrite Hc.
  reflexivity.
Qed.

(** The sample index: 55, "Greed". *)
Lemma fear_greed_of_first_entry_witness :
  CryptoPrices.get_fear_greed Sample.float_of_str (Sample.ok200 Sample.fng) =
  Ok {| CryptoPrices.value := F64.of_Z 55;
        CryptoPrices.classification := JStr "Greed" |}.
Proof.
  apply (fear_greed_of_first_entry Sample.float_of_str (Sample.ok200 Sample.fng)
           Sample.fng
           (JArr [ JObj [ ("value", JStr "55");
                          ("value_classification", JStr "Greed") ] ])
           (JObj [ ("value", JStr "55"); ("value_classification", JStr "Greed") ])
           (JStr "55") (JStr "Greed") (F64.of_Z 55)); reflexivity.
Defined.

(** X14. [get_fear_greed] never raises, and whenever it does not return
    the first entry of "data" it returns the fallback, NaN with an empty
    classification: so it does when the exchange fails, when the body is
    not a dict, when "data" is absent, empty or null, when its first entry
    is not a dict, and when the value is not a number. The gauge of the
    page then shows 0; it never shows NaN. *)
Theorem fear_greed_fallback :
  forall (float_of_str : string -> option F64.float) (net : network json),
    exists fg,
      CryptoPrices.get_fear_greed float_of_str net = Ok fg
      /\ F64.isnan (CryptoPrices.gauge_value fg) = false
      /\ ((fg = {| CryptoPrices.value := F64.nan;
                   CryptoPrices.classification := JStr EmptyString |}
           /\ CryptoPrices.gauge_value fg = F64.zero)
          \/ exists js data d0 v,
               get_json net "https://api.alternative.me/fng/"
                 [ ("limit", PInt 1) ] = Ok js
               /\ get js "data" (JArr []) = Ok data
               /\ truthy data = true
               /\ item0 data = Ok d0
               /\ get d0 "value" (JStr "nan") = Ok v
               /\ to_float float_of_str v = Ok (CryptoPrices.value fg)
               /\ get d0 "value_classification" (JStr EmptyString)
                  = Ok (CryptoPrices.classification fg)).
Proof.
  intros float_of_str net.
  assert (G : forall fg, F64.isnan (CryptoPrices.gauge_value fg) = false).
  { intros [v c]. unfold CryptoPrices.gauge_value. cbn [CryptoPrices.value].
    destruct v; reflexivity. }
  unfold CryptoPrices.get_fear_greed.
  destruct (CryptoPrices.fear_greed_body float_of_str net) as [[fg |] | e] eqn:B.
  2,3: eexists; split; [ reflexivity | ]; split; [ apply G | left; split; reflexivity ].
  exists fg. split; [ reflexivity | ]. split; [ apply G | right ].
  unfold CryptoPrices.fear_greed_body in B.
  apply bind_ok in B. destruct B as (js & Hjs & B).
  apply bind_ok in B. destruct B as (data & Hdata & B).
  destruct (truthy data) eqn:T; [ | discriminate ].
  apply bind_ok in B. destruct B as (d0 & H0 & B).
  apply bind_ok in B. destruct B as (v & Hv & B).
  apply bind_ok in B. destruct B as (x & Hx & B).
  apply bind_ok in B. destruct B as (cls & Hc & B).
  inversion B; subst. exists js, data, d0, v. cbn. repeat split; assumption.
Qed.

(** X15. [get_global_data] reads data.market_cap_percentage.btc of the
    body. On a body that is a dict it returns [None] as the dominance when
    "data" is absent, when "market_cap_percentage" is absent from it, or
    when "btc" is absent from that; it raises [AttributeError] when "data"
    or "market_cap_percentage" is present and not a dict (null, say); and,
    having no [try], it raises what a failed exchange raises. *)
Theorem global_data_cases :
  forall (net : network json),
    (forall kv,
        get_json net (String.append CryptoPrices.GECKO_BASE "/global") []
        = Ok (JObj kv) ->
        (lookup "data" kv = None ->
         CryptoPrices.get_global_data net = Ok {| CryptoPrices.btc_dom := JNull |})
        /\ (forall d,
               lookup "data" kv = Some (JObj d) ->
               lookup "market_cap_percentage" d = None ->
               CryptoPrices.get_global_data net
               = Ok {| CryptoPrices.btc_dom := JNull |})
        /\ (forall d m,
               lookup "data" kv = Some (JObj d) ->
               lookup "market_cap_percentage" d = Some (JObj m) ->
               CryptoPrices.get_global_data net
               = Ok {| CryptoPrices.btc_dom :=
                         match lookup "btc" m with
                         | Some btc => btc
                         | None => JNull
                         end |})
        /\ (forall x,
               lookup "data" kv = Some x ->
               (forall d, x <> JObj d) ->
               CryptoPrices.get_global_data net = Raise AttributeError)
        /\ (forall d x,
               lookup "data" kv = Some (JObj d) ->
               lookup "market_cap_percentage" d = Some x ->
               (forall m, x <> JObj m) ->
               CryptoPrices.get_global_data net = Raise AttributeError))
    /\ (forall (o : outcome json) (e : exn),
           failure o = Some e ->
           CryptoPrices.get_global_data (fun _ _ => o) = Raise e).
Proof.
  intros net. split.
  - intros kv Hjs. unfold CryptoPrices.get_global_data. rewrite Hjs.
    cbn [bind]. rewrite get_of_dict. cbn [bind].
    split; [ | split; [ | split; [ | split ] ] ].
    + intros ->. reflexivity.
    + intros d -> Hm. rewrite get_of_dict, Hm. reflexivity.
    + intros d m -> Hm. rewrite get_of_dict, Hm. reflexivity.
    + intros x -> Hx. now rewrite (get_of_other x _ _ Hx).
    + intros d x -> Hm Hx. rewrite get_of_dict, Hm. cbn [bind].
      now rewrite (get_of_other x _ _ Hx).
  - intros o e H. unfold CryptoPrices.get_global_data.
    now rewrite (get_json_failure o e _ _ H).
Qed.

(** The sample body gives 52; a null "data" raises. *)
Lemma global_data_cases_witness :
  CryptoPrices.get_global_data (Sample.ok200 Sample.global_stats)
  = Ok {| CryptoPrices.btc_dom := JFloat (F64.of_Z 52) |}
  /\ CryptoPrices.get_global_data (Sample.ok200 (JObj [ ("data", JNull) ]))
     = Raise AttributeError
  /\ CryptoPrices.get_global_data (fun _ _ => Refused) = Raise ConnectionError.
Proof.
  split; [ | split ].
  - exact (proj1 (proj2 (proj2
             (proj1 (global_data_cases (Sample.ok200 Sample.global_stats))
                _ eq_refl))) _ _ eq_refl eq_refl).
  - apply (proj1 (proj2 (proj2 (proj2
             (proj1 (global_data_cases (Sample.ok200 (JObj [ ("data", JNull) ])))
                _ eq_refl)))) JNull eq_refl).
    intros d. discriminate.
  - exact (proj2 (global_data_cases (fun _ _ => Refused)) Refused
             ConnectionError eq_refl).
Defined.

Section Volumes.
Import CryptoPrices.

Lemma has_number_of_some (col : list (option F64.float)) (v : F64.float) :
  In (Some v) col -> has_number col = true.
Proof.
  intros H. unfold has_number. apply existsb_exists.
  exists (Some v). split; [ exact H | reflexivity ].
Qed.

Lemma has_number_of_none (col : list (option F64.float)) :
  (forall x, In x col -> x = None) -> has_number col = false.
Proof.
  intros H. unfold has_number. apply not_true_is_false. intros E.
  apply existsb_exists in E. destruct E as (x & Hx & E).
  rewrite (H x Hx) in E. discriminate.
Qed.

End Volumes.

(** X16. The frame of [get_market_tickers] has one row per ticker of the
    payload, none when "tickers" is absent. When some ticker has a volume,
    the column of volumes holds floats, NaN for a ticker without volume;
    such a ticker gets NaN as "Volume %", unless the volumes sum to zero,
    when it gets 0. When no ticker has a volume, the column holds [None] in
    every row and every "Volume %" is 0. *)
Theorem ticker_without_volume :
  forall (net : network CryptoPrices.tickers_payload) (coin_id : string)
         (js : CryptoPrices.tickers_payload)
         (mt : list CryptoPrices.ticker_row),
    get_json net
      (String.append CryptoPrices.GECKO_BASE
         (String.append "/coins/" (String.append coin_id "/tickers"))) []
    = Ok js ->
    CryptoPrices.get_market_tickers net coin_id = Ok mt ->
    let ts := CryptoPrices.get_list (CryptoPrices.tickers js) in
    let total_vol :=
      CryptoPrices.series_sum
        (map (fun t => CryptoPrices.as_float (CryptoPrices.volume t)) ts) in
    List.length mt = List.length ts
    /\ (forall v,
           In (Some v) (map CryptoPrices.volume ts) ->
           map CryptoPrices.Volume_24h mt
           = map (fun t => JFloat (CryptoPrices.as_float (CryptoPrices.volume t)))
                 ts
           /\ forall i t r,
                nth_error ts i = Some t ->
                nth_error mt i = Some r ->
                CryptoPrices.volume t = None ->
                CryptoPrices.Volume_24h r = JFloat F64.nan
                /\ CryptoPrices.Volume_pct r =
                   if F64.truthy total_vol then F64.nan else F64.zero)
    /\ ((forall t, In t ts -> CryptoPrices.volume t = None) ->
        Forall (fun r => CryptoPrices.Volume_24h r = JNull
                         /\ CryptoPrices.Volume_pct r = F64.zero) mt).
Proof.
  intros net coin_id js mt Hjs H ts total_vol.
  destruct (tickers_table net coin_id mt H) as (js' & Hjs' & E).
  rewrite Hjs in Hjs'. injection Hjs' as <-.
  fold ts in E. fold total_vol in E.
  split; [ rewrite E; apply length_map | ]. split.
  - intros v Hv. apply has_number_of_some in Hv. split.
    + rewrite E, map_map. cbn [CryptoPrices.Volume_24h].
      unfold CryptoPrices.number_cell. rewrite Hv. reflexivity.
    + intros i t r Ht Hr Hn. rewrite E in Hr.
      rewrite (map_nth_error _ _ _ Ht) in Hr. injection Hr as <-.
      cbn [CryptoPrices.Volume_24h CryptoPrices.Volume_pct].
      unfold CryptoPrices.number_cell. rewrite Hv, Hn.
      split; [ reflexivity | ].
      unfold CryptoPrices.volume_share, CryptoPrices.as_float.
      destruct (F64.truthy total_vol); reflexivity.
  - intros Hall.
    assert (Hn : CryptoPrices.has_number (map CryptoPrices.volume ts) = false).
    { apply has_number_of_none. intros x Hx. apply in_map_iff in Hx.
      destruct Hx as (t & <- & Ht). now apply Hall. }
    assert (Hz : exists s, total_vol = S754_zero s).
    { apply series_sum_zeros. apply Forall_map, Forall_forall.
      intros t Ht. left. now rewrite (Hall t Ht). }
    destruct Hz as (s & Hz).
    rewrite E. apply Forall_map, Forall_forall. intros t Ht.
    cbn [CryptoPrices.Volume_24h CryptoPrices.Volume_pct].
    unfold CryptoPrices.number_cell. rewrite Hn, Hz.
    split; reflexivity.
Qed.

(** A ticker without volume beside one with volume 5, and a table where
    no ticker has a volume. *)
Lemma ticker_without_volume_witness :
  (let r :=
     {| CryptoPrices.Exchange := JStr "Binance";
        CryptoPrices.Pair := (JStr "BTC", JStr "USDT");
        CryptoPrices.Price := JFloat (F64.of_Z 42000);
        CryptoPrices.Volume_24h := JFloat F64.nan;
        CryptoPrices.Liquidity := JNull;
        CryptoPrices.Trade_URL := JNull;
        CryptoPrices.Volume_pct := F64.nan |} in
   CryptoPrices.Volume_24h r = JFloat F64.nan
   /\ CryptoPrices.Volume_pct r = F64.nan)
  /\ Forall (fun r => CryptoPrices.Volume_24h r = JNull
                      /\ CryptoPrices.Volume_pct r = F64.zero)
       [ {| CryptoPrices.Exchange := JStr "Binance";
            CryptoPrices.Pair := (JStr "BTC", JStr "USDT");
            CryptoPrices.Price := JFloat (F64.of_Z 42000);
            CryptoPrices.Volume_24h := JNull;
            CryptoPrices.Liquidity := JStr "red";
            CryptoPrices.Trade_URL := JNull;
            CryptoPrices.Volume_pct := F64.zero |} ].
Proof.
  split.
  - destruct (ticker_without_volume
                (Sample.ok200
                   {| CryptoPrices.tickers :=
                        Some [ Sample.ticker_of None JNull;
                               Sample.ticker_of (Some (F64.of_Z 5))
                                 (JStr "green") ] |})
                "bitcoin" _ _ eq_refl eq_refl) as (_ & Hv & _).
    destruct (Hv (F64.of_Z 5)) as (_ & Hr); [ right; left; reflexivity | ].
    apply (Hr 0%nat (Sample.ticker_of None JNull)); reflexivity.
  - destruct (ticker_without_volume
                (Sample.ok200
                   {| CryptoPrices.tickers :=
                        Some [ Sample.ticker_of None (JStr "red") ] |})
                "bitcoin" _ _ eq_refl eq_refl) as (_ & _ & Hn).
    apply Hn. intros t [<- | []]. reflexivity.
Defined.

(* ===================================================================== *)
(** * The history frame and its indicators *)
(* ===================================================================== *)

Section History.
Import App.

Lemma lookup_app_none {V : Type} (k : string) (l l' : list (string * V)) :
  lookup k l = None -> lookup k (l ++ l') = lookup k l'.
Proof.
  induction l as [| [k' v'] l IH]; simpl; [ reflexivity | ].
  destruct (String.eqb k k'); [ discriminate | exact IH ].
Qed.

Lemma has_column_lookup (df : frame) (c : string) :
  has_column df c = false <-> lookup c df = None.
Proof.
  unfold has_column. rewrite lookup_none, <- mem_In.
  destruct (CryptoPrices.mem c (map fst df)); split; congruence.
Qed.

Lemma ensure_column_same (n : nat) (df : frame) (c : string) :
  lookup c (ensure_column n df c) =
  match lookup c df with
  | Some col => Some col
  | None => Some (Floats (repeat F64.nan n))
  end.
Proof.
  unfold ensure_column. destruct (has_column df c) eqn:H.
  - destruct (lookup c df) eqn:L; [ reflexivity | ].
    apply has_column_lookup in L. congruence.
  - apply has_column_lookup in H. rewrite H, (lookup_app_none _ _ _ H).
    simpl. now rewrite String.eqb_refl.
Qed.

Lemma ensure_column_other (n : nat) (df : frame) (c k : string) :
  k <> c -> lookup k (ensure_column n df c) = lookup k df.
Proof.
  intros Hk. unfold ensure_column. destruct (has_column df c); [ reflexivity | ].
  destruct (lookup k df) eqn:L.
  - now apply lookup_app.
  - rewrite (lookup_app_none _ _ _ L). simpl.
    apply String.eqb_neq in Hk. now rewrite Hk.
Qed.

Lemma ensure_columns_spec (n : nat) (cols : list string) (df : frame) (k : string) :
  lookup k (fold_left (ensure_column n) cols df) =
  match lookup k df with
  | Some col => Some col
  | None => if CryptoPrices.mem k cols
            then Some (Floats (repeat F64.nan n)) else None
  end.
Proof.
  revert df. induction cols as [| c cols IH]; intros df; simpl.
  - destruct (lookup k df); reflexivity.
  - rewrite IH. destruct (String.eqb k c) eqn:E.
    + apply String.eqb_eq in E. subst c. rewrite ensure_column_same.
      destruct (lookup k df); reflexivity.
    + apply String.eqb_neq in E. rewrite (ensure_column_other _ _ _ _ E).
      reflexivity.
Qed.

Lemma lookup_combine_floats (names : list string) (data : list (list F64.float))
  (c : string) (col : column) :
  lookup c (combine names (map Floats data)) = Some col ->
  exists l, col = Floats l.
Proof.
  revert data. induction names as [| n names IH]; intros [| d data]; simpl;
    try discriminate.
  destruct (String.eqb c n); [ intros H; inversion H; eauto | apply IH ].
Qed.

(** The frame [fetch_history] builds from a download. *)
Lemma fetch_history_of_download yf ticker start end_ d :
  yf ticker start end_ = Ok d ->
  CryptoPrices.mem "Date"
    (map title match d_columns d with
               | MultiIndex cs => map fst cs
               | Index ns => ns
               end) = false ->
  fetch_history yf ticker start end_ =
  Ok (fold_left (ensure_column (List.length (d_index d)))
        ["Open"; "High"; "Low"; "Close"; "Volume"]
        (("Date", Dates (d_index d))
           :: combine (map title match d_columns d with
                                 | MultiIndex cs => map fst cs
                                 | Index ns => ns
                                 end)
                      (map Floats (d_data d)))).
Proof.
  intros Hd Hm. unfold fetch_history, fetch_history_body.
  rewrite Hd. cbn [bind]. rewrite Hm. reflexivity.
Qed.

(** What a frame returned by [fetch_history] holds. *)
Lemma fetch_history_shape yf ticker start end_ :
  exists df,
    fetch_history yf ticker start end_ = Ok df
    /\ (exists idx, lookup "Date" df = Some (Dates idx)
                    /\ frame_empty df = match idx with [] => true | _ => false end)
    /\ forall c, In c ["Open"; "High"; "Low"; "Close"; "Volume"] ->
                 exists l, lookup c df = Some (Floats l).
Proof.
  unfold fetch_history, fetch_history_body.
  destruct (yf ticker start end_) as [d | e]; cbn [bind try_except].
  2:{ exists empty_frame. split; [ reflexivity | ].
      split; [ exists []; split; reflexivity | ].
      intros c Hc. simpl in Hc.
      repeat (destruct Hc as [<- | Hc]; [ eexists; reflexivity | ]). destruct Hc. }
  destruct (CryptoPrices.mem "Date" _) eqn:M; cbn [try_except].
  { exists empty_frame. split; [ reflexivity | ].
    split; [ exists []; split; reflexivity | ].
    intros c Hc. simpl in Hc.
    repeat (destruct Hc as [<- | Hc]; [ eexists; reflexivity | ]). destruct Hc. }
  eexists. split; [ reflexivity | ]. split.
  - exists (d_index d). split.
    + rewrite ensure_columns_spec. reflexivity.
    + (* the frame keeps its first column *)
      assert (F : forall cols (x : string * column) rest,
                 exists rest',
                   fold_left (ensure_column (List.length (d_index d))) cols
                             (x :: rest) = x :: rest').
      { induction cols as [| c cols IH]; intros x rest; simpl; [ eauto | ].
        unfold ensure_column at 2.
        destruct (has_column (x :: rest) c); [ apply IH | ].
        change ((x :: rest) ++ [(c, Floats (repeat F64.nan (List.length (d_index d))))])
          with (x :: (rest ++ [(c, Floats (repeat F64.nan (List.length (d_index d))))])).
        apply IH. }
      destruct (F ["Open"; "High"; "Low"; "Close"; "Volume"]
                  ("Date", Dates (d_index d))
                  (combine (map title match d_columns d with
                                      | MultiIndex cs => map fst cs
                                      | Index ns => ns
                                      end)
                           (map Floats (d_data d)))) as (rest' & ->).
      reflexivity.
  - intros c Hc. rewrite ensure_columns_spec.
    assert (Hmem : CryptoPrices.mem c ["Open"; "High"; "Low"; "Close"; "Volume"]
                   = true) by (now apply mem_In).
    assert (Hnd : String.eqb c "Date" = false)
      by (simpl in Hc;
          repeat (destruct Hc as [<- | Hc]; [ reflexivity | ]); destruct Hc).
    cbn [lookup]. rewrite Hnd, Hmem.
    destruct (lookup c _) as [col |] eqn:L; [ | eauto ].
    destruct (lookup_combine_floats _ _ _ _ L) as (l & ->). eauto.
Qed.

(** The first column with a label is the one [lookup] finds. *)
Lemma lookup_labelled (df : frame) (c : string) :
  lookup c df = hd_error (labelled df c).
Proof.
  unfold labelled. induction df as [| [k v] df IH]; simpl; [ reflexivity | ].
  destruct (String.eqb c k); [ reflexivity | exact IH ].
Qed.

Lemma labelled_app (l l' : frame) (c : string) :
  labelled (l ++ l') c = labelled l c ++ labelled l' c.
Proof. unfold labelled. now rewrite filter_app, map_app. Qed.

Lemma has_column_labelled (df : frame) (c : string) :
  has_column df c = false <-> labelled df c = [].
Proof.
  rewrite has_column_lookup, lookup_labelled.
  destruct (labelled df c); simpl; split; congruence.
Qed.

Lemma ensure_column_labelled (n : nat) (df : frame) (c k : string) :
  labelled (ensure_column n df c) k =
  match labelled df k with
  | [] => if String.eqb k c then [ Floats (repeat F64.nan n) ] else []
  | cols => cols
  end.
Proof.
  unfold ensure_column. destruct (has_column df c) eqn:H.
  - destruct (labelled df k) eqn:L; [ | reflexivity ].
    destruct (String.eqb k c) eqn:E; [ | reflexivity ].
    apply String.eqb_eq in E. subst k. apply has_column_labelled in L.
    congruence.
  - rewrite labelled_app. unfold labelled at 2. cbn [filter map fst snd].
    destruct (String.eqb k c) eqn:E.
    + apply String.eqb_eq in E. subst k. apply has_column_labelled in H.
      rewrite H. reflexivity.
    + cbn [map]. rewrite app_nil_r. destruct (labelled df k); reflexivity.
Qed.

Lemma ensure_columns_labelled (n : nat) (cols : list string) (df : frame)
  (k : string) :
  labelled (fold_left (ensure_column n) cols df) k =
  match labelled df k with
  | [] => if CryptoPrices.mem k cols
          then [ Floats (repeat F64.nan n) ] else []
  | found => found
  end.
Proof.
  revert df. induction cols as [| c cols IH]; intros df; simpl.
  - destruct (labelled df k); reflexivity.
  - rewrite IH, ensure_column_labelled.
    destruct (labelled df k); [ | reflexivity ].
    destruct (String.eqb k c); reflexivity.
Qed.

Lemma labelled_combine_floats (names : list string)
  (data : list (list F64.float)) (c : string) :
  Forall (fun col => exists l, col = Floats l)
         (labelled (combine names (map Floats data)) c).
Proof.
  unfold labelled. revert data.
  induction names as [| n names IH]; intros [| d data]; simpl;
    try constructor.
  destruct (String.eqb c n); simpl; [ constructor; eauto | ]; apply IH.
Qed.

Lemma labelled_combine_nodup (names : list string) (cols : list column)
  (c : string) :
  NoDup names -> (List.length (labelled (combine names cols) c) <= 1)%nat.
Proof.
  unfold labelled. revert cols.
  induction names as [| n names IH]; intros [| col cols] H; simpl;
    try lia.
  inversion H as [| n' names' Hn Hnd]; subst.
  destruct (String.eqb c n) eqn:E; [ | now apply IH ].
  apply String.eqb_eq in E. subst n. simpl.
  assert (Z0 : filter (fun kv : string * column => String.eqb c (fst kv))
                 (combine names cols) = []).
  { destruct (filter _ (combine names cols)) as [| [k v] rest] eqn:F;
      [ reflexivity | ].
    assert (Hin : In (k, v) (filter (fun kv : string * column =>
                                       String.eqb c (fst kv))
                               (combine names cols)))
      by (rewrite F; now left).
    apply filter_In in Hin. destruct Hin as (Hin & Hk).
    apply String.eqb_eq in Hk. cbn [fst] in Hk. subst k.
    apply in_combine_l in Hin. contradiction. }
  rewrite Z0. simpl. lia.
Qed.

(** What [float_column] does on a label that floats carry. *)
Lemma float_column_cases (df : frame) (c : string) :
  labelled df c <> [] ->
  Forall (fun col => exists l, col = Floats l) (labelled df c) ->
  (exists l, labelled df c = [ Floats l ] /\ float_column df c = Ok l)
  \/ ((2 <= List.length (labelled df c))%nat
      /\ float_column df c = Raise TypeError).
Proof.
  unfold float_column. intros Hne Hall.
  destruct (labelled df c) as [| col [| col' rest]]; [ congruence | | ].
  - inversion Hall as [| x xs (l & ->) _]; subst. left. eauto.
  - right. split; [ simpl; lia | ]. destruct col; reflexivity.
Qed.

(** The columns of a frame returned by [fetch_history] under a label
    other than Date. *)
Lemma fetch_history_labelled yf ticker start end_ df :
  fetch_history yf ticker start end_ = Ok df ->
  forall c, In c ["Open"; "High"; "Low"; "Close"; "Volume"] ->
    labelled df c <> []
    /\ Forall (fun col => exists l, col = Floats l) (labelled df c)
    /\ forall d,
         yf ticker start end_ = Ok d ->
         NoDup (map title match d_columns d with
                          | MultiIndex cs => map fst cs
                          | Index ns => ns
                          end) ->
         (List.length (labelled df c) <= 1)%nat.
Proof.
  intros Hdf c Hc.
  assert (Hmem : CryptoPrices.mem c ["Open"; "High"; "Low"; "Close"; "Volume"]
                 = true) by (now apply mem_In).
  assert (Hnd : String.eqb c "Date" = false)
    by (simpl in Hc;
        repeat (destruct Hc as [<- | Hc]; [ reflexivity | ]); destruct Hc).
  assert (He : labelled empty_frame c <> []
               /\ Forall (fun col => exists l, col = Floats l)
                         (labelled empty_frame c)
               /\ (List.length (labelled empty_frame c) <= 1)%nat).
  { simpl in Hc.
    repeat (destruct Hc as [<- | Hc];
            [ cbn; split; [ discriminate | ];
              split; [ repeat constructor; eauto | lia ] | ]).
    destruct Hc. }
  revert Hdf. unfold fetch_history, fetch_history_body.
  destruct (yf ticker start end_) as [d | e]; cbn [bind try_except].
  2:{ intros H. injection H as <-. destruct He as (A & B & C).
      split; [ exact A | ]. split; [ exact B | ]. intros d Hd. discriminate. }
  destruct (CryptoPrices.mem "Date" _) eqn:M; cbn [try_except].
  { intros H. injection H as <-. destruct He as (A & B & C).
    split; [ exact A | ]. split; [ exact B | ]. intros _ _ _. exact C. }
  cbv zeta.
  set (built := fold_left _ _ _). intros H.
  assert (Hb : df = built) by congruence. subst df. clear H. unfold built.
  rewrite ensure_columns_labelled. rewrite Hmem.
  set (names := map title match d_columns d with
                          | MultiIndex cs => map fst cs
                          | Index ns => ns
                          end) in *.
  assert (E : labelled (("Date", Dates (d_index d))
                          :: combine names (map Floats (d_data d))) c
              = labelled (combine names (map Floats (d_data d))) c).
  { unfold labelled. cbn [filter fst]. now rewrite Hnd. }
  rewrite E.
  pose proof (labelled_combine_floats names (d_data d) c) as Hf.
  destruct (labelled (combine names (map Floats (d_data d))) c)
    as [| col rest] eqn:L.
  - split; [ discriminate | ]. split; [ repeat constructor; eauto | ].
    intros _ _ _. simpl. lia.
  - split; [ discriminate | ]. split; [ exact Hf | ].
    intros d' Hd' Hnodup. injection Hd' as <-. rewrite <- L.
    now apply labelled_combine_nodup.
Qed.

End History.

Section FloatOrder.
Import App.

Ltac cmp :=
  repeat match goal with
  | H : context [Pos.compare_cont Eq ?x ?y] |- _ =>
      change (Pos.compare_cont Eq x y) with (Pos.compare x y) in H
  | |- context [Pos.compare_cont Eq ?x ?y] =>
      change (Pos.compare_cont Eq x y) with (Pos.compare x y)
  end;
  repeat match goal with
  | H : context [Z.compare ?x ?y] |- _ => destruct (Z.compare_spec x y)
  | |- context [Z.compare ?x ?y] => destruct (Z.compare_spec x y)
  | H : context [Pos.compare ?x ?y] |- _ => destruct (Pos.compare_spec x y)
  | |- context [Pos.compare ?x ?y] => destruct (Pos.compare_spec x y)
  end; subst; simpl in *; try discriminate; try reflexivity; try lia.

Lemma ltb_asym (a b : F64.float) : ltb a b = true -> ltb b a = false.
Proof.
  unfold ltb, SFltb, SFcompare.
  destruct a as [[] | [] | | [] ma ea], b as [[] | [] | | [] mb eb];
    try discriminate; try reflexivity; intros H1; cmp.
Qed.

(** Not below, twice, is not below: the numbers are totally ordered. *)
Lemma not_ltb_trans (a b c : F64.float) :
  F64.isnan b = false ->
  ltb a b = false -> ltb b c = false -> ltb a c = false.
Proof.
  unfold ltb, SFltb, SFcompare.
  destruct a as [[] | [] | | [] ma ea], b as [[] | [] | | [] mb eb],
           c as [[] | [] | | [] mc ec];
    try discriminate; try reflexivity; intros Hb H1 H2; cmp.
Qed.

Lemma ltb_nan_r (a : F64.float) : ltb a F64.nan = false.
Proof. destruct a as [[] | [] | | [] m e]; reflexivity. Qed.

Lemma ltb_nan_l (a : F64.float) : ltb F64.nan a = false.
Proof. reflexivity. Qed.

Lemma fold_max (xs : list F64.float) (acc : F64.float) :
  Forall (fun x => F64.isnan x = false) xs ->
  F64.isnan acc = false ->
  let m := fold_left (fun a y => if ltb y a then a else y) xs acc in
  F64.isnan m = false
  /\ In m (acc :: xs)
  /\ forall y, In y (acc :: xs) -> ltb m y = false.
Proof.
  revert acc. induction xs as [| x xs IH]; intros acc Hxs Hacc; simpl.
  - split; [ exact Hacc | ]. split; [ now left | ].
    intros y [<- | []]. destruct acc as [[] | [] | | [] m e]; try reflexivity;
      try discriminate; unfold ltb, SFltb, SFcompare; cmp.
  - inversion Hxs as [| x' xs' Hx Hxs']; subst.
    destruct (ltb x acc) eqn:L.
    + destruct (IH acc Hxs' Hacc) as (Hn & Hin & Hb).
      split; [ exact Hn | ].
      split; [ destruct Hin as [Hin | Hin]; [ now left | right; now right ] | ].
      intros y [<- | [<- | Hy]].
      * apply Hb. now left.
      * apply (not_ltb_trans _ acc _ Hacc);
          [ apply Hb; now left | now apply ltb_asym ].
      * apply Hb. now right.
    + destruct (IH x Hxs' Hx) as (Hn & Hin & Hb).
      split; [ exact Hn | ]. split; [ right; exact Hin | ].
      intros y [<- | Hy]; [ | now apply Hb ].
      apply (not_ltb_trans _ x _ Hx); [ apply Hb; now left | exact L ].
Qed.

Lemma fold_min (xs : list F64.float) (acc : F64.float) :
  Forall (fun x => F64.isnan x = false) xs ->
  F64.isnan acc = false ->
  let m := fold_left (fun a y => if ltb a y then a else y) xs acc in
  F64.isnan m = false
  /\ In m (acc :: xs)
  /\ forall y, In y (acc :: xs) -> ltb y m = false.
Proof.
  revert acc. induction xs as [| x xs IH]; intros acc Hxs Hacc; simpl.
  - split; [ exact Hacc | ]. split; [ now left | ].
    intros y [<- | []]. destruct acc as [[] | [] | | [] m e]; try reflexivity;
      try discriminate; unfold ltb, SFltb, SFcompare; cmp.
  - inversion Hxs as [| x' xs' Hx Hxs']; subst.
    destruct (ltb acc x) eqn:L.
    + destruct (IH acc Hxs' Hacc) as (Hn & Hin & Hb).
      split; [ exact Hn | ].
      split; [ destruct Hin as [Hin | Hin]; [ now left | right; now right ] | ].
      intros y [<- | [<- | Hy]].
      * apply Hb. now left.
      * apply (not_ltb_trans _ acc _ Hacc);
          [ now apply ltb_asym | apply Hb; now left ].
      * apply Hb. now right.
    + destruct (IH x Hxs' Hx) as (Hn & Hin & Hb).
      split; [ exact Hn | ]. split; [ right; exact Hin | ].
      intros y [<- | Hy]; [ | now apply Hb ].
      apply (not_ltb_trans _ x _ Hx); [ exact L | apply Hb; now left ].
Qed.

Lemma numbers_of (col : list F64.float) :
  Forall (fun x => F64.isnan x = false)
         (filter (fun x => negb (F64.isnan x)) col).
Proof.
  apply Forall_forall. intros x Hx. apply filter_In in Hx.
  destruct Hx as (_ & Hx). now apply negb_true_iff in Hx.
Qed.

Lemma no_number (col : list F64.float) :
  filter (fun x => negb (F64.isnan x)) col = [] <->
  Forall (fun x => F64.isnan x = true) col.
Proof.
  induction col as [| x col IH]; simpl; [ split; auto | ].
  destruct (F64.isnan x) eqn:N; simpl.
  - rewrite IH. split; intros H; [ now constructor | now inversion H ].
  - split; [ discriminate | intros H; inversion H; congruence ].
Qed.

Lemma col_max_spec (col : list F64.float) :
  (F64.isnan (col_max col) = true
   <-> Forall (fun x => F64.isnan x = true) col)
  /\ (F64.isnan (col_max col) = false -> In (col_max col) col)
  /\ forall y, In y col -> ltb (col_max col) y = false.
Proof.
  unfold col_max. pose proof (numbers_of col) as Hn. pose proof (no_number col) as H0.
  destruct (filter (fun x => negb (F64.isnan x)) col) as [| x xs] eqn:F.
  - split; [ split; [ intros _; now apply H0 | reflexivity ] | ].
    split; [ discriminate | reflexivity ].
  - inversion Hn as [| x' xs' Hx Hxs]; subst.
    destruct (fold_max xs x Hxs Hx) as (Hm & Hin & Hb).
    split; [ | split ].
    + split; [ intros H; cbv zeta in Hm; congruence | ].
      intros H. apply H0 in H. discriminate.
    + intros _. rewrite <- F in Hin. apply filter_In in Hin. apply Hin.
    + intros y Hy. destruct (F64.isnan y) eqn:Ny.
      * apply isnan_true in Ny. subst y. apply ltb_nan_r.
      * apply Hb. rewrite <- F. apply filter_In. now rewrite Ny.
Qed.

Lemma col_min_spec (col : list F64.float) :
  (F64.isnan (col_min col) = true
   <-> Forall (fun x => F64.isnan x = true) col)
  /\ (F64.isnan (col_min col) = false -> In (col_min col) col)
  /\ forall y, In y col -> ltb y (col_min col) = false.
Proof.
  unfold col_min. pose proof (numbers_of col) as Hn. pose proof (no_number col) as H0.
  destruct (filter (fun x => negb (F64.isnan x)) col) as [| x xs] eqn:F.
  - split; [ split; [ intros _; now apply H0 | reflexivity ] | ].
    split; [ discriminate | ]. intros y _. apply ltb_nan_r.
  - inversion Hn as [| x' xs' Hx Hxs]; subst.
    destruct (fold_min xs x Hxs Hx) as (Hm & Hin & Hb).
    split; [ | split ].
    + split; [ intros H; cbv zeta in Hm; congruence | ].
      intros H. apply H0 in H. discriminate.
    + intros _. rewrite <- F in Hin. apply filter_In in Hin. apply Hin.
    + intros y Hy. destruct (F64.isnan y) eqn:Ny.
      * apply isnan_true in Ny. subst y. reflexivity.
      * apply Hb. rewrite <- F. apply filter_In. now rewrite Ny.
Qed.

End FloatOrder.

(** X17. [fetch_history] never raises, and the frame it returns always has
    the column Date, holding dates, and the columns Open, High, Low, Close
    and Volume, holding floats, whatever the download was. [compute_kpis]
    returns on that frame when it has no row, and when each of High, Low
    and Close labels one column, as when the labels of the download are
    distinct in title case. It raises TypeError when the frame has rows
    and one of the three labels is on two columns or more, as for a
    download with the columns close and Close. *)
Theorem history_frame_is_complete :
  forall (yf : string -> Z -> Z -> result App.download)
         (ticker : string) (start end_ : Z),
    (exists df, App.fetch_history yf ticker start end_ = Ok df)
    /\ forall df,
         App.fetch_history yf ticker start end_ = Ok df ->
         (exists idx, lookup "Date" df = Some (App.Dates idx))
         /\ (forall c, In c ["Open"; "High"; "Low"; "Close"; "Volume"] ->
                       exists l, lookup c df = Some (App.Floats l))
         /\ (App.frame_empty df = true -> exists k, App.compute_kpis df = Ok k)
         /\ ((forall c, In c ["High"; "Low"; "Close"] ->
                        List.length (App.labelled df c) = 1%nat) ->
             exists k, App.compute_kpis df = Ok k)
         /\ (forall d,
                yf ticker start end_ = Ok d ->
                NoDup (map App.title match App.d_columns d with
                                     | App.MultiIndex cs => map fst cs
                                     | App.Index ns => ns
                                     end) ->
                exists k, App.compute_kpis df = Ok k)
         /\ (App.frame_empty df = false ->
             (exists c, In c ["High"; "Low"; "Close"]
                        /\ (2 <= List.length (App.labelled df c))%nat) ->
             App.compute_kpis df = Raise TypeError).
Proof.
  intros yf ticker start end_.
  destruct (fetch_history_shape yf ticker start end_)
    as (df0 & Hdf0 & (idx & Hd & _) & Hc).
  split; [ eauto | ].
  intros df Hdf. rewrite Hdf0 in Hdf. injection Hdf as <-.
  pose proof (fetch_history_labelled yf ticker start end_ df0 Hdf0) as HL.
  destruct (HL "High") as (Hh1 & Hh2 & Hh3); [ simpl; tauto | ].
  destruct (HL "Low") as (Hl1 & Hl2 & Hl3); [ simpl; tauto | ].
  destruct (HL "Close") as (Hc1 & Hc2 & Hc3); [ simpl; tauto | ].
  pose proof (float_column_cases df0 "High" Hh1 Hh2) as FH.
  pose proof (float_column_cases df0 "Low" Hl1 Hl2) as FL.
  pose proof (float_column_cases df0 "Close" Hc1 Hc2) as FC.
  assert (One : (forall c, In c ["High"; "Low"; "Close"] ->
                           (List.length (App.labelled df0 c) <= 1)%nat) ->
                exists k, App.compute_kpis df0 = Ok k).
  { intros H1. unfold App.compute_kpis.
    destruct (App.frame_empty df0); [ eauto | ].
    pose proof (H1 "High" (or_introl eq_refl)) as B1.
    pose proof (H1 "Low" (or_intror (or_introl eq_refl))) as B2.
    pose proof (H1 "Close" (or_intror (or_intror (or_introl eq_refl)))) as B3.
    destruct FH as [(h & _ & ->) | (B & _)]; [ | lia ].
    destruct FL as [(l & _ & ->) | (B & _)]; [ | lia ].
    destruct FC as [(c & _ & ->) | (B & _)]; [ | lia ].
    cbn [bind]. eauto. }
  split; [ eauto | ]. split; [ exact Hc | ].
  split; [ intros E; unfold App.compute_kpis; rewrite E; eauto | ].
  split; [ intros H1; apply One; intros c Hin; rewrite (H1 c Hin); lia | ].
  split.
  - intros d Hyf Hnd. apply One. intros c Hin.
    destruct (HL c) as (_ & _ & H3); [ simpl in *; tauto | ].
    now apply (H3 d).
  - intros E (c & Hin & H2). unfold App.compute_kpis. rewrite E.
    simpl in Hin. destruct Hin as [<- | [<- | [<- | []]]].
    + destruct FH as [(h & Eh & _) | (_ & ->)]; [ | reflexivity ].
      rewrite Eh in H2. simpl in H2. lia.
    + destruct FL as [(l & El & _) | (_ & Fl)];
        [ rewrite El in H2; simpl in H2; lia | ].
      destruct FH as [(h & _ & ->) | (_ & ->)]; [ | reflexivity ].
      cbn [bind]. now rewrite Fl.
    + destruct FC as [(l & El & _) | (_ & Fc)];
        [ rewrite El in H2; simpl in H2; lia | ].
      destruct FH as [(h & _ & ->) | (_ & ->)]; [ | reflexivity ].
      cbn [bind].
      destruct FL as [(l & _ & ->) | (_ & ->)]; [ | reflexivity ].
      cbn [bind]. now rewrite Fc.
Qed.

(** The download with the columns close and Close gives a frame with two
    columns Close, on which [compute_kpis] raises; the sample download has
    distinct labels, and [compute_kpis] returns. *)
Lemma history_frame_is_complete_witness :
  App.compute_kpis
    [ ("Date", App.Dates [ Some 1704153600000000000 ]);
      ("Close", App.Floats [ F64.of_Z 2040 ]);
      ("Close", App.Floats [ F64.of_Z 2041 ]);
      ("High", App.Floats [ F64.of_Z 2060 ]);
      ("Low", App.Floats [ F64.of_Z 2030 ]);
      ("Open", App.Floats [ F64.nan ]);
      ("Volume", App.Floats [ F64.nan ]) ]
  = Raise TypeError
  /\ exists k,
       App.compute_kpis
         [ ("Date", App.Dates (App.d_index Sample.two_days));
           ("Close", App.Floats [ F64.of_Z 2040; F64.of_Z 2050 ]);
           ("High", App.Floats [ F64.of_Z 2060; F64.of_Z 2055 ]);
           ("Low", App.Floats [ F64.of_Z 2030; F64.of_Z 2035 ]);
           ("Open", App.Floats [ F64.of_Z 2045; F64.of_Z 2041 ]);
           ("Volume", App.Floats [ F64.nan; F64.nan ]) ]
       = Ok k.
Proof.
  split.
  - apply (proj2 (history_frame_is_complete
                    (fun _ _ _ => Ok Sample.two_closes) "GC=F" 0 1) _ eq_refl).
    + reflexivity.
    + exists "Close". split; [ simpl; tauto | ]. simpl. lia.
  - apply (proj2 (history_frame_is_complete
                    (fun _ _ _ => Ok Sample.two_days) "GC=F" 0 1) _ eq_refl).
    intros c Hc. simpl in Hc.
    destruct Hc as [<- | [<- | [<- | []]]]; reflexivity.
Defined.

(** X18. From a download without a label that reads "Date", the frame
    keeps the index as the column Date and every downloaded column under
    its label in title case (the first part of a (field, ticker) label);
    a column among Open, High, Low, Close, Volume that the download lacks
    is added, filled with NaN, one per date. *)
Theorem history_keeps_the_download :
  forall (yf : string -> Z -> Z -> result App.download)
         (ticker : string) (start end_ : Z) (d : App.download),
    yf ticker start end_ = Ok d ->
    CryptoPrices.mem "Date"
      (map App.title match App.d_columns d with
                     | App.MultiIndex cs => map fst cs
                     | App.Index ns => ns
                     end) = false ->
    exists df,
      App.fetch_history yf ticker start end_ = Ok df
      /\ lookup "Date" df = Some (App.Dates (App.d_index d))
      /\ (forall c col,
             lookup c (combine
                         (map App.title match App.d_columns d with
                                        | App.MultiIndex cs => map fst cs
                                        | App.Index ns => ns
                                        end)
                         (map App.Floats (App.d_data d))) = Some col ->
             lookup c df = Some col)
      /\ (forall c,
             In c ["Open"; "High"; "Low"; "Close"; "Volume"] ->
             lookup c (combine
                         (map App.title match App.d_columns d with
                                        | App.MultiIndex cs => map fst cs
                                        | App.Index ns => ns
                                        end)
                         (map App.Floats (App.d_data d))) = None ->
             lookup c df =
             Some (App.Floats (repeat F64.nan (List.length (App.d_index d))))).
Proof.
  intros yf ticker start end_ d Hd Hm.
  eexists. split; [ exact (fetch_history_of_download yf ticker start end_ d Hd Hm) | ].
  split; [ rewrite ensure_columns_spec; reflexivity | ]. split.
  - intros c col L. rewrite ensure_columns_spec. cbn [lookup].
    destruct (String.eqb c "Date") eqn:E.
    + apply String.eqb_eq in E. subst c.
      assert (In "Date" (map fst (combine
                (map App.title match App.d_columns d with
                               | App.MultiIndex cs => map fst cs
                               | App.Index ns => ns
                               end)
                (map App.Floats (App.d_data d))))).
      { destruct (lookup_none "Date" (combine
                (map App.title match App.d_columns d with
                               | App.MultiIndex cs => map fst cs
                               | App.Index ns => ns
                               end)
                (map App.Floats (App.d_data d)))) as (A & B).
        destruct (in_dec string_dec "Date" (map fst (combine
                (map App.title match App.d_columns d with
                               | App.MultiIndex cs => map fst cs
                               | App.Index ns => ns
                               end)
                (map App.Floats (App.d_data d))))) as [Hin | Hout];
          [ exact Hin | rewrite (B Hout) in L; discriminate ]. }
      apply in_map_iff in H. destruct H as ([k v] & Hk & Hin). cbn [fst] in Hk.
      subst k. apply in_combine_l in Hin. apply mem_In in Hin. congruence.
    + now rewrite L.
  - intros c Hc L. rewrite ensure_columns_spec. cbn [lookup].
    assert (Hmem : CryptoPrices.mem c ["Open"; "High"; "Low"; "Close"; "Volume"]
                   = true) by (now apply mem_In).
    assert (Hnd : String.eqb c "Date" = false)
      by (simpl in Hc;
          repeat (destruct Hc as [<- | Hc]; [ reflexivity | ]); destruct Hc).
    now rewrite Hnd, L, Hmem.
Qed.

(** The sample download: its closes are kept, its volume is NaN. *)
Lemma history_keeps_the_download_witness :
  exists df,
    App.fetch_history (fun _ _ _ => Ok Sample.two_days) "GC=F" 0 1 = Ok df
    /\ lookup "Date" df = Some (App.Dates (App.d_index Sample.two_days))
    /\ (forall c col,
           lookup c (combine
                       (map App.title
                          match App.d_columns Sample.two_days with
                          | App.MultiIndex cs => map fst cs
                          | App.Index ns => ns
                          end)
                       (map App.Floats (App.d_data Sample.two_days))) = Some col ->
           lookup c df = Some col)
    /\ (forall c,
           In c ["Open"; "High"; "Low"; "Close"; "Volume"] ->
           lookup c (combine
                       (map App.title
                          match App.d_columns Sample.two_days with
                          | App.MultiIndex cs => map fst cs
                          | App.Index ns => ns
                          end)
                       (map App.Floats (App.d_data Sample.two_days))) = None ->
           lookup c df =
           Some (App.Floats
                   (repeat F64.nan (List.length (App.d_index Sample.two_days))))).
Proof.
  apply (history_keeps_the_download (fun _ _ _ => Ok Sample.two_days) "GC=F" 0 1);
    reflexivity.
Defined.

(** X19. When the download raises, or has a column whose label reads
    "Date" in title case (the index cannot be inserted then),
    [fetch_history] returns the frame with the six columns and no row, and
    the four indicators of [compute_kpis] on it are NaN. *)
Theorem history_without_data :
  forall (yf : string -> Z -> Z -> result App.download)
         (ticker : string) (start end_ : Z),
    (exists e, yf ticker start end_ = Raise e)
    \/ (exists d,
          yf ticker start end_ = Ok d
          /\ CryptoPrices.mem "Date"
               (map App.title match App.d_columns d with
                              | App.MultiIndex cs => map fst cs
                              | App.Index ns => ns
                              end) = true) ->
    App.fetch_history yf ticker start end_ = Ok App.empty_frame
    /\ App.compute_kpis App.empty_frame =
       Ok {| App.Highest_Value := F64.nan;
             App.Lowest_Value := F64.nan;
             App.Highest_Closing_Price := F64.nan;
             App.Lowest_Closing_Price := F64.nan |}.
Proof.
  intros yf ticker start end_ H. split; [ | reflexivity ].
  unfold App.fetch_history, App.fetch_history_body.
  destruct H as [(e & ->) | (d & -> & Hm)]; cbn [bind]; [ reflexivity | ].
  rewrite Hm. reflexivity.
Qed.

(** A download that fails, and one with a column "date". *)
Lemma history_without_data_witness :
  App.fetch_history (fun _ _ _ => Raise DownloadError) "GC=F" 0 1
  = Ok App.empty_frame
  /\ App.fetch_history
       (fun _ _ _ => Ok {| App.d_columns := App.Index ["date"; "close"];
                           App.d_index := [ Some 0 ];
                           App.d_data := [ [ F64.zero ]; [ F64.zero ] ] |})
       "GC=F" 0 1
     = Ok App.empty_frame.
Proof.
  split.
  - apply (history_without_data (fun _ _ _ => Raise DownloadError) "GC=F" 0 1).
    left. exists DownloadError. reflexivity.
  - apply (history_without_data
             (fun _ _ _ => Ok {| App.d_columns := App.Index ["date"; "close"];
                                 App.d_index := [ Some 0 ];
                                 App.d_data := [ [ F64.zero ]; [ F64.zero ] ] |})
             "GC=F" 0 1).
    right. eexists. split; reflexivity.
Defined.

(** X20. On a frame with rows where each of High, Low and Close labels
    one column, of floats, the indicators of [compute_kpis] bound their
    columns: no High is above the Highest Value, no Low below the
    Lowest Value, no Close above the Highest or below the Lowest Closing
    Price, and the Highest Closing Price is not below the Lowest. An
    indicator is NaN exactly when its column has no number, and is
    otherwise an entry of its column. *)
Theorem kpis_bound_their_columns :
  forall (df : App.frame) (high low close : list F64.float),
    App.frame_empty df = false ->
    App.labelled df "High" = [ App.Floats high ] ->
    App.labelled df "Low" = [ App.Floats low ] ->
    App.labelled df "Close" = [ App.Floats close ] ->
    exists k,
      App.compute_kpis df = Ok k
      /\ (forall x, In x high -> App.ltb (App.Highest_Value k) x = false)
      /\ (forall x, In x low -> App.ltb x (App.Lowest_Value k) = false)
      /\ (forall x, In x close ->
                    App.ltb (App.Highest_Closing_Price k) x = false
                    /\ App.ltb x (App.Lowest_Closing_Price k) = false)
      /\ App.ltb (App.Highest_Closing_Price k) (App.Lowest_Closing_Price k)
         = false
      /\ (F64.isnan (App.Highest_Value k) = true
          <-> Forall (fun x => F64.isnan x = true) high)
      /\ (F64.isnan (App.Lowest_Value k) = true
          <-> Forall (fun x => F64.isnan x = true) low)
      /\ (F64.isnan (App.Highest_Closing_Price k) = true
          <-> Forall (fun x => F64.isnan x = true) close)
      /\ (F64.isnan (App.Lowest_Closing_Price k) = true
          <-> Forall (fun x => F64.isnan x = true) close)
      /\ (F64.isnan (App.Highest_Value k) = false -> In (App.Highest_Value k) high)
      /\ (F64.isnan (App.Lowest_Value k) = false -> In (App.Lowest_Value k) low)
      /\ (F64.isnan (App.Highest_Closing_Price k) = false ->
          In (App.Highest_Closing_Price k) close)
      /\ (F64.isnan (App.Lowest_Closing_Price k) = false ->
          In (App.Lowest_Closing_Price k) close).
Proof.
  intros df high low close He Hh Hl Hc.
  unfold App.compute_kpis, App.float_column. rewrite He, Hh, Hl, Hc. cbn [bind].
  eexists. split; [ reflexivity | ].
  cbn [App.Highest_Value App.Lowest_Value App.Highest_Closing_Price
       App.Lowest_Closing_Price].
  destruct (col_max_spec high) as (Hn1 & Hi1 & Hb1).
  destruct (col_min_spec low) as (Hn2 & Hi2 & Hb2).
  destruct (col_max_spec close) as (Hn3 & Hi3 & Hb3).
  destruct (col_min_spec close) as (Hn4 & Hi4 & Hb4).
  repeat split; auto; try tauto.
  destruct (F64.isnan (App.col_min close)) eqn:N.
  - apply isnan_true in N. rewrite N. apply ltb_nan_r.
  - apply Hb3. now apply Hi4.
Qed.

(** The indicators of the sample download. *)
Lemma kpis_bound_their_columns_witness :
  exists k,
    App.compute_kpis
      [ ("Date", App.Dates (App.d_index Sample.two_days));
        ("Close", App.Floats [ F64.of_Z 2040; F64.of_Z 2050 ]);
        ("High", App.Floats [ F64.of_Z 2060; F64.nan ]);
        ("Low", App.Floats [ F64.of_Z 2030; F64.of_Z 2035 ]) ] = Ok k
    /\ App.Highest_Value k = F64.of_Z 2060
    /\ App.Lowest_Value k = F64.of_Z 2030
    /\ App.Highest_Closing_Price k = F64.of_Z 2050
    /\ App.Lowest_Closing_Price k = F64.of_Z 2040
    /\ App.ltb (App.Highest_Closing_Price k) (App.Lowest_Closing_Price k) = false.
Proof.
  destruct (kpis_bound_their_columns
              [ ("Date", App.Dates (App.d_index Sample.two_days));
                ("Close", App.Floats [ F64.of_Z 2040; F64.of_Z 2050 ]);
                ("High", App.Floats [ F64.of_Z 2060; F64.nan ]);
                ("Low", App.Floats [ F64.of_Z 2030; F64.of_Z 2035 ]) ]
              [ F64.of_Z 2060; F64.nan ] [ F64.of_Z 2030; F64.of_Z 2035 ]
              [ F64.of_Z 2040; F64.of_Z 2050 ]
              eq_refl eq_refl eq_refl eq_refl)
    as (k & Hk & _ & _ & _ & Hle & _).
  exists k. split; [ exact Hk | ].
  vm_compute in Hk. injection Hk as <-.
  repeat split; try (vm_compute; reflexivity).
Defined.

(* ===================================================================== *)
(** * The snapshot of a fetched series *)
(* ===================================================================== *)

Section Latest.
Import CryptoStocks.

Lemma date_leb_refl (a : timestamp) : date_leb a a = true.
Proof. destruct a; simpl; [ apply Z.leb_refl | reflexivity ]. Qed.

Lemma last_is_latest (front : list bar) (l : bar) :
  StronglySorted date_le (front ++ [l]) ->
  forall b, In b (front ++ [l]) -> date_le b l.
Proof.
  induction front as [| a front IH]; simpl; intros H b Hb.
  - destruct Hb as [<- | []]. apply date_leb_refl.
  - inversion H as [| x xs Hs Hall]; subst.
    destruct Hb as [<- | Hb]; [ | now apply IH ].
    rewrite Forall_forall in Hall. apply Hall. apply in_app_iff. right. now left.
Qed.

End Latest.

(** X21. The snapshot of a series that [av_fetch_daily_series] returned
    with at least one bar shows the close of the latest date: its current
    price is the Close of a bar of the series that no bar of the series is
    dated after (a bar without date counting as the last), in whatever
    order the payload listed the dates. *)
Theorem snapshot_shows_the_latest_close :
  forall (to_datetime : string -> result CryptoStocks.timestamp)
         (float_of_str : string -> option F64.float)
         (net : network json) (symbol api_key : string)
         (df : list CryptoStocks.bar),
    CryptoStocks.av_fetch_daily_series to_datetime float_of_str net
      symbol api_key = Ok df ->
    df <> [] ->
    exists s l,
      CryptoStocks.compute_snapshot_from_series df = Ok s
      /\ In l df
      /\ CryptoStocks.current_price s = CryptoStocks.Close l
      /\ forall b, In b df -> CryptoStocks.date_le b l.
Proof.
  intros to_datetime float_of_str net symbol api_key df Hdf Hne.
  pose proof (date_le_strongly_sorted df
                (av_fetch_sorted _ _ _ _ _ _ Hdf)) as Hs.
  destruct (snapshot_returns df) as (s & Hsnap & Hcur).
  destruct (exists_last Hne) as (front & l & E). subst df.
  exists s, l. split; [ exact Hsnap | ].
  split; [ apply in_app_iff; right; now left | ].
  split; [ | now apply last_is_latest ].
  rewrite Hcur, map_app. simpl. apply last_last.
Qed.

(** The sample payload lists 2024-01-03 first; the snapshot shows its
    close, 110. *)
Lemma snapshot_shows_the_latest_close_witness :
  exists s l,
    CryptoStocks.compute_snapshot_from_series
      [ Sample.ohlcv_bar 1704153600000000000 F64.nan (F64.of_Z 108)
          (F64.of_Z 95) (F64.of_Z 100) (F64.of_Z 9);
        Sample.ohlcv_bar 1704240000000000000 F64.nan (F64.of_Z 120)
          (F64.of_Z 100) (F64.of_Z 110) (F64.of_Z 7) ] = Ok s
    /\ In l [ Sample.ohlcv_bar 1704153600000000000 F64.nan (F64.of_Z 108)
                (F64.of_Z 95) (F64.of_Z 100) (F64.of_Z 9);
              Sample.ohlcv_bar 1704240000000000000 F64.nan (F64.of_Z 120)
                (F64.of_Z 100) (F64.of_Z 110) (F64.of_Z 7) ]
    /\ CryptoStocks.current_price s = CryptoStocks.Close l
    /\ forall b,
         In b [ Sample.ohlcv_bar 1704153600000000000 F64.nan (F64.of_Z 108)
                  (F64.of_Z 95) (F64.of_Z 100) (F64.of_Z 9);
                Sample.ohlcv_bar 1704240000000000000 F64.nan (F64.of_Z 120)
                  (F64.of_Z 100) (F64.of_Z 110) (F64.of_Z 7) ] ->
         CryptoStocks.date_le b l.
Proof.
  apply (snapshot_shows_the_latest_close Sample.to_datetime Sample.float_of_str
           (Sample.ok200 Sample.crypto_daily) "BTC-USD" "demo").
  - vm_compute. reflexivity.
  - discriminate.
Defined.
